(** * tf-sbom: Terraform module discovery and SBOM export

    A shallow embedding of the Go sources of the repository
    (internal/sbom, internal/export and the copies kept in main.go),
    followed by the properties established about them.

    Conventions.
    - Go strings are byte strings: [string].  A Go slice is [slice A]: the
      nil slice is [None], a slice with backing storage is [Some l].
    - A path handed to the operating system is modelled by what the file
      system holds at that path ([lookup]); the tree below a directory is
      the state the walk runs over, fixed for the duration of one call.
    - Library routines of the Go distribution that the code calls
      (strings, path/filepath, fmt, time, encoding/csv) are written out
      for Unix, where the path separator is the single byte "/". *)

From Stdlib Require Import ZArith Ascii String List Bool Lia Permutation.
From stdpp Require Import gmap strings list pretty.

Open Scope string_scope.
Open Scope list_scope.

(* ===================================================================== *)
(** * Go values *)
(* ===================================================================== *)

(** A Go slice: [None] is the nil slice. *)
Definition slice (A : Type) : Type := option (list A).

(** The elements a [range] over the slice visits, in order. *)
Definition elems {A} (s : slice A) : list A :=
  match s with
  | None => []
  | Some l => l
  end.

(** [append(s, x)]: appending to the nil slice allocates. *)
Definition append {A} (s : slice A) (x : A) : slice A := Some (elems s ++ [x]).

(** A Go [error] value is represented by its message; [None] is the nil error. *)
Definition error : Type := option string.

(** The bytes written for the escapes of Go string literals. *)
Definition TAB : ascii := ascii_of_nat 9.
Definition LF : ascii := ascii_of_nat 10.
Definition CR : ascii := ascii_of_nat 13.
Definition QUOTE : ascii := ascii_of_nat 34.

(* ===================================================================== *)
(** * package strings *)
(* ===================================================================== *)

(** [len(s) >= len(prefix) && s[:len(prefix)] == prefix] *)
Definition strings_HasPrefix (s prefix : string) : bool :=
  (String.length prefix <=? String.length s)%nat
  && String.eqb (substring 0 (String.length prefix) s) prefix.

(** [len(s) >= len(suffix) && s[len(s)-len(suffix):] == suffix] *)
Definition strings_HasSuffix (s suffix : string) : bool :=
  (String.length suffix <=? String.length s)%nat
  && String.eqb
       (substring (String.length s - String.length suffix) (String.length suffix) s)
       suffix.

Definition strings_TrimSuffix (s suffix : string) : string :=
  if strings_HasSuffix s suffix
  then substring 0 (String.length s - String.length suffix) s
  else s.

(** [strings.Split(s, sep)] for a separator of one byte: the pieces between
    the occurrences of [sep]; the empty string gives the one piece [""]. *)
Fixpoint strings_Split (s : string) (sep : ascii) : list string :=
  match s with
  | "" => [""]
  | String c s' =>
      if Ascii.eqb c sep then "" :: strings_Split s' sep
      else match strings_Split s' sep with
           | [] => [String c ""]
           | piece :: pieces => String c piece :: pieces
           end
  end.

(** [strings.Join(elems, sep)] *)
Fixpoint strings_Join (l : list string) (sep : string) : string :=
  match l with
  | [] => ""
  | [x] => x
  | x :: rest => x +:+ sep +:+ strings_Join rest sep
  end.

(* ===================================================================== *)
(** * package path/filepath (Unix) *)
(* ===================================================================== *)

Definition Separator : ascii := "/"%char.

Definition os_IsPathSeparator (c : ascii) : bool := Ascii.eqb c Separator.

(** The loop of [filepath.Ext], which runs from the last byte towards the
    first: [r] is the part of the path not yet looked at, reversed, and
    [acc] the bytes already passed. *)
Fixpoint ext_scan (r acc : string) : string :=
  match r with
  | "" => ""
  | String c r' =>
      if os_IsPathSeparator c then ""
      else if Ascii.eqb c "."%char then String c acc
      else ext_scan r' (String c acc)
  end.

Definition filepath_Ext (path : string) : string := ext_scan (String.rev path) "".

(** Strip the trailing slashes of a path given reversed. *)
Fixpoint strip_seps (r : string) : string :=
  match r with
  | String c r' => if os_IsPathSeparator c then strip_seps r' else r
  | "" => ""
  end.

(** The last element of a path given reversed: the bytes up to the first
    separator, put back in order. *)
Fixpoint last_elem (r acc : string) : string :=
  match r with
  | "" => acc
  | String c r' => if os_IsPathSeparator c then acc else last_elem r' (String c acc)
  end.

Definition filepath_Base (path : string) : string :=
  if String.eqb path "" then "."
  else
    let path := last_elem (strip_seps (String.rev path)) "" in
    if String.eqb path "" then "/" else path.

(** [filepath.Clean] works through the elements of the path: empty elements
    and "." are dropped, ".." removes the element before it when there is
    one to remove, is dropped at the root and is kept otherwise.  [out]
    holds the elements kept so far, the last one first. *)
Fixpoint clean_elems (rooted : bool) (out : list string) (elements : list string)
  : list string :=
  match elements with
  | [] => rev out
  | e :: rest =>
      if String.eqb e "" || String.eqb e "." then clean_elems rooted out rest
      else if String.eqb e ".." then
        match out with
        | top :: below =>
            if String.eqb top ".." then clean_elems rooted (".." :: out) rest
            else clean_elems rooted below rest
        | [] =>
            if rooted then clean_elems rooted [] rest
            else clean_elems rooted [".."] rest
        end
      else clean_elems rooted (e :: out) rest
  end.

Definition filepath_Clean (path : string) : string :=
  if String.eqb path "" then "."
  else
    let rooted := strings_HasPrefix path "/" in
    let out := strings_Join (clean_elems rooted [] (strings_Split path Separator)) "/" in
    if rooted then "/" +:+ out
    else if String.eqb out "" then "." else out.

(** [filepath.Join(a, b)]: empty leading elements are ignored, the rest is
    joined with the separator and cleaned. *)
Definition filepath_Join (a b : string) : string :=
  if String.eqb a "" then (if String.eqb b "" then "" else filepath_Clean b)
  else filepath_Clean (a +:+ "/" +:+ b).

Definition filepath_IsAbs (path : string) : bool := strings_HasPrefix path "/".

(* ===================================================================== *)
(** * The file system *)
(* ===================================================================== *)

(** A directory entry together with what lies below it.  [File] stands for
    every entry that is not a directory.  For a directory, [listed] are the
    entries [os.ReadDir] returns (it returns them sorted by name) and
    [rderr] the error it returns with them, if any; [unlisted] are entries
    of the directory the failed read did not deliver (a directory without
    read permission lists nothing and keeps all its entries there). *)
#[local] Unset Elimination Schemes.
Inductive entry : Type :=
| File (name : string)
| Dir (name : string) (listed : list entry) (rderr : error) (unlisted : list entry).
#[local] Set Elimination Schemes.

(** [DirEntry.Name] and [DirEntry.IsDir]. *)
Definition Name (d : entry) : string :=
  match d with
  | File name => name
  | Dir name _ _ _ => name
  end.

Definition IsDir (d : entry) : bool :=
  match d with
  | File _ => false
  | Dir _ _ _ _ => true
  end.

(** Everything a directory holds, delivered by a read or not. *)
Definition contents (d : entry) : list entry :=
  match d with
  | File _ => []
  | Dir _ listed _ unlisted => listed ++ unlisted
  end.

(** What the file system holds at a path. *)
Inductive lookup : Type :=
| NoEnt                     (* nothing there: the error satisfies os.IsNotExist *)
| Fails (err : string)      (* the path cannot be examined, for another reason *)
| Node (d : entry).

Definition FileSystem : Type := string -> lookup.

Definition ENOENT : string := "no such file or directory".
Definition ENOTDIR : string := "not a directory".

(** [os.ReadDir] of the path whose lookup is given. *)
Definition os_ReadDir (at_path : lookup) : list entry * error :=
  match at_path with
  | NoEnt => ([], Some ENOENT)
  | Fails err => ([], Some err)
  | Node (File _) => ([], Some ENOTDIR)
  | Node (Dir _ listed rderr _) => (listed, rderr)
  end.

(** The outcome of [os.Stat]: the two kinds of failure the code tells
    apart, or the file information (of which only [IsDir] is used). *)
Inductive stat_result : Type :=
| StatNotExist
| StatError (err : string)
| StatInfo (isDir : bool).

Definition os_Stat (fs : FileSystem) (path : string) : stat_result :=
  match fs path with
  | NoEnt => StatNotExist
  | Fails err => StatError err
  | Node d => StatInfo (IsDir d)
  end.

(** ** filepath.WalkDir *)

(** The values a [fs.WalkDirFunc] returns besides nil. *)
Inductive walk_error : Type :=
| SkipDir
| SkipAll
| Failure (msg : string).

(** A walk function reads and writes variables of its enclosing function;
    [St] is the type of those variables.  Its arguments are the path, the
    entry ([None] for Go's nil) and the error of the walk. *)
Definition WalkDirFunc (St : Type) : Type :=
  string -> option entry -> error -> St -> option walk_error * St.

(** [filepath.walkDir], the recursive part of the walk. *)
Fixpoint walkDir {St} (fn : WalkDirFunc St) (path : string) (d : entry) (st : St)
  : option walk_error * St :=
  match fn path (Some d) None st with
  | (Some err, st) =>
      match err, IsDir d with
      | SkipDir, true => (None, st)       (* Successfully skipped directory. *)
      | _, _ => (Some err, st)
      end
  | (None, st) =>
      match d with
      | File _ => (None, st)
      | Dir _ dirs rderr _ =>
          (* Second call, to report ReadDir error. *)
          let '(r, st) :=
            match rderr with
            | Some e => fn path (Some d) (Some e) st
            | None => (None, st)
            end in
          match r with
          | Some SkipDir => (None, st)
          | Some err => (Some err, st)
          | None =>
              (fix loop (dirs : list entry) (st : St) : option walk_error * St :=
                 match dirs with
                 | [] => (None, st)
                 | d1 :: dirs' =>
                     match walkDir fn (filepath_Join path (Name d1)) d1 st with
                     | (Some SkipDir, st) => (None, st)      (* break *)
                     | (Some err, st) => (Some err, st)
                     | (None, st) => loop dirs' st
                     end
                 end) dirs st
          end
      end
  end.

(** The message of a walk error that reaches the caller of [WalkDir]. *)
Definition walk_error_message (e : walk_error) : string :=
  match e with
  | SkipDir => "skip this directory"
  | SkipAll => "skip everything and stop the walk"
  | Failure msg => msg
  end.

(** [filepath.WalkDir(root, fn)] *)
Definition filepath_WalkDir {St} (fs : FileSystem) (root : string)
  (fn : WalkDirFunc St) (st : St) : error * St :=
  let '(err, st) :=
    match fs root with
    | NoEnt => fn root None (Some ENOENT) st
    | Fails e => fn root None (Some e) st
    | Node d => walkDir fn root d st
    end in
  match err with
  | None | Some SkipDir | Some SkipAll => (None, st)
  | Some (Failure msg) => (Some msg, st)
  end.

(* ===================================================================== *)
(** * package sbom: finding the module directories *)
(* ===================================================================== *)

(** HasTerraformFiles checks if a directory contains any .tf files *)
Definition HasTerraformFiles (dir : lookup) : bool :=
  let '(entries, err) := os_ReadDir dir in
  match err with
  | Some _ => false
  | None =>
      existsb (fun entry => negb (IsDir entry) && strings_HasSuffix (Name entry) ".tf")
              entries
  end.

(** ValidateTerraformDirectory checks if a directory exists and is suitable
    for Terraform module loading *)
Definition ValidateTerraformDirectory (fs : FileSystem) (path : string) : error :=
  match os_Stat fs path with
  | StatNotExist => Some ("path does not exist: " +:+ path)
  | StatError err => Some ("failed to stat path: " +:+ err)
  | StatInfo isDir =>
      if negb isDir
      then Some ("path must be a directory containing Terraform files: " +:+ path)
      else None
  end.

(** The line [fmt.Fprintf(os.Stderr, "Warning: skipping %s due to error:
    %v\n", path, err)] prints. *)
Definition skip_warning (path err : string) : string :=
  "Warning: skipping " +:+ path +:+ " due to error: " +:+ err +:+ String LF "".

(** The variables the walk function of [FindTerraformModules] works on:
    the captured slice [modules], and what has been printed on the
    standard error stream. *)
Record finder : Type := {
  modules : slice string;
  stderr : list string;
}.

Definition find_visit (root : string) : WalkDirFunc finder :=
  fun path d err st =>
    match err with
    | Some e =>
        (* Log the error and continue walking instead of aborting *)
        (None, {| modules := modules st;
                  stderr := stderr st ++ [skip_warning path e] |})
    | None =>
        match d with
        | None => (None, st)
        | Some d =>
            (* Skip hidden directories (e.g., .terraform, .git) *)
            if IsDir d && strings_HasPrefix (Name d) "." && negb (String.eqb path root)
            then (Some SkipDir, st)
            else if IsDir d && HasTerraformFiles (Node d)
            then (None, {| modules := append (modules st) path; stderr := stderr st |})
            else (None, st)
        end
    end.

(** FindTerraformModules recursively searches for directories containing
    Terraform files.  The result is the returned slice, the returned error
    and the lines written to the standard error stream. *)
Definition FindTerraformModules (fs : FileSystem) (root : string) (recursive : bool)
  : slice string * error * list string :=
  if negb recursive then
    if HasTerraformFiles (fs root) then (Some [root], None, [])
    else (Some [], None, [])
  else
    let '(err, st) :=
      filepath_WalkDir fs root (find_visit root) {| modules := None; stderr := [] |} in
    (modules st, err, stderr st).

(* ===================================================================== *)
(** * package fmt and package time *)
(* ===================================================================== *)

(** The verb [%d] applied to an [int]. *)
Definition fmt_d (x : Z) : string := pretty x.

(** [n] copies of the byte "0". *)
Fixpoint zeros (n : nat) : string :=
  match n with
  | O => ""
  | S n' => String "0"%char (zeros n')
  end.

(** [appendInt] of package time: the decimal form of [x], the digits of its
    absolute value padded with zeros to [width]. *)
Definition appendInt (x : Z) (width : nat) : string :=
  let digits := pretty (Z.abs x) in
  (if (x <? 0)%Z then "-" else "") +:+ zeros (width - String.length digits) +:+ digits.

(** A [time.Time] as the formatting routines see it: the civil date and
    clock of the instant in its location, and the offset of that location
    east of UTC, in seconds. *)
Record Time : Type := {
  year : Z; month : Z; day : Z;
  hour : Z; minute : Z; second : Z;
  offset : Z;
}.

(** Date and clock, shared by the two layouts in use:
    2006-01-02T15:04:05 *)
Definition format_date_clock (t : Time) : string :=
  appendInt (year t) 4 +:+ "-" +:+ appendInt (month t) 2 +:+ "-" +:+ appendInt (day t) 2
  +:+ "T" +:+
  appendInt (hour t) 2 +:+ ":" +:+ appendInt (minute t) 2 +:+ ":" +:+ appendInt (second t) 2.

(** The zone of layout element Z07:00; Go's division truncates. *)
Definition format_zone (offset : Z) : string :=
  if (offset =? 0)%Z then "Z"
  else
    let zone := Z.quot offset 60 in
    (if (zone <? 0)%Z then "-" else "+") +:+
    appendInt (Z.quot (Z.abs zone) 60) 2 +:+ ":" +:+ appendInt (Z.rem (Z.abs zone) 60) 2.

(** [t.Format(time.RFC3339)], layout 2006-01-02T15:04:05Z07:00 *)
Definition Format_RFC3339 (t : Time) : string :=
  format_date_clock t +:+ format_zone (offset t).

(** [t.Format("2006-01-02T15:04:05Z")]: in this layout the final letter is
    not a zone element and is copied as it stands. *)
Definition Format_literal_Z (t : Time) : string := format_date_clock t +:+ "Z".

(** The shape of a string: a digit or a given byte at each position. *)
Inductive shape_item : Type :=
| Digit
| Byte (c : ascii).

Definition is_digit (c : ascii) : bool :=
  (48 <=? nat_of_ascii c)%nat && (nat_of_ascii c <=? 57)%nat.

Fixpoint has_shape (p : list shape_item) (s : string) : bool :=
  match p, s with
  | [], "" => true
  | Digit :: p', String c s' => is_digit c && has_shape p' s'
  | Byte b :: p', String c s' => Ascii.eqb b c && has_shape p' s'
  | _, _ => false
  end.

Definition shape_date_clock : list shape_item :=
  [Digit; Digit; Digit; Digit; Byte "-"; Digit; Digit; Byte "-"; Digit; Digit; Byte "T";
   Digit; Digit; Byte ":"; Digit; Digit; Byte ":"; Digit; Digit]%char.

(** The date-time of RFC 3339 without fraction of a second, with the zone
    given as Z or as a signed offset of hours and minutes. *)
Definition is_RFC3339 (s : string) : bool :=
  has_shape (shape_date_clock ++ [Byte "Z"%char]) s
  || has_shape (shape_date_clock ++ [Byte "+"; Digit; Digit; Byte ":"; Digit; Digit]%char) s
  || has_shape (shape_date_clock ++ [Byte "-"; Digit; Digit; Byte ":"; Digit; Digit]%char) s.

(** A date and clock as the calendar has them, in the years a four digit
    year can hold, with an offset of less than a day. *)
Definition civil (t : Time) : Prop :=
  (0 <= year t < 10000 /\ 1 <= month t <= 12 /\ 1 <= day t <= 31 /\
   0 <= hour t < 24 /\ 0 <= minute t < 60 /\ 0 <= second t < 60 /\
   -86400 < offset t < 86400)%Z.

(* ===================================================================== *)
(** * package tfconfig (terraform-config-inspect), as far as it is used *)
(* ===================================================================== *)

Module tfconfig.

Record SourcePos : Type := { Filename : string; Line : Z }.

Record ModuleCall : Type := {
  Name : string;
  Source : string;
  Version : string;
  Pos : SourcePos;
}.

(** [tfconfig.Module]; its field [ModuleCalls] is a Go map from the name of
    a call to the call. *)
Record Module_ : Type := { ModuleCalls : gmap string ModuleCall }.

(** [tfconfig.Diagnostics], by the two methods the code calls. *)
Record Diagnostics : Type := { HasErrors : bool; Error : string }.

End tfconfig.

(** Go does not specify the order in which [range] visits the entries of a
    map, and it may differ from one [range] statement to the next.  The
    runtime's choice for a range over the entries [l] is [o l]; every
    choice visits each entry once. *)
Definition MapOrder : Type :=
  list (string * tfconfig.ModuleCall) -> list (string * tfconfig.ModuleCall).

Definition visits_each_once (o : MapOrder) : Prop := forall l, Permutation (o l) l.

(** The values of a map in the order one [range] visits them. *)
Definition range_map (o : MapOrder) (m : gmap string tfconfig.ModuleCall)
  : list tfconfig.ModuleCall :=
  map snd (o (map_to_list m)).

(* ===================================================================== *)
(** * package sbom: types and generation *)
(* ===================================================================== *)

(** ModuleInfo represents information about a Terraform module *)
Module ModuleInfo.
Record t : Type := {
  Name : string;
  Source : string;
  Version : string;
  Location : string;
  Filename : string;
}.
End ModuleInfo.

(** SBOM represents a Software Bill of Materials for Terraform
    configurations.  ([XMLName] only carries the name of the XML element
    and is left out.) *)
Module SBOM.
Record t : Type := {
  Version : string;
  Generated : string;
  Tool : string;
  Modules : slice ModuleInfo.t;
}.
End SBOM.

(** What a run of the program finds around it. *)
Record Env : Type := {
  fs : FileSystem;
  os_Getwd : string * error;
  tfconfig_LoadModule : string -> tfconfig.Module_ * tfconfig.Diagnostics;
  time_Now : Time;
  (** the order chosen for the range over the module calls of the
      [i]-th directory loaded *)
  map_order : nat -> MapOrder;
}.

(** [filepath.Abs] *)
Definition filepath_Abs (env : Env) (path : string) : string * error :=
  if filepath_IsAbs path then (filepath_Clean path, None)
  else
    match os_Getwd env with
    | (_, Some err) => ("", Some err)
    | (wd, None) => (filepath_Join wd path, None)
    end.

(** Convert each module call to ModuleInfo *)
Definition moduleInfo_of (moduleCall : tfconfig.ModuleCall) : ModuleInfo.t :=
  {| ModuleInfo.Name := tfconfig.Name moduleCall;
     ModuleInfo.Source := tfconfig.Source moduleCall;
     ModuleInfo.Version := tfconfig.Version moduleCall;
     ModuleInfo.Location :=
       "Module call at " +:+ tfconfig.Filename (tfconfig.Pos moduleCall) +:+ ":"
       +:+ fmt_d (tfconfig.Line (tfconfig.Pos moduleCall));
     ModuleInfo.Filename := filepath_Base (tfconfig.Filename (tfconfig.Pos moduleCall)) |}.

(** [sbom.Modules = append(sbom.Modules, moduleInfo)] *)
Definition add_module (sbom : SBOM.t) (moduleInfo : ModuleInfo.t) : SBOM.t :=
  {| SBOM.Version := SBOM.Version sbom;
     SBOM.Generated := SBOM.Generated sbom;
     SBOM.Tool := SBOM.Tool sbom;
     SBOM.Modules := append (SBOM.Modules sbom) moduleInfo |}.

(** Process each directory and collect all modules: the loop of [Generate]
    from its [i]-th round on. *)
Fixpoint load_modules (env : Env) (i : nat) (moduleDirs : list string) (sbom : SBOM.t)
  : option SBOM.t * error :=
  match moduleDirs with
  | [] => (Some sbom, None)
  | moduleDir :: rest =>
      let '(module, diags) := tfconfig_LoadModule env moduleDir in
      if tfconfig.HasErrors diags then
        (None, Some ("failed to load Terraform module from " +:+ moduleDir +:+ ": "
                     +:+ tfconfig.Error diags))
      else
        load_modules env (S i) rest
          (fold_left (fun sbom moduleCall => add_module sbom (moduleInfo_of moduleCall))
                     (range_map (map_order env i) (tfconfig.ModuleCalls module))
                     sbom)
  end.

(** Generate generates a Software Bill of Materials for a Terraform
    configuration.  The result is the returned pointer ([None] for nil),
    the returned error and the lines written to the standard error stream. *)
Definition Generate (env : Env) (configPath : string) (recursive : bool)
  : option SBOM.t * error * list string :=
  (* Validate the configuration path exists *)
  match ValidateTerraformDirectory (fs env) configPath with
  | Some err => (None, Some err, [])
  | None =>
      (* Clean the path to ensure it's absolute *)
      match filepath_Abs env configPath with
      | (_, Some err) => (None, Some ("failed to get absolute path: " +:+ err), [])
      | (absPath, None) =>
          (* Find all Terraform module directories *)
          match FindTerraformModules (fs env) absPath recursive with
          | (_, Some err, printed) =>
              (None, Some ("failed to find Terraform modules: " +:+ err), printed)
          | (moduleDirs, None, printed) =>
              (* Create SBOM with initial structure *)
              let sbom :=
                {| SBOM.Version := "1.0";
                   SBOM.Generated := Format_RFC3339 (time_Now env);
                   SBOM.Tool := "terraform-sbom";
                   SBOM.Modules := Some [] |} in
              let '(result, err) := load_modules env 0 (elems moduleDirs) sbom in
              (result, err, printed)
          end
      end
  end.

(* ===================================================================== *)
(** * package encoding/csv: the writer *)
(* ===================================================================== *)

(** A [csv.Writer] with [UseCRLF] unset: the field delimiter and the bytes
    buffered since the last flush.  Delimiters are the runes below
    [utf8.RuneSelf], which are written as one byte. *)
Record csv_Writer : Type := {
  Comma : ascii;
  buffered : string;
}.

Definition csv_NewWriter : csv_Writer := {| Comma := ","%char; buffered := "" |}.

Definition errInvalidDelim : string := "csv: invalid field or comment delimiter".

Definition validDelim (r : ascii) : bool :=
  negb (Ascii.eqb r zero) && negb (Ascii.eqb r QUOTE)
  && negb (Ascii.eqb r CR) && negb (Ascii.eqb r LF).

Definition byte_in (c : ascii) (codes : list nat) : bool :=
  existsb (Nat.eqb (nat_of_ascii c)) codes.

(** [unicode.IsSpace] of the first rune of the field: the ASCII space
    characters, U+0085 and U+00A0, and the spaces above Latin-1 (U+1680,
    U+2000 to U+200A, U+2028, U+2029, U+202F, U+205F, U+3000), each
    recognised by its UTF-8 encoding. *)
Definition first_rune_is_space (field : string) : bool :=
  match field with
  | "" => false
  | String c1 rest =>
      if byte_in c1 [9; 10; 11; 12; 13; 32] then true
      else
        match rest with
        | "" => false
        | String c2 rest2 =>
            if byte_in c1 [194] then byte_in c2 [133; 160]
            else
              match rest2 with
              | "" => false
              | String c3 _ =>
                  (byte_in c1 [225] && byte_in c2 [154] && byte_in c3 [128])
                  || (byte_in c1 [226] && byte_in c2 [128]
                      && byte_in c3 [128; 129; 130; 131; 132; 133; 134; 135; 136; 137; 138;
                                     168; 169; 175])
                  || (byte_in c1 [226] && byte_in c2 [129] && byte_in c3 [159])
                  || (byte_in c1 [227] && byte_in c2 [128] && byte_in c3 [128])
              end
        end
  end.

Fixpoint contains_byte (p : ascii -> bool) (s : string) : bool :=
  match s with
  | "" => false
  | String c s' => p c || contains_byte p s'
  end.

(** fieldNeedsQuotes reports whether our field must be enclosed in quotes. *)
Definition fieldNeedsQuotes (w : csv_Writer) (field : string) : bool :=
  if String.eqb field "" then false
  else if String.eqb field "\." then true
  else if contains_byte
            (fun c => Ascii.eqb c LF || Ascii.eqb c CR || Ascii.eqb c QUOTE
                      || Ascii.eqb c (Comma w)) field
  then true
  else first_rune_is_space field.

(** The inside of a quoted field: every quote is doubled, every other byte
    is copied. *)
Fixpoint quoted_body (field : string) : string :=
  match field with
  | "" => ""
  | String c rest =>
      (if Ascii.eqb c QUOTE then String QUOTE (String QUOTE "") else String c "")
      +:+ quoted_body rest
  end.

(** The loop of [Writer.Write] over the fields of a record; [n] is the
    index of the first of [fields]. *)
Fixpoint write_fields (w : csv_Writer) (n : nat) (fields : list string) : csv_Writer :=
  match fields with
  | [] => w
  | field :: rest =>
      let sep := match n with O => "" | S _ => String (Comma w) "" end in
      let text :=
        if fieldNeedsQuotes w field
        then String QUOTE "" +:+ quoted_body field +:+ String QUOTE ""
        else field in
      write_fields {| Comma := Comma w; buffered := buffered w +:+ sep +:+ text |}
                   (S n) rest
  end.

(** [Writer.Write]: one record, its fields quoted as needed, then a newline. *)
Definition csv_Write (w : csv_Writer) (record : list string) : error * csv_Writer :=
  if negb (validDelim (Comma w)) then (Some errInvalidDelim, w)
  else
    let w := write_fields w 0 record in
    (None, {| Comma := Comma w; buffered := buffered w +:+ String LF "" |}).

(* ===================================================================== *)
(** * package export *)
(* ===================================================================== *)

(** An [io.Writer] is represented by the bytes written to it so far; it
    takes every write. *)
Definition Writer : Type := string.

(** Write data rows *)
Fixpoint write_rows (csvWriter : csv_Writer) (formatName : string)
  (mods : list ModuleInfo.t) : error * csv_Writer :=
  match mods with
  | [] => (None, csvWriter)
  | module :: rest =>
      let record := [ModuleInfo.Name module; ModuleInfo.Source module;
                     ModuleInfo.Version module; ModuleInfo.Location module] in
      match csv_Write csvWriter record with
      | (Some err, csvWriter) =>
          (Some ("failed to write " +:+ formatName +:+ " record: " +:+ err), csvWriter)
      | (None, csvWriter) => write_rows csvWriter formatName rest
      end
  end.

(** exportDelimited exports SBOM as delimited values to the provided writer *)
Definition exportDelimited (s : SBOM.t) (writer : Writer) (separator : ascii)
  (formatName : string) : error * Writer :=
  let csvWriter := {| Comma := separator; buffered := buffered csv_NewWriter |} in
  (* Write header row *)
  let headers := ["Name"; "Source"; "Version"; "Location"] in
  match csv_Write csvWriter headers with
  | (Some err, _) =>
      (Some ("failed to write " +:+ formatName +:+ " headers: " +:+ err), writer)
  | (None, csvWriter) =>
      match write_rows csvWriter formatName (elems (SBOM.Modules s)) with
      | (Some err, _) => (Some err, writer)
      | (None, csvWriter) =>
          (* Flush and check for errors *)
          (None, writer +:+ buffered csvWriter)
      end
  end.

(** CSV exports SBOM as CSV to the provided writer *)
Definition CSV (s : SBOM.t) (writer : Writer) : error * Writer :=
  exportDelimited s writer ","%char "CSV".

(** TSV exports SBOM as TSV (tab-separated values) to the provided writer *)
Definition TSV (s : SBOM.t) (writer : Writer) : error * Writer :=
  exportDelimited s writer TAB "TSV".

(** ** SPDX *)

(** [v2_3.Package]: the fields the conversion sets; all others keep their
    zero value. *)
Record spdx_Package : Type := {
  PackageName : string;
  PackageSPDXIdentifier : string;
  PackageDownloadLocation : string;
  PackageCopyrightText : string;
  PackageVersion : string;
}.

Record spdx_CreationInfo : Type := {
  Created : string;
  Creators : list string;
}.

Record spdx_Document : Type := {
  SPDXVersion : string;
  DataLicense : string;
  SPDXIdentifier : string;
  DocumentName : string;
  DocumentNamespace : string;
  CreationInfo : spdx_CreationInfo;
  Packages : list spdx_Package;
}.

(** Convert each module to an SPDX package: the body of the loop. *)
Definition spdx_package_of (i : nat) (module : ModuleInfo.t) : spdx_Package :=
  let pkg_version :=
    (* Set version if available *)
    if negb (String.eqb (ModuleInfo.Version module) "")
    then ModuleInfo.Version module
    else "NOASSERTION" in
  {| PackageName := ModuleInfo.Name module;
     PackageSPDXIdentifier := "SPDXRef-Package-" +:+ fmt_d (Z.of_nat i);
     PackageDownloadLocation := ModuleInfo.Source module;
     PackageCopyrightText := "NOASSERTION";
     PackageVersion := pkg_version |}.

(** ConvertToSPDX converts our SBOM to an SPDX document.  The clock is read
    twice, for the namespace and for the creation time. *)
Definition ConvertToSPDX (now1 now2 : Time) (s : SBOM.t) : spdx_Document :=
  {| SPDXVersion := "SPDX-2.3";
     DataLicense := "CC0-1.0";
     SPDXIdentifier := "SPDXRef-DOCUMENT";
     DocumentName := "Terraform Configuration SBOM";
     DocumentNamespace := "https://terraform-sbom.local/" +:+ Format_literal_Z now1;
     CreationInfo := {| Created := Format_RFC3339 now2;
                        Creators := ["Tool: terraform-sbom"] |};
     Packages := imap spdx_package_of (elems (SBOM.Modules s)) |}.

(** ** CycloneDX *)

Module Component.
Record t : Type := {
  Type_ : string;
  Name : string;
  Version : string;
  Group : string;
}.
End Component.

Module Tool.
Record t : Type := { Name : string; Version : string }.
End Tool.

(** [cyclonedx.BOM], as far as the conversion sets it; the metadata is
    flattened into its time stamp and its list of tools. *)
Module BOM.
Record t : Type := {
  BOMFormat : string;
  SpecVersion : string;
  Version : Z;
  Timestamp : string;          (* Metadata.Timestamp *)
  Tools : list Tool.t;         (* Metadata.Tools.Tools *)
  Components : list Component.t;
}.
End BOM.

Definition ComponentTypeLibrary : string := "library".
Definition SpecVersion1_6 : string := "1.6".

(** Convert each module to a CycloneDX component: the body of the loop. *)
Definition component_of (module : ModuleInfo.t) : Component.t :=
  let version :=
    (* Set version if available *)
    if negb (String.eqb (ModuleInfo.Version module) "")
    then ModuleInfo.Version module
    else "" in
  let group :=
    (* Extract group from source if it's a registry module *)
    if (0 <? String.length (ModuleInfo.Source module))%nat then
      match strings_Split (ModuleInfo.Source module) "/"%char with
      | first :: _ => first
      | [] => ""
      end
    else "" in
  {| Component.Type_ := ComponentTypeLibrary;
     Component.Name := ModuleInfo.Name module;
     Component.Version := version;
     Component.Group := group |}.

(** ConvertToCycloneDX converts our SBOM to a CycloneDX BOM *)
Definition ConvertToCycloneDX (now : Time) (s : SBOM.t) : BOM.t :=
  {| BOM.BOMFormat := "CycloneDX";
     BOM.SpecVersion := SpecVersion1_6;
     BOM.Version := 1;
     BOM.Timestamp := Format_RFC3339 now;
     BOM.Tools := [{| Tool.Name := "terraform-sbom"; Tool.Version := "1.0.0" |}];
     BOM.Components := imap (fun _ module => component_of module) (elems (SBOM.Modules s)) |}.

(** ** Export to a file *)

(** The files the exporter writes: the contents of the files by path, the
    paths at which [os.Create] fails, and the calls made to the operating
    system so far, the latest last. *)
Inductive os_call : Type :=
| call_Create (path : string)
| call_Write (path : string) (bytes : string)
| call_Close (path : string).

Record Disk : Type := {
  files : gmap string string;
  refused : gset string;
  calls : list os_call;
}.

(** [os.Create]: the file is created, or truncated when it exists. *)
Definition os_Create (path : string) (d : Disk) : error * Disk :=
  if decide (path ∈ refused d) then
    (Some ("open " +:+ path +:+ ": permission denied"),
     {| files := files d; refused := refused d; calls := calls d ++ [call_Create path] |})
  else
    (None,
     {| files := <[path := ""]> (files d); refused := refused d;
        calls := calls d ++ [call_Create path] |}).

(** The bytes an encoder wrote reach the file. *)
Definition file_Write (path : string) (bytes : string) (d : Disk) : Disk :=
  {| files := <[path := default "" (files d !! path) +:+ bytes]> (files d);
     refused := refused d;
     calls := calls d ++ [call_Write path bytes] |}.

Definition file_Close (path : string) (d : Disk) : Disk :=
  {| files := files d; refused := refused d; calls := calls d ++ [call_Close path] |}.

Section Exporters.

(** The serializers of other packages, each by the bytes it writes and the
    error it returns: [encoding/json], the SPDX JSON writer and the
    CycloneDX JSON encoder.  [XML] is the exporter of this package for the
    format "xml". *)
Variable json_Encode : SBOM.t -> string * error.
Variable XML : SBOM.t -> Writer -> error * Writer.
Variable spdxjson_Write : spdx_Document -> string * error.
Variable cyclonedx_Encode : BOM.t -> string * error.

(** The readings of the clock during one export. *)
Variable now1 now2 now3 : Time.

(** JSON exports SBOM as JSON to the provided writer *)
Definition JSON (s : SBOM.t) (writer : Writer) : error * Writer :=
  match json_Encode s with
  | (bytes, Some err) => (Some ("failed to encode SBOM as JSON: " +:+ err), writer +:+ bytes)
  | (bytes, None) => (None, writer +:+ bytes)
  end.

(** SPDX exports an SBOM to a writer in SPDX JSON format *)
Definition SPDX (s : SBOM.t) (writer : Writer) : error * Writer :=
  let spdxDoc := ConvertToSPDX now1 now2 s in
  let '(bytes, err) := spdxjson_Write spdxDoc in
  (err, writer +:+ bytes).

(** CycloneDX exports an SBOM to a writer in CycloneDX JSON format *)
Definition CycloneDX (s : SBOM.t) (writer : Writer) : error * Writer :=
  let cycloneDXBOM := ConvertToCycloneDX now3 s in
  let '(bytes, err) := cyclonedx_Encode cycloneDXBOM in
  (err, writer +:+ bytes).

(** Run an exporter on the file just created, then close the file (the
    deferred [file.Close]). *)
Definition export_to (exporter : Writer -> error * Writer) (path : string) (d : Disk)
  : error * Disk :=
  let '(err, bytes) := exporter "" in
  (err, file_Close path (file_Write path bytes d)).

(** Export exports an SBOM to a file in the specified format *)
Definition Export (s : option SBOM.t) (format outputPath : string) (d : Disk)
  : error * Disk :=
  (* Input validation *)
  match s with
  | None => (Some "sbom cannot be nil", d)
  | Some s =>
      if String.eqb format "" then (Some "format cannot be empty", d)
      else if String.eqb outputPath "" then (Some "output path cannot be empty", d)
      else
        (* Create output file *)
        match os_Create outputPath d with
        | (Some err, d) => (Some ("failed to create output file: " +:+ err), d)
        | (None, d) =>
            (* Export based on format *)
            if String.eqb format "json" then export_to (JSON s) outputPath d
            else if String.eqb format "xml" then export_to (XML s) outputPath d
            else if String.eqb format "csv" then export_to (CSV s) outputPath d
            else if String.eqb format "tsv" then export_to (TSV s) outputPath d
            else if String.eqb format "spdx" then export_to (SPDX s) outputPath d
            else if String.eqb format "cyclonedx" then export_to (CycloneDX s) outputPath d
            else
              (Some ("unsupported format: " +:+ format
                     +:+ " (supported: json, xml, csv, tsv, spdx, cyclonedx)"),
               file_Close outputPath d)
        end
  end.

End Exporters.

Definition supported_formats : list string :=
  ["json"; "xml"; "csv"; "tsv"; "spdx"; "cyclonedx"].

(** GenerateOutputFilename creates appropriate output filename based on
    format and base output path *)
Definition GenerateOutputFilename (baseOutput format : string) : string :=
  if String.eqb baseOutput "" then
    (* Generate default filename based on format *)
    if String.eqb format "json" then "sbom.json"
    else if String.eqb format "xml" then "sbom.xml"
    else if String.eqb format "csv" then "sbom.csv"
    else if String.eqb format "tsv" then "sbom.tsv"
    else if String.eqb format "spdx" then "sbom.spdx.json"
    else if String.eqb format "cyclonedx" then "sbom.cyclonedx.json"
    else "sbom.json"
  else
    (* If base output is provided, modify it for the format *)
    let ext := filepath_Ext baseOutput in
    let base := strings_TrimSuffix baseOutput ext in
    if String.eqb format "json" then base +:+ ".json"
    else if String.eqb format "xml" then base +:+ ".xml"
    else if String.eqb format "csv" then base +:+ ".csv"
    else if String.eqb format "tsv" then base +:+ ".tsv"
    else if String.eqb format "spdx" then base +:+ ".spdx.json"
    else if String.eqb format "cyclonedx" then base +:+ ".cyclonedx.json"
    else base +:+ ".json".

(* ===================================================================== *)
(** * package main: the copies kept in main.go *)
(* ===================================================================== *)

(** hasTerraformFiles checks if a directory contains any .tf files *)
Definition hasTerraformFiles (dir : lookup) : bool :=
  let '(entries, err) := os_ReadDir dir in
  match err with
  | Some _ => false
  | None =>
      existsb (fun entry => negb (IsDir entry) && strings_HasSuffix (Name entry) ".tf")
              entries
  end.

(** The walk function of [findTerraformModules]. *)
Definition main_visit (root : string) : WalkDirFunc finder :=
  fun path d err st =>
    match err with
    | Some e =>
        (* Log the error and continue walking instead of aborting *)
        (None, {| modules := modules st;
                  stderr := stderr st ++ [skip_warning path e] |})
    | None =>
        match d with
        | None => (None, st)
        | Some d =>
            (* Skip hidden directories (e.g., .terraform, .git) *)
            if IsDir d && strings_HasPrefix (Name d) "." && negb (String.eqb path root)
            then (Some SkipDir, st)
            else if IsDir d && hasTerraformFiles (Node d)
            then (None, {| modules := append (modules st) path; stderr := stderr st |})
            else (None, st)
        end
    end.

(** findTerraformModules recursively searches for directories containing
    Terraform files *)
Definition findTerraformModules (fs : FileSystem) (root : string) (recursive : bool)
  : slice string * error * list string :=
  if negb recursive then
    if hasTerraformFiles (fs root) then (Some [root], None, [])
    else (Some [], None, [])
  else
    let '(err, st) :=
      filepath_WalkDir fs root (main_visit root) {| modules := None; stderr := [] |} in
    (modules st, err, stderr st).

(** generateOutputFilename creates appropriate output filename based on
    format and base output path *)
Definition generateOutputFilename (baseOutput format : string) : string :=
  if String.eqb baseOutput "" then
    (* Generate default filename based on format *)
    if String.eqb format "json" then "sbom.json"
    else if String.eqb format "xml" then "sbom.xml"
    else if String.eqb format "csv" then "sbom.csv"
    else if String.eqb format "tsv" then "sbom.tsv"
    else if String.eqb format "spdx" then "sbom.spdx.json"
    else if String.eqb format "cyclonedx" then "sbom.cyclonedx.json"
    else "sbom.json"
  else
    (* If base output is provided, modify it for the format *)
    let ext := filepath_Ext baseOutput in
    let base := strings_TrimSuffix baseOutput ext in
    if String.eqb format "json" then base +:+ ".json"
    else if String.eqb format "xml" then base +:+ ".xml"
    else if String.eqb format "csv" then base +:+ ".csv"
    else if String.eqb format "tsv" then base +:+ ".tsv"
    else if String.eqb format "spdx" then base +:+ ".spdx.json"
    else if String.eqb format "cyclonedx" then base +:+ ".cyclonedx.json"
    else base +:+ ".json".

(* ===================================================================== *)
(** * What the statements below speak about *)
(* ===================================================================== *)

(** A listing holds a Terraform file: an entry that is not a directory and
    whose name ends in ".tf". *)
Definition holds_tf (l : list entry) : Prop :=
  exists e, In e l /\ IsDir e = false /\ strings_HasSuffix (Name e) ".tf" = true.

(** Reading the directory at a path succeeds and delivers a Terraform file. *)
Definition lists_tf (at_path : lookup) : Prop :=
  exists l, os_ReadDir at_path = (l, None) /\ holds_tf l.

(** The entries a read of the directory delivers. *)
Definition delivered (d : entry) : list entry := fst (os_ReadDir (Node d)).

Definition hidden (d : entry) : bool := strings_HasPrefix (Name d) ".".

(** [below holds p d q e]: going down from [d], which sits at path [p],
    through entries that are not hidden, one arrives at [e] at path [q].
    [holds] tells which entries of a directory can be gone to. *)
Inductive below (holds : entry -> list entry) : string -> entry -> string -> entry -> Prop :=
| below_here p d : below holds p d p d
| below_step p d c q e :
    In c (holds d) -> hidden c = false ->
    below holds (filepath_Join p (Name c)) c q e ->
    below holds p d q e.

(** The paths the walk gives to the entries below [d] at path [p]. *)
Fixpoint paths_below (p : string) (d : entry) : list string :=
  match d with
  | File _ => []
  | Dir _ listed _ _ =>
      flat_map (fun c => filepath_Join p (Name c) :: paths_below (filepath_Join p (Name c)) c)
               listed
  end.

(** No entry below the root is given the path of the root itself. *)
Definition root_path_unique (fs : FileSystem) (root : string) : Prop :=
  forall t, fs root = Node t -> ~ In root (paths_below root t).

(** The directories the walk of [FindTerraformModules] reports below [d] at
    path [p], in the order of the walk. *)
Fixpoint found (root p : string) (d : entry) : list string :=
  match d with
  | File _ => []
  | Dir _ listed _ _ =>
      if hidden d && negb (String.eqb p root) then []
      else
        (if HasTerraformFiles (Node d) then [p] else [])
        ++ flat_map (fun c => found root (filepath_Join p (Name c)) c) listed
  end.

(** The warnings of that walk. *)
Fixpoint warned (root p : string) (d : entry) : list string :=
  match d with
  | File _ => []
  | Dir _ listed rderr _ =>
      if hidden d && negb (String.eqb p root) then []
      else
        match rderr with
        | Some e => [skip_warning p e]
        | None => []
        end
        ++ flat_map (fun c => warned root (filepath_Join p (Name c)) c) listed
  end.

(** ** Delimited text *)

(** A field as the writer of encoding/csv puts it down for the delimiter
    [comma]: enclosed in quotes, with its quotes doubled, when the writer
    finds that it needs quotes, and as it stands otherwise. *)
Definition csv_field (comma : ascii) (field : string) : string :=
  if fieldNeedsQuotes {| Comma := comma; buffered := "" |} field
  then String QUOTE "" +:+ quoted_body field +:+ String QUOTE ""
  else field.

(** A row: the fields, the delimiter between them, and a line feed. *)
Definition csv_row (comma : ascii) (fields : list string) : string :=
  strings_Join (map (csv_field comma) fields) (String comma "") +:+ String LF "".

(** The rows of an SBOM: the header row, then a row of four fields for
    each module, in the order of the list. *)
Definition delimited_rows (s : SBOM.t) : list (list string) :=
  ["Name"; "Source"; "Version"; "Location"]
  :: map (fun m => [ModuleInfo.Name m; ModuleInfo.Source m;
                    ModuleInfo.Version m; ModuleInfo.Location m])
         (elems (SBOM.Modules s)).

Fixpoint string_concat (l : list string) : string :=
  match l with
  | [] => ""
  | x :: rest => x +:+ string_concat rest
  end.

Definition delimited_text (comma : ascii) (s : SBOM.t) : string :=
  string_concat (map (csv_row comma) (delimited_rows s)).

(** ** Field copies *)

(** A field of the output, as a function of the position and the module,
    is a field copy when there is one constant such that every value of the
    field is that constant or one of the five fields of its module. *)
Definition field_copy (field : nat -> ModuleInfo.t -> string) : Prop :=
  exists constant, forall i m,
    field i m = constant \/
    In (field i m) [ModuleInfo.Name m; ModuleInfo.Source m; ModuleInfo.Version m;
                    ModuleInfo.Location m; ModuleInfo.Filename m].

(** The part of a string before the first occurrence of a byte, the whole
    string when the byte does not occur. *)
Fixpoint before_byte (sep : ascii) (s : string) : string :=
  match s with
  | "" => ""
  | String c s' => if Ascii.eqb c sep then "" else String c (before_byte sep s')
  end.

(** ** Generation *)

(** The records made from the module calls of one directory, in the order
    the range over its map visits them in the [i]-th round of the loop. *)
Definition records_of (env : Env) (i : nat) (moduleDir : string) : list ModuleInfo.t :=
  map moduleInfo_of
      (range_map (map_order env i)
                 (tfconfig.ModuleCalls (fst (tfconfig_LoadModule env moduleDir)))).

(** One group of records for each directory, from round [i] on. *)
Fixpoint record_groups (env : Env) (i : nat) (moduleDirs : list string)
  : list (list ModuleInfo.t) :=
  match moduleDirs with
  | [] => []
  | moduleDir :: rest => records_of env i moduleDir :: record_groups env (S i) rest
  end.

(** The module calls the parser declares for a directory, each once, in
    the order the map lists them. *)
Definition declared (env : Env) (moduleDir : string) : list tfconfig.ModuleCall :=
  map snd (map_to_list (tfconfig.ModuleCalls (fst (tfconfig_LoadModule env moduleDir)))).

(** The parser reports errors for a directory. *)
Definition load_fails (env : Env) (moduleDir : string) : bool :=
  tfconfig.HasErrors (snd (tfconfig_LoadModule env moduleDir)).

(** Two runs over the same file system state: only the clock and the
    orders of the map ranges may differ. *)
Definition same_state (env1 env2 : Env) : Prop :=
  fs env1 = fs env2 /\ os_Getwd env1 = os_Getwd env2 /\
  tfconfig_LoadModule env1 = tfconfig_LoadModule env2.

(** ** Paths *)

(** A name a directory can list: not empty, not "." or "..", and free of
    separators. *)
Definition proper_name (n : string) : bool :=
  negb (String.eqb n "") && negb (String.eqb n ".") && negb (String.eqb n "..")
  && negb (contains_byte os_IsPathSeparator n).

(** Every entry listed below [d] has a proper name. *)
Fixpoint proper_names (d : entry) : bool :=
  match d with
  | File _ => true
  | Dir _ listed _ _ => forallb (fun c => proper_name (Name c) && proper_names c) listed
  end.

(** The absolute path with the given elements. *)
Definition abs_path (elements : list string) : string :=
  "/" +:+ strings_Join elements "/".

(** [append] repeated. *)
Definition grow {A} (s : slice A) (l : list A) : slice A := fold_left append l s.

(** Induction on an entry, with the property known for every entry of a
    directory. *)
Section entry_induction.
Variable P : entry -> Prop.
Hypothesis P_File : forall name, P (File name).
Hypothesis P_Dir : forall name listed rderr unlisted,
  Forall P listed -> Forall P unlisted -> P (Dir name listed rderr unlisted).

Fixpoint entry_ind (d : entry) : P d :=
  match d with
  | File name => P_File name
  | Dir name listed rderr unlisted =>
      let all :=
        fix all (l : list entry) : Forall P l :=
          match l with
          | [] => List.Forall_nil P
          | c :: l' => @List.Forall_cons _ P c l' (entry_ind c) (all l')
          end in
      P_Dir name listed rderr unlisted (all listed) (all unlisted)
  end.
End entry_induction.

(* ===================================================================== *)
(** * Sample inputs *)
(* ===================================================================== *)

(** The file system with the tree [t] at the path [root] and nothing else. *)
Definition fs_at (root : string) (t : entry) : FileSystem :=
  fun path => if String.eqb path root then Node t else NoEnt.

(** A project with a module directory, a version control directory and a
    directory that cannot be read although it holds a Terraform file. *)
Definition locked_dir : entry :=
  Dir "locked" [] (Some "open /proj/locked: permission denied") [File "main.tf"].

Definition sample_project : entry :=
  Dir "proj"
    [Dir ".git" [File "hooks.tf"] None [];
     locked_dir;
     File "main.tf";
     Dir "modules" [Dir "vpc" [File "vpc.tf"; File "README.md"] None []] None []]
    None [].

(** The same project checked out as a hidden directory. *)
Definition hidden_project : entry :=
  Dir ".proj" [File "main.tf"; Dir ".terraform" [File "cache.tf"] None []] None [].

(** A module list as the exporters are handed one. *)
Definition vpc_module : ModuleInfo.t :=
  {| ModuleInfo.Name := "vpc";
     ModuleInfo.Source := "terraform-aws-modules/vpc/aws";
     ModuleInfo.Version := ">= 5.0, < 6.0";
     ModuleInfo.Location := "Module call at /proj/main.tf:3";
     ModuleInfo.Filename := "main.tf" |}.

Definition local_module : ModuleInfo.t :=
  {| ModuleInfo.Name := "network";
     ModuleInfo.Source := "./modules/network";
     ModuleInfo.Version := "";
     ModuleInfo.Location := "Module call at /proj/main.tf:9";
     ModuleInfo.Filename := "main.tf" |}.

Definition sample_sbom : SBOM.t :=
  {| SBOM.Version := "1.0";
     SBOM.Generated := "2024-05-17T09:30:00Z";
     SBOM.Tool := "terraform-sbom";
     SBOM.Modules := Some [vpc_module; local_module] |}.

(** A disk that holds an earlier report. *)
Definition sample_disk : Disk :=
  {| files := {["sbom.yaml" := "stale report"]};
     refused := {["/readonly/sbom.yaml"]};
     calls := [] |}.

(** The calls declared in /proj/main.tf, and a parser that knows them. *)
Definition vpc_call : tfconfig.ModuleCall :=
  {| tfconfig.Name := "vpc";
     tfconfig.Source := "terraform-aws-modules/vpc/aws";
     tfconfig.Version := ">= 5.0, < 6.0";
     tfconfig.Pos := {| tfconfig.Filename := "/proj/main.tf"; tfconfig.Line := 3 |} |}.

Definition network_call : tfconfig.ModuleCall :=
  {| tfconfig.Name := "network";
     tfconfig.Source := "./modules/network";
     tfconfig.Version := "";
     tfconfig.Pos := {| tfconfig.Filename := "/proj/main.tf"; tfconfig.Line := 9 |} |}.

Definition no_diagnostics : tfconfig.Diagnostics :=
  {| tfconfig.HasErrors := false; tfconfig.Error := "no problems" |}.

Definition syntax_error : tfconfig.Diagnostics :=
  {| tfconfig.HasErrors := true;
     tfconfig.Error := "Unclosed configuration block: There is no closing brace for this block" |}.

Definition sample_parser (dir : string) : tfconfig.Module_ * tfconfig.Diagnostics :=
  if String.eqb dir "/proj"
  then ({| tfconfig.ModuleCalls := {["vpc" := vpc_call; "network" := network_call]} |},
        no_diagnostics)
  else ({| tfconfig.ModuleCalls := ∅ |}, no_diagnostics).

(** A parser that stumbles over the module directory /proj/modules/vpc. *)
Definition failing_parser (dir : string) : tfconfig.Module_ * tfconfig.Diagnostics :=
  if String.eqb dir "/proj/modules/vpc"
  then ({| tfconfig.ModuleCalls := ∅ |}, syntax_error)
  else sample_parser dir.

Definition sample_time : Time :=
  {| year := 2024; month := 5; day := 17; hour := 9; minute := 30; second := 0;
     offset := 7200 |}.

(** Two orders of a range over a map. *)
Definition as_listed : MapOrder := fun l => l.
Definition backwards : MapOrder := fun l => rev l.

Definition sample_env (parser : string -> tfconfig.Module_ * tfconfig.Diagnostics)
  (order : MapOrder) : Env :=
  {| fs := fs_at "/proj" sample_project;
     os_Getwd := ("/", None);
     tfconfig_LoadModule := parser;
     time_Now := sample_time;
     map_order := fun _ => order |}.

(** The report of a recursive run over the sample project, and the warning
    printed on the way. *)
Definition sample_report : SBOM.t :=
  {| SBOM.Version := "1.0";
     SBOM.Generated := "2024-05-17T09:30:00+02:00";
     SBOM.Tool := "terraform-sbom";
     SBOM.Modules := Some [local_module; vpc_module] |}.

Definition sample_warning : string :=
  skip_warning "/proj/locked" "open /proj/locked: permission denied".

(* ===================================================================== *)
(** * Further notions for the statements *)
(* ===================================================================== *)

(** The extension the output file of a format gets; a format that is not
    known gets the one of "json". *)
Definition format_suffix (format : string) : string :=
  if String.eqb format "xml" then ".xml"
  else if String.eqb format "csv" then ".csv"
  else if String.eqb format "tsv" then ".tsv"
  else if String.eqb format "spdx" then ".spdx.json"
  else if String.eqb format "cyclonedx" then ".cyclonedx.json"
  else ".json".

(** Neither a dot nor a separator occurs in the string. *)
Definition plain_name (s : string) : bool :=
  negb (contains_byte (fun c => os_IsPathSeparator c || Ascii.eqb c "."%char) s).

(** A directory without Terraform files, and a parser that reports errors
    for whatever it is asked to load. *)
Definition bare_env : Env :=
  {| fs := fs_at "/bare" (Dir "bare" [File "README.md"; Dir "docs" [File "index.md"] None []]
                              None []);
     os_Getwd := ("/", None);
     tfconfig_LoadModule := fun _ => ({| tfconfig.ModuleCalls := ∅ |}, syntax_error);
     time_Now := sample_time;
     map_order := fun _ => as_listed |}.

(* ===================================================================== *)
(** * package main: the rest of main.go *)
(* ===================================================================== *)

(** ModuleInfo represents information about a Terraform module (the type
    of main.go, which has no Filename) *)
Module MainModuleInfo.
Record t : Type := {
  Name : string;
  Source : string;
  Version : string;
  Location : string;
}.
End MainModuleInfo.

(** SBOM represents a Software Bill of Materials for Terraform
    configurations (the type of main.go) *)
Module MainSBOM.
Record t : Type := {
  Version : string;
  Generated : string;
  Tool : string;
  Modules : slice MainModuleInfo.t;
}.
End MainSBOM.

(** validateTerraformDirectory checks if a directory exists and is
    suitable for Terraform module loading *)
Definition validateTerraformDirectory (fs : FileSystem) (path : string) : error :=
  match os_Stat fs path with
  | StatNotExist => Some ("path does not exist: " +:+ path)
  | StatError err => Some ("failed to stat path: " +:+ err)
  | StatInfo isDir =>
      if negb isDir
      then Some ("path must be a directory containing Terraform files: " +:+ path)
      else None
  end.

(** Convert each module call to ModuleInfo *)
Definition main_moduleInfo_of (moduleCall : tfconfig.ModuleCall) : MainModuleInfo.t :=
  {| MainModuleInfo.Name := tfconfig.Name moduleCall;
     MainModuleInfo.Source := tfconfig.Source moduleCall;
     MainModuleInfo.Version := tfconfig.Version moduleCall;
     MainModuleInfo.Location :=
       "Module call at " +:+ tfconfig.Filename (tfconfig.Pos moduleCall) +:+ ":"
       +:+ fmt_d (tfconfig.Line (tfconfig.Pos moduleCall)) |}.

Definition main_add_module (sbom : MainSBOM.t) (moduleInfo : MainModuleInfo.t)
  : MainSBOM.t :=
  {| MainSBOM.Version := MainSBOM.Version sbom;
     MainSBOM.Generated := MainSBOM.Generated sbom;
     MainSBOM.Tool := MainSBOM.Tool sbom;
     MainSBOM.Modules := append (MainSBOM.Modules sbom) moduleInfo |}.

(** Process each directory and collect all modules: the loop of
    [generateSBOM] from its [i]-th round on. *)
Fixpoint main_load_modules (env : Env) (i : nat) (moduleDirs : list string)
  (sbom : MainSBOM.t) : option MainSBOM.t * error :=
  match moduleDirs with
  | [] => (Some sbom, None)
  | moduleDir :: rest =>
      let '(module, diags) := tfconfig_LoadModule env moduleDir in
      if tfconfig.HasErrors diags then
        (None, Some ("failed to load Terraform module from " +:+ moduleDir +:+ ": "
                     +:+ tfconfig.Error diags))
      else
        main_load_modules env (S i) rest
          (fold_left
             (fun sbom moduleCall => main_add_module sbom (main_moduleInfo_of moduleCall))
             (range_map (map_order env i) (tfconfig.ModuleCalls module))
             sbom)
  end.

(** generateSBOM generates a Software Bill of Materials for a Terraform
    configuration *)
Definition generateSBOM (env : Env) (configPath : string) (recursive : bool)
  : option MainSBOM.t * error * list string :=
  (* Validate the configuration path exists *)
  match validateTerraformDirectory (fs env) configPath with
  | Some err => (None, Some err, [])
  | None =>
      (* Clean the path to ensure it's absolute *)
      match filepath_Abs env configPath with
      | (_, Some err) => (None, Some ("failed to get absolute path: " +:+ err), [])
      | (absPath, None) =>
          (* Find all Terraform module directories *)
          match findTerraformModules (fs env) absPath recursive with
          | (_, Some err, printed) =>
              (None, Some ("failed to find Terraform modules: " +:+ err), printed)
          | (moduleDirs, None, printed) =>
              (* Create SBOM with initial structure *)
              let sbom :=
                {| MainSBOM.Version := "1.0";
                   MainSBOM.Generated := Format_RFC3339 (time_Now env);
                   MainSBOM.Tool := "terraform-sbom";
                   MainSBOM.Modules := Some [] |} in
              let '(result, err) := main_load_modules env 0 (elems moduleDirs) sbom in
              (result, err, printed)
          end
      end
  end.

(** Convert each module to an SPDX package: the body of the loop of
    [convertToSPDX]. *)
Definition main_spdx_package_of (i : nat) (module : MainModuleInfo.t) : spdx_Package :=
  let pkg_version :=
    (* Set version if available *)
    if negb (String.eqb (MainModuleInfo.Version module) "")
    then MainModuleInfo.Version module
    else "NOASSERTION" in
  {| PackageName := MainModuleInfo.Name module;
     PackageSPDXIdentifier := "SPDXRef-Package-" +:+ fmt_d (Z.of_nat i);
     PackageDownloadLocation := MainModuleInfo.Source module;
     PackageCopyrightText := "NOASSERTION";
     PackageVersion := pkg_version |}.

(** convertToSPDX converts our SBOM to an SPDX document *)
Definition convertToSPDX (now1 now2 : Time) (sbom : MainSBOM.t) : spdx_Document :=
  {| SPDXVersion := "SPDX-2.3";
     DataLicense := "CC0-1.0";
     SPDXIdentifier := "SPDXRef-DOCUMENT";
     DocumentName := "Terraform Configuration SBOM";
     DocumentNamespace := "https://terraform-sbom.local/" +:+ Format_literal_Z now1;
     CreationInfo := {| Created := Format_RFC3339 now2;
                        Creators := ["Tool: terraform-sbom"] |};
     Packages := imap main_spdx_package_of (elems (MainSBOM.Modules sbom)) |}.

(** Convert each module to a CycloneDX component: the body of the loop of
    [convertToCycloneDX]. *)
Definition main_component_of (module : MainModuleInfo.t) : Component.t :=
  let version :=
    (* Set version if available *)
    if negb (String.eqb (MainModuleInfo.Version module) "")
    then MainModuleInfo.Version module
    else "" in
  let group :=
    (* Extract group from source if it's a registry module *)
    if (0 <? String.length (MainModuleInfo.Source module))%nat then
      match strings_Split (MainModuleInfo.Source module) "/"%char with
      | first :: _ => first
      | [] => ""
      end
    else "" in
  {| Component.Type_ := ComponentTypeLibrary;
     Component.Name := MainModuleInfo.Name module;
     Component.Version := version;
     Component.Group := group |}.

(** convertToCycloneDX converts our SBOM to a CycloneDX BOM *)
Definition convertToCycloneDX (now : Time) (sbom : MainSBOM.t) : BOM.t :=
  {| BOM.BOMFormat := "CycloneDX";
     BOM.SpecVersion := SpecVersion1_6;
     BOM.Version := 1;
     BOM.Timestamp := Format_RFC3339 now;
     BOM.Tools := [{| Tool.Name := "terraform-sbom"; Tool.Version := "1.0.0" |}];
     BOM.Components :=
       imap (fun _ module => main_component_of module) (elems (MainSBOM.Modules sbom)) |}.

(** Write data rows: the loop of [exportCSV] and of [exportTSV]. *)
Fixpoint main_write_rows (csvWriter : csv_Writer) (formatName : string)
  (mods : list MainModuleInfo.t) : error * csv_Writer :=
  match mods with
  | [] => (None, csvWriter)
  | module :: rest =>
      let record := [MainModuleInfo.Name module; MainModuleInfo.Source module;
                     MainModuleInfo.Version module; MainModuleInfo.Location module] in
      match csv_Write csvWriter record with
      | (Some err, csvWriter) =>
          (Some ("failed to write " +:+ formatName +:+ " record: " +:+ err), csvWriter)
      | (None, csvWriter) => main_write_rows csvWriter formatName rest
      end
  end.

(** The body shared by [exportCSV] and [exportTSV], which differ in the
    delimiter and in the name in their messages.  The flush is deferred
    and so runs on every return. *)
Definition main_export_rows (sbom : MainSBOM.t) (writer : Writer) (csvWriter : csv_Writer)
  (formatName : string) : error * Writer :=
  (* Write header row *)
  let headers := ["Name"; "Source"; "Version"; "Location"] in
  match csv_Write csvWriter headers with
  | (Some err, csvWriter) =>
      (Some ("failed to write " +:+ formatName +:+ " headers: " +:+ err),
       writer +:+ buffered csvWriter)
  | (None, csvWriter) =>
      let '(err, csvWriter) :=
        main_write_rows csvWriter formatName (elems (MainSBOM.Modules sbom)) in
      (err, writer +:+ buffered csvWriter)
  end.

(** exportCSV exports SBOM as CSV to the provided writer *)
Definition exportCSV (sbom : MainSBOM.t) (writer : Writer) : error * Writer :=
  main_export_rows sbom writer csv_NewWriter "CSV".

(** exportTSV exports SBOM as TSV (tab-separated values) to the provided
    writer *)
Definition exportTSV (sbom : MainSBOM.t) (writer : Writer) : error * Writer :=
  (* Use tab separator for TSV *)
  main_export_rows sbom writer {| Comma := TAB; buffered := buffered csv_NewWriter |} "TSV".

(** [xml.Header] *)
Definition xml_Header : string :=
  "<?xml version=" +:+ String QUOTE "1.0" +:+ String QUOTE " encoding="
  +:+ String QUOTE "UTF-8" +:+ String QUOTE "?>" +:+ String LF "".

(** What the standard output, the standard error stream and the exit of
    the process show of a run of [main]: the lines printed and the exit
    status (0 when [main] returns). *)
Record Outcome : Type := {
  out : list string;
  err_out : list string;
  status : Z;
  disk : Disk;
}.

Section Main.

(** The serializers of other packages, as for package export, here for the
    types of main.go. *)
Variable json_Encode : MainSBOM.t -> string * error.
Variable xml_Encode : MainSBOM.t -> string * error.
Variable spdxjson_Write : spdx_Document -> string * error.
Variable cyclonedx_Encode : BOM.t -> string * error.

(** [strings.TrimSpace]. *)
Variable strings_TrimSpace : string -> string.

(** The text [flag.PrintDefaults] prints. *)
Variable flag_defaults : string.

(** The readings of the clock during the [k]-th export of a run. *)
Variable clock : nat -> Time * Time * Time.

(** exportJSON exports SBOM as JSON to the provided writer *)
Definition exportJSON (sbom : MainSBOM.t) (writer : Writer) : error * Writer :=
  match json_Encode sbom with
  | (bytes, Some err) => (Some ("failed to encode SBOM as JSON: " +:+ err), writer +:+ bytes)
  | (bytes, None) => (None, writer +:+ bytes)
  end.

(** exportXML exports SBOM as XML to the provided writer *)
Definition exportXML (sbom : MainSBOM.t) (writer : Writer) : error * Writer :=
  (* Write XML header first *)
  let writer := writer +:+ xml_Header in
  match xml_Encode sbom with
  | (bytes, Some err) => (Some ("failed to encode SBOM as XML: " +:+ err), writer +:+ bytes)
  | (bytes, None) => (None, writer +:+ bytes)
  end.

(** exportSPDX exports an SBOM to a writer in SPDX JSON format *)
Definition exportSPDX (now1 now2 : Time) (sbom : MainSBOM.t) (writer : Writer)
  : error * Writer :=
  let spdxDoc := convertToSPDX now1 now2 sbom in
  let '(bytes, err) := spdxjson_Write spdxDoc in
  (err, writer +:+ bytes).

(** exportCycloneDX exports an SBOM to a writer in CycloneDX JSON format *)
Definition exportCycloneDX (now : Time) (sbom : MainSBOM.t) (writer : Writer)
  : error * Writer :=
  let cycloneDXBOM := convertToCycloneDX now sbom in
  let '(bytes, err) := cyclonedx_Encode cycloneDXBOM in
  (err, writer +:+ bytes).

(** exportSBOM exports an SBOM to a file in the specified format *)
Definition exportSBOM (now : Time * Time * Time) (sbom : option MainSBOM.t)
  (format outputPath : string) (d : Disk) : error * Disk :=
  (* Input validation *)
  match sbom with
  | None => (Some "sbom cannot be nil", d)
  | Some sbom =>
      if String.eqb format "" then (Some "format cannot be empty", d)
      else if String.eqb outputPath "" then (Some "output path cannot be empty", d)
      else
        (* Create output file *)
        match os_Create outputPath d with
        | (Some err, d) => (Some ("failed to create output file: " +:+ err), d)
        | (None, d) =>
            (* Export based on format *)
            if String.eqb format "json" then export_to (exportJSON sbom) outputPath d
            else if String.eqb format "xml" then export_to (exportXML sbom) outputPath d
            else if String.eqb format "csv" then export_to (exportCSV sbom) outputPath d
            else if String.eqb format "tsv" then export_to (exportTSV sbom) outputPath d
            else if String.eqb format "spdx"
            then export_to (exportSPDX (fst (fst now)) (snd (fst now)) sbom) outputPath d
            else if String.eqb format "cyclonedx"
            then export_to (exportCycloneDX (snd now) sbom) outputPath d
            else
              (Some ("unsupported format: " +:+ format
                     +:+ " (supported: json, xml, csv, tsv, spdx, cyclonedx)"),
               file_Close outputPath d)
        end
  end.

(** Export SBOM in all requested formats: the last loop of [main], from
    its [k]-th round on. *)
Fixpoint export_formats (output : string) (verbose : bool) (sbom : MainSBOM.t)
  (k : nat) (formats : list string) (o : Outcome) : Outcome :=
  match formats with
  | [] => o
  | formatType :: rest =>
      let outputFile := generateOutputFilename output formatType in
      let o :=
        if verbose
        then {| out := out o ++ ["Exporting " +:+ formatType +:+ " format to: "
                                 +:+ outputFile +:+ String LF ""];
                err_out := err_out o; status := status o; disk := disk o |}
        else o in
      match exportSBOM (clock k) (Some sbom) formatType outputFile (disk o) with
      | (Some err, d) =>
          {| out := out o;
             err_out := err_out o ++ ["Error exporting " +:+ formatType +:+ " format: "
                                      +:+ err +:+ String LF ""];
             status := 1;
             disk := d |}
      | (None, d) =>
          export_formats output verbose sbom (S k) rest
            {| out := out o ++ ["SBOM successfully exported to " +:+ outputFile
                                +:+ " (format: " +:+ formatType +:+ ")" +:+ String LF ""];
               err_out := err_out o; status := status o; disk := d |}
      end
  end.

(** The lines of the usage message. *)
Definition usage (argv0 : string) : list string :=
  ["Usage: " +:+ argv0 +:+ " [options] <terraform-directory>" +:+ String LF "";
   String LF "Options:" +:+ String LF "";
   flag_defaults;
   String LF "Arguments:" +:+ String LF "";
   "  terraform-directory: Directory containing Terraform configuration files"
     +:+ String LF "";
   String LF "Examples:" +:+ String LF "";
   "  " +:+ argv0 +:+ " -f json -o sbom.json ./terraform" +:+ String LF "";
   "  " +:+ argv0 +:+ " -r -f spdx -o sbom ./project    # Recursively scan all modules"
     +:+ String LF ""].

(** [main], from the return of [flag.Parse] on: [format], [output],
    [verbose] and [recursive] are the values of the flags -f, -o, -v and
    -r, and [args] the arguments that are not flags. *)
Definition main (argv0 : string) (format output : string) (verbose recursive : bool)
  (args : list string) (env : Env) (d : Disk) : Outcome :=
  match args with
  | [] => {| out := []; err_out := usage argv0; status := 1; disk := d |}
  | configPath :: _ =>
      (* Parse comma-separated formats *)
      let formats := map strings_TrimSpace (strings_Split format ","%char) in
      let printed :=
        if verbose
        then ["Generating SBOM for Terraform configuration in: " +:+ configPath
              +:+ String LF "";
              "Output formats: " +:+ strings_Join formats ", " +:+ String LF ""]
        else [] in
      match generateSBOM env configPath recursive with
      | (_, Some err, warnings) =>
          {| out := printed;
             err_out := warnings ++ ["Error: " +:+ err +:+ String LF ""];
             status := 1; disk := d |}
      | (None, None, warnings) =>
          (* a nil SBOM with a nil error: [len(sbom.Modules)] panics *)
          {| out := printed; err_out := warnings; status := 2; disk := d |}
      | (Some sbom, None, warnings) =>
          let count := length (elems (MainSBOM.Modules sbom)) in
          let o :=
            if (count =? 0)%nat
            then {| out := printed;
                    err_out := warnings ++ ["Warning: No module calls found in "
                                            +:+ configPath +:+ String LF ""];
                    status := 0; disk := d |}
            else {| out := printed ++ ["Found " +:+ fmt_d (Z.of_nat count)
                                       +:+ " module(s)" +:+ String LF ""];
                    err_out := warnings; status := 0; disk := d |} in
          export_formats output verbose sbom 0 formats o
      end
  end.

End Main.

(** The record of main.go for a record of package sbom: the same fields
    without the Filename. *)
Definition without_Filename (m : ModuleInfo.t) : MainModuleInfo.t :=
  {| MainModuleInfo.Name := ModuleInfo.Name m;
     MainModuleInfo.Source := ModuleInfo.Source m;
     MainModuleInfo.Version := ModuleInfo.Version m;
     MainModuleInfo.Location := ModuleInfo.Location m |}.

Definition main_SBOM_of (s : SBOM.t) : MainSBOM.t :=
  {| MainSBOM.Version := SBOM.Version s;
     MainSBOM.Generated := SBOM.Generated s;
     MainSBOM.Tool := SBOM.Tool s;
     MainSBOM.Modules := option_map (map without_Filename) (SBOM.Modules s) |}.

(** The exports of the formats [formats], the first of them the [k]-th of
    the run, each return no error, and take the disk from [d] to [d']. *)
Inductive exports_succeed (export : nat -> string -> Disk -> error * Disk)
  : nat -> Disk -> list string -> Disk -> Prop :=
| exports_none k d : exports_succeed export k d [] d
| exports_next k d format d1 rest d' :
    export k format d = (None, d1) ->
    exports_succeed export (S k) d1 rest d' ->
    exports_succeed export k d (format :: rest) d'.

(** The lines [main] prints on the standard output for the formats it
    has exported. *)
Definition exported_lines (verbose : bool) (output : string) (formats : list string)
  : list string :=
  flat_map
    (fun formatType =>
       (if verbose
        then ["Exporting " +:+ formatType +:+ " format to: "
              +:+ generateOutputFilename output formatType +:+ String LF ""]
        else [])
       ++ ["SBOM successfully exported to " +:+ generateOutputFilename output formatType
           +:+ " (format: " +:+ formatType +:+ ")" +:+ String LF ""])
    formats.

(** [strings.TrimSpace] on strings of ASCII bytes: the white space of
    ASCII is cut off at both ends. *)
Definition asciiSpace (c : ascii) : bool := byte_in c [9; 10; 11; 12; 13; 32].

Fixpoint trim_left_ascii (s : string) : string :=
  match s with
  | String c s' => if asciiSpace c then trim_left_ascii s' else s
  | "" => ""
  end.

Definition TrimSpace_ascii (s : string) : string :=
  String.rev (trim_left_ascii (String.rev (trim_left_ascii s))).

(** Serializers that write a fixed text, and a clock that stands still. *)
Definition sample_json_Encode (sbom : MainSBOM.t) : string * error := ("{}", None).
Definition sample_xml_Encode (sbom : MainSBOM.t) : string * error := ("<SBOM/>", None).
Definition sample_spdxjson_Write (doc : spdx_Document) : string * error := ("{}", None).
Definition sample_cyclonedx_Encode (bom : BOM.t) : string * error := ("{}", None).
Definition sample_clock (k : nat) : Time * Time * Time :=
  (sample_time, sample_time, sample_time).

Definition empty_disk : Disk := {| files := ∅; refused := ∅; calls := [] |}.

(** A run of main.go with these. *)
Definition sample_main : string -> string -> string -> bool -> bool -> list string ->
                         Env -> Disk -> Outcome :=
  main sample_json_Encode sample_xml_Encode sample_spdxjson_Write sample_cyclonedx_Encode
       TrimSpace_ascii "  -f string" sample_clock.

(** The number of line feeds in a string. *)
Fixpoint count_LF (s : string) : nat :=
  match s with
  | "" => 0
  | String c s' => (if Ascii.eqb c LF then 1 else 0) + count_LF s'
  end.

(** No field of the record of the module holds a line feed. *)
Definition single_line (m : ModuleInfo.t) : Prop :=
  count_LF (ModuleInfo.Name m) = 0 /\ count_LF (ModuleInfo.Source m) = 0 /\
  count_LF (ModuleInfo.Version m) = 0 /\ count_LF (ModuleInfo.Location m) = 0.

(* ===================================================================== *)
(** * Properties *)
(* ===================================================================== *)

(** ** Strings *)

Lemma append_nil_l (s : string) : "" +:+ s = s.
Proof. reflexivity. Qed.

Lemma append_cons (c : ascii) (s1 s2 : string) : String c s1 +:+ s2 = String c (s1 +:+ s2).
Proof. reflexivity. Qed.

Lemma append_assoc (s1 s2 s3 : string) : (s1 +:+ s2) +:+ s3 = s1 +:+ (s2 +:+ s3).
Proof.
  induction s1 as [|c s1 IH]; [reflexivity|].
  rewrite !append_cons. now f_equal.
Qed.

Lemma append_nil_r (s : string) : s +:+ "" = s.
Proof.
  induction s as [|c s IH]; [reflexivity|].
  rewrite append_cons. now f_equal.
Qed.

(** ** Slices *)

Lemma grow_nil {A} (s : slice A) : grow s [] = s.
Proof. reflexivity. Qed.

Lemma grow_app {A} (s : slice A) (l1 l2 : list A) : grow s (l1 ++ l2) = grow (grow s l1) l2.
Proof. unfold grow. apply fold_left_app. Qed.

Lemma elems_grow {A} (l : list A) : forall s : slice A, elems (grow s l) = elems s ++ l.
Proof.
  induction l as [|x l IH]; intros s; simpl.
  - now rewrite app_nil_r.
  - unfold grow in *. simpl. rewrite IH. unfold append. simpl.
    now rewrite <- app_assoc.
Qed.

(** ** The walk of FindTerraformModules *)

Lemma finder_eta (st : finder) :
  {| modules := modules st; stderr := stderr st |} = st.
Proof. now destruct st. Qed.

(** The walk never stops early and never fails: it reports the
    directories of [found] and prints the warnings of [warned]. *)
Lemma walkDir_find_visit (root : string) (d : entry) : forall p st,
  walkDir (find_visit root) p d st
  = (None, {| modules := grow (modules st) (found root p d);
              stderr := stderr st ++ warned root p d |}).
Proof.
  induction d as [name|name listed rderr unlisted IH _] using entry_ind; intros p st.
  - simpl. rewrite app_nil_r. now rewrite finder_eta.
  - cbn [walkDir find_visit IsDir found warned andb].
    fold (hidden (Dir name listed rderr unlisted)).
    destruct (hidden (Dir name listed rderr unlisted) && negb (p =? root)%string) eqn:Hskip.
    + cbn. rewrite app_nil_r. now rewrite finder_eta.
    + set (st1 := if HasTerraformFiles (Node (Dir name listed rderr unlisted))
                  then {| modules := append (modules st) p; stderr := stderr st |}
                  else st).
      assert (Hfn : (if HasTerraformFiles (Node (Dir name listed rderr unlisted))
                     then (None, {| modules := append (modules st) p; stderr := stderr st |})
                     else (@None walk_error, st)) = (None, st1)).
      { subst st1. now destruct (HasTerraformFiles _). }
      rewrite Hfn. clear Hfn.
      set (st2 := {| modules := modules st1;
                     stderr := stderr st1 ++
                       match rderr with
                       | Some e => [skip_warning p e]
                       | None => []
                       end |}).
      assert (Hloop : forall st',
        (fix loop (dirs : list entry) (st0 : finder) {struct dirs} : option walk_error * finder :=
           match dirs with
           | [] => (None, st0)
           | d1 :: dirs' =>
               match walkDir (find_visit root) (filepath_Join p (Name d1)) d1 st0 with
               | (Some SkipDir, st3) => (None, st3)
               | (Some err, st3) => (Some err, st3)
               | (None, st3) => loop dirs' st3
               end
           end) listed st'
        = (None, {| modules := grow (modules st')
                      (flat_map (fun c => found root (filepath_Join p (Name c)) c) listed);
                    stderr := stderr st' ++
                      flat_map (fun c => warned root (filepath_Join p (Name c)) c) listed |})).
      { clear -IH. induction IH as [|c l Hc _ IHl]; intros st'.
        - cbn. rewrite app_nil_r. now rewrite finder_eta.
        - cbn [flat_map]. rewrite Hc. rewrite IHl. cbn [modules stderr].
          now rewrite grow_app, app_assoc. }
      assert (Hst2 : st2 = {| modules := grow (modules st)
                                (if HasTerraformFiles (Node (Dir name listed rderr unlisted))
                                 then [p] else []);
                              stderr := stderr st ++
                                match rderr with
                                | Some e => [skip_warning p e]
                                | None => []
                                end |}).
      { subst st2 st1. now destruct (HasTerraformFiles _). }
      destruct rderr as [e|].
      * cbn [find_visit]. fold st2. rewrite Hloop, Hst2. cbn [modules stderr].
        now rewrite grow_app, app_assoc.
      * replace st1 with st2.
        2:{ subst st2. cbn. rewrite app_nil_r. apply finder_eta. }
        rewrite Hloop, Hst2. cbn [modules stderr].
        now rewrite grow_app, app_assoc.
Qed.

Lemma HasTerraformFiles_lists_tf (at_path : lookup) :
  HasTerraformFiles at_path = true <-> lists_tf at_path.
Proof.
  unfold HasTerraformFiles, lists_tf, holds_tf.
  destruct (os_ReadDir at_path) as [l [e|]].
  - split; [discriminate|]. intros (l' & Heq & _). discriminate.
  - rewrite List.existsb_exists. split.
    + intros (e & Hin & He). apply andb_true_iff in He as [Hd Hs].
      apply negb_true_iff in Hd. exists l. split; [reflexivity|]. now exists e.
    + intros (l' & Heq & e & Hin & Hd & Hs). inversion Heq; subst l'.
      exists e. split; [assumption|]. now rewrite Hd, Hs.
Qed.

Lemma below_File_inv holds name p q e :
  holds (File name) = [] -> below holds p (File name) q e -> q = p /\ e = File name.
Proof.
  intros Hnone H. inversion H; subst; [now split|].
  match goal with Hin : In _ (holds (File name)) |- _ => rewrite Hnone in Hin; destruct Hin end.
Qed.

(** What [found] lists, told by the tree: the readable directories with a
    Terraform file that are reached without entering a hidden entry. *)
Lemma found_below (root : string) (d : entry) : forall p,
  ~ In root (paths_below p d) ->
  p = root \/ hidden d = false ->
  forall q, In q (found root p d)
            <-> exists e, below delivered p d q e /\ lists_tf (Node e).
Proof.
  induction d as [name|name listed rderr unlisted IH _] using entry_ind;
    intros p Hfresh Hshown q.
  - simpl. split; [intros []|].
    intros (e & Hb & l & Hl & _). apply below_File_inv in Hb as [_ ->]; [|reflexivity].
    discriminate.
  - set (d := Dir name listed rderr unlisted) in *.
    assert (Hskip : hidden d && negb (p =? root)%string = false).
    { destruct Hshown as [-> | ->]; [|reflexivity].
      rewrite String.eqb_refl. apply andb_false_r. }
    change (found root p d) with
      (if hidden d && negb (p =? root)%string then []
       else (if HasTerraformFiles (Node d) then [p] else [])
            ++ flat_map (fun c => found root (filepath_Join p (Name c)) c) listed).
    rewrite Hskip, in_app_iff, in_flat_map.
    rewrite Forall_forall in IH.
    split.
    + intros [Hhere | (c & Hc & Hq)].
      * destruct (HasTerraformFiles (Node d)) eqn:Htf; [|destruct Hhere].
        destruct Hhere as [<- | []].
        exists d. split; [constructor | now apply HasTerraformFiles_lists_tf].
      * assert (Hp' : ~ In root (filepath_Join p (Name c) :: paths_below (filepath_Join p (Name c)) c)).
        { intros Hin. apply Hfresh. cbn [paths_below d]. apply in_flat_map. now exists c. }
        destruct (hidden c) eqn:Hh.
        { exfalso. destruct c as [cn|cn cl ce cu]; [exact Hq|].
          cbn [found] in Hq. rewrite Hh in Hq.
          assert (Hne : (filepath_Join p (Name (Dir cn cl ce cu)) =? root)%string = false).
          { apply String.eqb_neq. intros Heq. apply Hp'. now left. }
          rewrite Hne in Hq. exact Hq. }
        apply (IH c) in Hq; [| now apply list_elem_of_In | | now right ].
        2:{ intros Hin. apply Hp'. now right. }
        destruct Hq as (e & Hb & He). exists e. split; [|exact He].
        now apply below_step with c.
    + intros (e & Hb & He). inversion Hb; subst.
      * left. apply HasTerraformFiles_lists_tf in He. rewrite He. now left.
      * right. match goal with Hin : In ?c (delivered d) |- _ => exists c; split; [exact Hin|] end.
        apply IH; [now apply list_elem_of_In | | now right | now exists e].
        intros Hin. apply Hfresh. cbn [paths_below d]. apply in_flat_map.
        eexists; split; [eassumption|]. now right.
Qed.

(** ** Absolute roots *)

Lemma length_append (s1 s2 : string) :
  String.length (s1 +:+ s2) = String.length s1 + String.length s2.
Proof.
  induction s1 as [|c s1 IH]; [reflexivity|].
  rewrite append_cons. cbn [String.length]. now rewrite IH.
Qed.

Lemma strings_Split_plain (x : string) :
  contains_byte os_IsPathSeparator x = false -> strings_Split x Separator = [x].
Proof.
  induction x as [|c x IH]; intros Hx; [reflexivity|].
  cbn [contains_byte] in Hx. apply orb_false_iff in Hx as [Hc Hx].
  cbn [strings_Split]. unfold os_IsPathSeparator in Hc. rewrite Hc, IH by assumption.
  reflexivity.
Qed.

Lemma strings_Split_append (x s : string) :
  contains_byte os_IsPathSeparator x = false ->
  strings_Split (x +:+ String Separator s) Separator = x :: strings_Split s Separator.
Proof.
  induction x as [|c x IH]; intros Hx.
  - rewrite append_nil_l. cbn [strings_Split]. now rewrite Ascii.eqb_refl.
  - cbn [contains_byte] in Hx. apply orb_false_iff in Hx as [Hc Hx].
    rewrite append_cons. cbn [strings_Split]. unfold os_IsPathSeparator in Hc.
    rewrite Hc, IH by assumption. reflexivity.
Qed.

Lemma proper_name_spec (n : string) :
  proper_name n = true ->
  (n =? "")%string = false /\ (n =? ".")%string = false /\ (n =? "..")%string = false
  /\ contains_byte os_IsPathSeparator n = false.
Proof.
  unfold proper_name. rewrite !andb_true_iff, !negb_true_iff. tauto.
Qed.

Lemma strings_Split_Join (elements : list string) :
  elements <> [] -> Forall (fun e => proper_name e = true) elements ->
  strings_Split (strings_Join elements "/") Separator = elements.
Proof.
  intros Hne H. induction H as [|x rest Hx Hrest IH]; [contradiction|].
  apply proper_name_spec in Hx as (_ & _ & _ & Hx).
  destruct rest as [|y rest].
  - now apply strings_Split_plain.
  - change (strings_Join (x :: y :: rest) "/")
      with (x +:+ String Separator (strings_Join (y :: rest) "/")).
    rewrite strings_Split_append by assumption. f_equal. now apply IH.
Qed.

Lemma strings_Join_snoc (elements : list string) (n : string) :
  elements <> [] ->
  strings_Join (elements ++ [n]) "/" = strings_Join elements "/" +:+ "/" +:+ n.
Proof.
  induction elements as [|x rest IH]; intros Hne; [contradiction|].
  destruct rest as [|y rest]; [reflexivity|].
  change (strings_Join ((x :: y :: rest) ++ [n]) "/")
    with (x +:+ "/" +:+ strings_Join ((y :: rest) ++ [n]) "/").
  rewrite IH by discriminate.
  change (strings_Join (x :: y :: rest) "/") with (x +:+ "/" +:+ strings_Join (y :: rest) "/").
  now rewrite !append_assoc.
Qed.

(** At the root, the elements of a path that are proper are all kept. *)
Lemma clean_elems_proper_list (elements : list string) : forall out,
  Forall (fun e => proper_name e = true) elements ->
  clean_elems true out elements = rev out ++ elements.
Proof.
  induction elements as [|e rest IH]; intros out H.
  - cbn. now rewrite app_nil_r.
  - apply Forall_cons_1 in H as [He Hrest].
    apply proper_name_spec in He as (H1 & H2 & H3 & _).
    cbn [clean_elems]. rewrite H1, H2, H3. cbn [orb].
    rewrite IH by assumption. cbn [rev]. now rewrite <- app_assoc.
Qed.

(** Cleaning keeps proper elements only. *)
Lemma clean_elems_proper (elements : list string) : forall out,
  Forall (fun e => contains_byte os_IsPathSeparator e = false) elements ->
  Forall (fun e => proper_name e = true) out ->
  Forall (fun e => proper_name e = true) (clean_elems true out elements).
Proof.
  induction elements as [|e rest IH]; intros out H Hout.
  - cbn. rewrite Forall_forall in *. intros x Hx. apply Hout.
    apply list_elem_of_In. apply list_elem_of_In in Hx. now apply in_rev.
  - apply Forall_cons_1 in H as [He Hrest]. cbn [clean_elems].
    destruct (e =? "")%string eqn:E1; [now apply IH|].
    destruct (e =? ".")%string eqn:E2; [now apply IH|]. cbn [orb].
    destruct (e =? "..")%string eqn:E3.
    + destruct out as [|top below]; [now apply IH|].
      apply Forall_cons_1 in Hout as [Htop Hbelow].
      apply proper_name_spec in Htop as (_ & _ & -> & _). now apply IH.
    + apply IH; [assumption|]. constructor; [|assumption].
      unfold proper_name. now rewrite E1, E2, E3, He.
Qed.

Lemma strings_Split_no_separator (s : string) :
  Forall (fun e => contains_byte os_IsPathSeparator e = false) (strings_Split s Separator).
Proof.
  induction s as [|c s IH]; cbn [strings_Split].
  - repeat constructor.
  - destruct (Ascii.eqb c Separator) eqn:Hc.
    + constructor; [reflexivity | assumption].
    + destruct (strings_Split s Separator) as [|piece pieces].
      * repeat constructor. cbn. unfold os_IsPathSeparator. now rewrite Hc.
      * apply Forall_cons_1 in IH as [Hp Hps]. constructor; [|assumption].
        cbn. unfold os_IsPathSeparator. now rewrite Hc.
Qed.

Lemma HasPrefix_slash (s : string) :
  strings_HasPrefix s "/" = true -> exists s', s = String Separator s'.
Proof.
  unfold strings_HasPrefix. destruct s as [|c s]; [discriminate|].
  cbn. destruct s; cbn; intros H; apply andb_prop in H as [H _];
    apply Ascii.eqb_eq in H; subst c; now eexists.
Qed.

(** A cleaned absolute path is the absolute path of proper elements. *)
Lemma filepath_Clean_absolute (path : string) :
  filepath_IsAbs path = true ->
  exists elements,
    Forall (fun e => proper_name e = true) elements /\ filepath_Clean path = abs_path elements.
Proof.
  intros Habs. unfold filepath_IsAbs in Habs.
  destruct (HasPrefix_slash path Habs) as [s' ->].
  exists (clean_elems true [] (strings_Split (String Separator s') Separator)).
  split.
  - apply clean_elems_proper; [apply strings_Split_no_separator | constructor].
  - unfold filepath_Clean. rewrite Habs. reflexivity.
Qed.

(** Joining a proper name to an absolute path adds it as the last element. *)
Lemma filepath_Join_abs_path (elements : list string) (n : string) :
  Forall (fun e => proper_name e = true) elements -> proper_name n = true ->
  filepath_Join (abs_path elements) n = abs_path (elements ++ [n]).
Proof.
  intros Helems Hn. pose proof (proper_name_spec n Hn) as (_ & _ & _ & Hsep).
  unfold filepath_Join, abs_path.
  change (("/" +:+ strings_Join elements "/" =? "")%string) with false. cbn iota.
  assert (Hpath : ("/" +:+ strings_Join elements "/") +:+ "/" +:+ n
                  = String Separator (strings_Join elements "/" +:+ "/" +:+ n))
    by reflexivity.
  rewrite Hpath. clear Hpath. unfold filepath_Clean.
  assert (Hrooted : forall x, strings_HasPrefix (String Separator x) "/" = true).
  { intros x. unfold strings_HasPrefix. cbn. now destruct x. }
  rewrite Hrooted. change ((String Separator _ =? "")%string) with false. cbn iota.
  f_equal. f_equal.
  cbn [strings_Split]. rewrite Ascii.eqb_refl.
  change (clean_elems true [] ("" :: ?l)) with (clean_elems true [] l).
  destruct elements as [|x rest].
  - cbn [strings_Join app]. rewrite append_nil_l.
    change ("/" +:+ n) with (String Separator n).
    cbn [strings_Split]. rewrite Ascii.eqb_refl.
    rewrite strings_Split_plain by assumption.
    change (clean_elems true [] ["" ; n]) with (clean_elems true [] [n]).
    rewrite clean_elems_proper_list by (now constructor). reflexivity.
  - rewrite <- strings_Join_snoc by discriminate.
    rewrite strings_Split_Join.
    + rewrite clean_elems_proper_list; [reflexivity|].
      apply Forall_app. split; [assumption | now constructor].
    + destruct rest; discriminate.
    + apply Forall_app. split; [assumption | now constructor].
Qed.

Lemma abs_path_longer (elements : list string) (n : string) :
  proper_name n = true ->
  String.length (abs_path elements) < String.length (abs_path (elements ++ [n])).
Proof.
  intros Hn. apply proper_name_spec in Hn as (Hne & _).
  assert (0 < String.length n) by (destruct n; [discriminate | cbn; lia]).
  unfold abs_path. rewrite !length_append.
  destruct elements as [|x rest].
  - cbn. lia.
  - rewrite strings_Join_snoc by discriminate. rewrite !length_append. lia.
Qed.

(** Below an absolute path, every path the walk gives is longer. *)
Lemma paths_below_longer (d : entry) : forall elements q,
  proper_names d = true ->
  Forall (fun e => proper_name e = true) elements ->
  In q (paths_below (abs_path elements) d) ->
  String.length (abs_path elements) < String.length q.
Proof.
  induction d as [name|name listed rderr unlisted IH _] using entry_ind;
    intros elements q Hproper Helems Hq.
  - destruct Hq.
  - cbn [paths_below] in Hq. apply in_flat_map in Hq as (c & Hc & Hq).
    cbn [proper_names] in Hproper. rewrite List.forallb_forall in Hproper.
    specialize (Hproper c Hc). apply andb_prop in Hproper as [Hn Hsub].
    rewrite filepath_Join_abs_path in Hq by assumption.
    pose proof (abs_path_longer elements (Name c) Hn) as Hlonger.
    destruct Hq as [<- | Hq]; [exact Hlonger|].
    rewrite Forall_forall in IH. apply list_elem_of_In in Hc.
    specialize (IH c Hc (elements ++ [Name c]) q Hsub).
    assert (String.length (abs_path (elements ++ [Name c])) < String.length q).
    { apply IH; [|exact Hq]. apply Forall_app. split; [assumption | now constructor]. }
    lia.
Qed.

(** For a cleaned absolute root, as [Generate] passes one, and a tree of
    proper names, no entry below the root is given the path of the root. *)
Lemma absolute_root_path_unique (fs : FileSystem) (path : string) :
  filepath_IsAbs path = true ->
  (forall t, fs (filepath_Clean path) = Node t -> proper_names t = true) ->
  root_path_unique fs (filepath_Clean path).
Proof.
  intros Habs Hproper t Ht Hin.
  destruct (filepath_Clean_absolute path Habs) as (elements & Helems & Heq).
  rewrite Heq in Hin.
  pose proof (paths_below_longer t elements _ (Hproper t Ht) Helems Hin). lia.
Qed.

(** C1 (as amended): in recursive mode FindTerraformModules returns no error
    and exactly the paths of the directories whose listing is read without
    error and holds a non-directory entry ending in ".tf", and that are
    reached from the root through listed entries whose names do not begin
    with "."; the root is scanned whatever its own name is. *)
Theorem FindTerraformModules_recursive (fs : FileSystem) (root : string) :
  root_path_unique fs root ->
  exists mods printed,
    FindTerraformModules fs root true = (mods, None, printed) /\
    (forall q, In q (elems mods)
               <-> exists t d, fs root = Node t /\ below delivered root t q d
                               /\ lists_tf (Node d)) /\
    (forall t, fs root = Node t -> lists_tf (Node t) -> In root (elems mods)).
Proof.
  intros Hfresh. unfold FindTerraformModules, filepath_WalkDir. cbn [negb].
  destruct (fs root) as [| err | t] eqn:Hroot.
  - cbn. eexists _, _. split; [reflexivity|]. split; [|discriminate].
    intros q. split; [intros []|]. intros (t & d & Ht & _). discriminate.
  - cbn. eexists _, _. split; [reflexivity|]. split; [|discriminate].
    intros q. split; [intros []|]. intros (t & d & Ht & _). discriminate.
  - rewrite walkDir_find_visit. cbn [modules stderr].
    eexists _, _. split; [reflexivity|].
    assert (Hq : forall q, In q (elems (grow None (found root root t)))
                 <-> exists e, below delivered root t q e /\ lists_tf (Node e)).
    { intros q. rewrite elems_grow. cbn [elems app].
      apply found_below; [now apply Hfresh | now left]. }
    split.
    + intros q. rewrite Hq. split.
      * intros (e & Hb & He). now exists t, e.
      * intros (t' & e & Ht & Hb & He). inversion Ht; subst t'. now exists e.
    + intros t' Ht Htf. inversion Ht; subst t'. apply Hq. exists t. split; [constructor|assumption].
Qed.

Lemma sample_project_root_unique :
  root_path_unique (fs_at "/proj" sample_project) "/proj".
Proof.
  intros t Ht. cbv [fs_at] in Ht. cbn in Ht. inversion Ht; subst t.
  rewrite <- list_elem_of_In. apply (bool_decide_unpack _). vm_compute. reflexivity.
Qed.

Lemma FindTerraformModules_recursive_witness :
  exists mods printed,
    FindTerraformModules (fs_at "/proj" sample_project) "/proj" true = (mods, None, printed) /\
    (forall q, In q (elems mods)
               <-> exists t d, fs_at "/proj" sample_project "/proj" = Node t
                               /\ below delivered "/proj" t q d /\ lists_tf (Node d)) /\
    (forall t, fs_at "/proj" sample_project "/proj" = Node t -> lists_tf (Node t) ->
               In "/proj" (elems mods)).
Proof.
  apply (FindTerraformModules_recursive (fs_at "/proj" sample_project) "/proj").
  exact sample_project_root_unique.
Defined.

(** C1 (as stated) fails: the directory /proj/locked holds main.tf and is
    not inside a hidden directory, yet its listing cannot be read and the
    walk does not return it. *)
Lemma recursive_misses_unreadable_directory :
  (exists d, below contents "/proj" sample_project "/proj/locked" d
             /\ IsDir d = true /\ holds_tf (contents d)) /\
  FindTerraformModules (fs_at "/proj" sample_project) "/proj" true
  = (Some ["/proj"; "/proj/modules/vpc"], None,
     ["Warning: skipping /proj/locked due to error: open /proj/locked: permission denied"
      +:+ String LF ""]) /\
  ~ In "/proj/locked" ["/proj"; "/proj/modules/vpc"].
Proof.
  split; [|split].
  - exists locked_dir. split; [|split].
    + apply below_step with locked_dir.
      * cbn. right. now left.
      * reflexivity.
      * change (filepath_Join "/proj" (Name locked_dir)) with "/proj/locked". constructor.
    + reflexivity.
    + exists (File "main.tf"). split; [now left|]. split; reflexivity.
  - vm_compute. reflexivity.
  - intros [H|[H|[]]]; discriminate.
Qed.

(** The root is scanned even when its own name begins with a dot, and the
    hidden directory below it is not. *)
Example hidden_root_is_scanned :
  FindTerraformModules (fs_at "/work/.proj" hidden_project) "/work/.proj" true
  = (Some ["/work/.proj"], None, []).
Proof. vm_compute. reflexivity. Qed.

(** C5: in non-recursive mode FindTerraformModules returns the one-element
    list [root] and no error when the listing of root is read and holds a
    non-directory entry ending in ".tf", and the empty, non-nil list and no
    error in every other case, a failed read among them. *)
Theorem FindTerraformModules_flat (fs : FileSystem) (root : string) :
  (lists_tf (fs root) -> FindTerraformModules fs root false = (Some [root], None, [])) /\
  (~ lists_tf (fs root) -> FindTerraformModules fs root false = (Some [], None, [])) /\
  (forall l e, os_ReadDir (fs root) = (l, Some e) ->
               FindTerraformModules fs root false = (Some [], None, [])).
Proof.
  unfold FindTerraformModules. cbn [negb].
  split; [|split].
  - intros H. apply HasTerraformFiles_lists_tf in H. now rewrite H.
  - intros H. destruct (HasTerraformFiles (fs root)) eqn:E; [|reflexivity].
    exfalso. apply H. now apply HasTerraformFiles_lists_tf.
  - intros l e H. unfold HasTerraformFiles. now rewrite H.
Qed.

Lemma sample_project_lists_tf : lists_tf (fs_at "/proj" sample_project "/proj").
Proof.
  eexists. split; [reflexivity|].
  exists (File "main.tf"). split; [|split; reflexivity].
  right. right. now left.
Qed.

Lemma FindTerraformModules_flat_witness :
  FindTerraformModules (fs_at "/proj" sample_project) "/proj" false
  = (Some ["/proj"], None, []).
Proof.
  apply (proj1 (FindTerraformModules_flat (fs_at "/proj" sample_project) "/proj")).
  exact sample_project_lists_tf.
Defined.

(** ** The copies in main.go *)

(** C9: the functions kept in main.go compute what their counterparts in
    the internal packages compute: the same file name for every base and
    format, and the same directories, error and warnings for every file
    system, root and mode. *)
Theorem main_copies_agree :
  (forall baseOutput format,
     generateOutputFilename baseOutput format = GenerateOutputFilename baseOutput format) /\
  (forall fs root recursive,
     findTerraformModules fs root recursive = FindTerraformModules fs root recursive).
Proof.
  split.
  - intros baseOutput format. reflexivity.
  - intros fs root recursive. reflexivity.
Qed.

(** ** Delimited export *)

Lemma write_fields_Comma (fields : list string) : forall w n,
  Comma (write_fields w n fields) = Comma w.
Proof.
  induction fields as [|f fields IH]; intros w n; simpl; [reflexivity|].
  now rewrite IH.
Qed.

Lemma fieldNeedsQuotes_Comma (w : csv_Writer) (field : string) :
  fieldNeedsQuotes w field = fieldNeedsQuotes {| Comma := Comma w; buffered := "" |} field.
Proof. reflexivity. Qed.

(** The fields after the first are each preceded by the delimiter. *)
Lemma write_fields_rest (fields : list string) : forall w n,
  buffered (write_fields w (S n) fields)
  = buffered w +:+ string_concat (map (fun f => String (Comma w) "" +:+ csv_field (Comma w) f) fields).
Proof.
  induction fields as [|f fields IH]; intros w n; cbn [write_fields map string_concat].
  - now rewrite append_nil_r.
  - rewrite IH. cbn [Comma buffered]. unfold csv_field.
    rewrite <- fieldNeedsQuotes_Comma. now rewrite !append_assoc.
Qed.

Lemma strings_Join_cons (x : string) (rest : list string) (sep : string) :
  strings_Join (x :: rest) sep = x +:+ string_concat (map (fun f => sep +:+ f) rest).
Proof.
  revert x. induction rest as [|y rest IH]; intros x.
  - cbn. now rewrite append_nil_r.
  - change (strings_Join (x :: y :: rest) sep) with (x +:+ sep +:+ strings_Join (y :: rest) sep).
    rewrite IH. cbn [map string_concat]. now rewrite append_assoc.
Qed.

(** One record through [Writer.Write] is one row. *)
Lemma csv_Write_row (w : csv_Writer) (record : list string) :
  validDelim (Comma w) = true -> record <> [] ->
  csv_Write w record
  = (None, {| Comma := Comma w; buffered := buffered w +:+ csv_row (Comma w) record |}).
Proof.
  intros Hvalid Hne. unfold csv_Write. rewrite Hvalid. cbn [negb].
  rewrite write_fields_Comma. f_equal. f_equal.
  destruct record as [|f rest]; [contradiction|].
  cbn [write_fields]. rewrite write_fields_rest. cbn [Comma buffered].
  unfold csv_row. cbn [map]. rewrite strings_Join_cons, map_map.
  unfold csv_field at 2. rewrite <- fieldNeedsQuotes_Comma.
  now rewrite !append_assoc.
Qed.

Lemma write_rows_text (formatName : string) (mods : list ModuleInfo.t) : forall w,
  validDelim (Comma w) = true ->
  write_rows w formatName mods
  = (None, {| Comma := Comma w;
              buffered := buffered w +:+
                string_concat (map (csv_row (Comma w))
                  (map (fun m => [ModuleInfo.Name m; ModuleInfo.Source m;
                                  ModuleInfo.Version m; ModuleInfo.Location m]) mods)) |}).
Proof.
  induction mods as [|m mods IH]; intros w Hvalid; cbn [write_rows map string_concat].
  - rewrite append_nil_r. now destruct w.
  - rewrite csv_Write_row by (assumption || discriminate).
    rewrite IH by assumption. cbn [Comma buffered]. now rewrite append_assoc.
Qed.

Lemma exportDelimited_text (s : SBOM.t) (writer : Writer) (separator : ascii)
  (formatName : string) :
  validDelim separator = true ->
  exportDelimited s writer separator formatName
  = (None, writer +:+ delimited_text separator s).
Proof.
  intros Hvalid. unfold exportDelimited.
  rewrite csv_Write_row by (assumption || discriminate).
  rewrite write_rows_text by assumption. cbn [Comma buffered csv_NewWriter].
  reflexivity.
Qed.

(** A row none of whose fields needs quotes is the fields with the
    delimiter between them. *)
Lemma csv_row_plain (comma : ascii) (fields : list string) :
  Forall (fun f => fieldNeedsQuotes {| Comma := comma; buffered := "" |} f = false) fields ->
  csv_row comma fields = strings_Join fields (String comma "") +:+ String LF "".
Proof.
  intros H. unfold csv_row. f_equal. f_equal.
  induction H as [|f fields Hf _ IH]; [reflexivity|].
  cbn [map]. rewrite IH. unfold csv_field. now rewrite Hf.
Qed.

(** C7: the CSV export writes the header row Name,Source,Version,Location
    and then one row for each module, in the order of the Modules list,
    holding the Name, Source, Version and Location of the module and not
    its Filename; the TSV export writes the same rows with a tab for the
    comma. *)
Theorem delimited_export (s : SBOM.t) (writer : Writer) :
  CSV s writer = (None, writer +:+ delimited_text ","%char s) /\
  TSV s writer = (None, writer +:+ delimited_text TAB s) /\
  (forall comma,
     delimited_text comma s
     = csv_row comma ["Name"; "Source"; "Version"; "Location"]
       +:+ string_concat
             (map (fun m => csv_row comma [ModuleInfo.Name m; ModuleInfo.Source m;
                                           ModuleInfo.Version m; ModuleInfo.Location m])
                  (elems (SBOM.Modules s)))) /\
  csv_row ","%char ["Name"; "Source"; "Version"; "Location"]
  = "Name,Source,Version,Location" +:+ String LF "" /\
  csv_row TAB ["Name"; "Source"; "Version"; "Location"]
  = "Name" +:+ String TAB "Source" +:+ String TAB "Version" +:+ String TAB "Location"
    +:+ String LF "" /\
  length (delimited_rows s) = S (length (elems (SBOM.Modules s))).
Proof.
  split; [|split; [|split; [|split; [|split]]]].
  - apply exportDelimited_text. reflexivity.
  - apply exportDelimited_text. reflexivity.
  - intros comma. unfold delimited_text, delimited_rows. cbn [map string_concat].
    now rewrite map_map.
  - reflexivity.
  - reflexivity.
  - unfold delimited_rows. cbn [length]. now rewrite length_map.
Qed.

Example sample_csv :
  CSV sample_sbom ""
  = (None,
     "Name,Source,Version,Location" +:+ String LF "" +:+
     "vpc,terraform-aws-modules/vpc/aws," +:+ String QUOTE "" +:+ ">= 5.0, < 6.0"
       +:+ String QUOTE "" +:+ ",Module call at /proj/main.tf:3" +:+ String LF "" +:+
     "network,./modules/network,,Module call at /proj/main.tf:9" +:+ String LF "").
Proof. vm_compute. reflexivity. Qed.

Example sample_tsv :
  TSV sample_sbom ""
  = (None,
     "Name" +:+ String TAB "Source" +:+ String TAB "Version" +:+ String TAB "Location"
       +:+ String LF "" +:+
     "vpc" +:+ String TAB "terraform-aws-modules/vpc/aws" +:+ String TAB ">= 5.0, < 6.0"
       +:+ String TAB "Module call at /proj/main.tf:3" +:+ String LF "" +:+
     "network" +:+ String TAB "./modules/network" +:+ String TAB ""
       +:+ String TAB "Module call at /proj/main.tf:9" +:+ String LF "").
Proof. vm_compute. reflexivity. Qed.

(** ** SPDX and CycloneDX *)

Lemma strings_Split_head (s : string) (sep : ascii) :
  exists pieces, strings_Split s sep = before_byte sep s :: pieces.
Proof.
  induction s as [|c s [pieces IH]]; cbn [strings_Split before_byte].
  - now exists [].
  - destruct (Ascii.eqb c sep).
    + now eexists.
    + rewrite IH. now eexists.
Qed.

Lemma component_of_Group (m : ModuleInfo.t) :
  Component.Group (component_of m) = before_byte "/"%char (ModuleInfo.Source m).
Proof.
  unfold component_of. cbn [Component.Group].
  destruct (ModuleInfo.Source m) as [|c src] eqn:Hsrc; [reflexivity|].
  cbn [String.length Nat.ltb Nat.leb].
  destruct (strings_Split_head (String c src) "/"%char) as [pieces ->]. reflexivity.
Qed.

Lemma component_of_Version (m : ModuleInfo.t) :
  Component.Version (component_of m) = ModuleInfo.Version m.
Proof.
  unfold component_of. cbn [Component.Version].
  destruct (String.eqb_spec (ModuleInfo.Version m) "") as [->|]; reflexivity.
Qed.

(** C8 (as stated) fails: the SPDX identifier of a package is built from
    its position in the list, and the group of a CycloneDX component is the
    part of the Source before its first slash; neither is a constant or a
    copy of a field of the module. *)
Lemma builders_derive_fields :
  PackageSPDXIdentifier (spdx_package_of 0 vpc_module) = "SPDXRef-Package-0" /\
  PackageSPDXIdentifier (spdx_package_of 1 vpc_module) = "SPDXRef-Package-1" /\
  Component.Group (component_of vpc_module) = "terraform-aws-modules" /\
  Component.Group (component_of local_module) = "." /\
  ~ field_copy (fun i m => PackageSPDXIdentifier (spdx_package_of i m)) /\
  ~ field_copy (fun _ m => Component.Group (component_of m)).
Proof.
  repeat split; try reflexivity.
  - intros [c H].
    destruct (H 0 vpc_module) as [H0|H0].
    2:{ vm_compute in H0. intuition discriminate. }
    destruct (H 1 vpc_module) as [H1|H1].
    2:{ vm_compute in H1. intuition discriminate. }
    vm_compute in H0, H1. congruence.
  - intros [c H].
    destruct (H 0 vpc_module) as [H0|H0].
    2:{ vm_compute in H0. intuition discriminate. }
    destruct (H 0 local_module) as [H1|H1].
    2:{ vm_compute in H1. intuition discriminate. }
    vm_compute in H0, H1. congruence.
Qed.

(** C8 (as amended): the builders emit one SPDX package and one CycloneDX
    component per module, in the order of the Modules list.  The package
    name, download location, copyright text and version, and the component
    type, name and version, are each a constant or a copy of a field of the
    module: the download location is the Source, the package version is the
    Version, or NOASSERTION when the Version is empty, and the component
    version is the Version exactly when that is not empty.  The SPDX
    identifier is SPDXRef-Package- followed by the position of the module,
    and the component group is the part of the Source before its first
    slash. *)
Theorem builders_copy_fields (now1 now2 now3 : Time) (s : SBOM.t) :
  length (Packages (ConvertToSPDX now1 now2 s)) = length (elems (SBOM.Modules s)) /\
  length (BOM.Components (ConvertToCycloneDX now3 s)) = length (elems (SBOM.Modules s)) /\
  (forall i m, elems (SBOM.Modules s) !! i = Some m ->
     exists pkg c,
       Packages (ConvertToSPDX now1 now2 s) !! i = Some pkg /\
       BOM.Components (ConvertToCycloneDX now3 s) !! i = Some c /\
       PackageName pkg = ModuleInfo.Name m /\
       PackageSPDXIdentifier pkg = "SPDXRef-Package-" +:+ fmt_d (Z.of_nat i) /\
       PackageDownloadLocation pkg = ModuleInfo.Source m /\
       PackageCopyrightText pkg = "NOASSERTION" /\
       (ModuleInfo.Version m <> "" -> PackageVersion pkg = ModuleInfo.Version m) /\
       (ModuleInfo.Version m = "" -> PackageVersion pkg = "NOASSERTION") /\
       Component.Type_ c = "library" /\
       Component.Name c = ModuleInfo.Name m /\
       (ModuleInfo.Version m <> "" -> Component.Version c = ModuleInfo.Version m) /\
       (ModuleInfo.Version m = "" -> Component.Version c = "") /\
       Component.Group c = before_byte "/"%char (ModuleInfo.Source m)) /\
  field_copy (fun i m => PackageName (spdx_package_of i m)) /\
  field_copy (fun i m => PackageDownloadLocation (spdx_package_of i m)) /\
  field_copy (fun i m => PackageCopyrightText (spdx_package_of i m)) /\
  field_copy (fun i m => PackageVersion (spdx_package_of i m)) /\
  field_copy (fun _ m => Component.Type_ (component_of m)) /\
  field_copy (fun _ m => Component.Name (component_of m)) /\
  field_copy (fun _ m => Component.Version (component_of m)).
Proof.
  split; [|split; [|split]].
  - cbn [ConvertToSPDX Packages]. apply length_imap.
  - cbn [ConvertToCycloneDX BOM.Components]. apply length_imap.
  - intros i m Hm. exists (spdx_package_of i m), (component_of m).
    cbn [ConvertToSPDX Packages ConvertToCycloneDX BOM.Components].
    rewrite !list_lookup_imap, Hm. cbn [fmap option_fmap option_map].
    split; [reflexivity|]. split; [reflexivity|].
    split; [reflexivity|]. split; [reflexivity|]. split; [reflexivity|].
    split; [reflexivity|].
    split; [|split; [|split; [|split; [|split; [|split]]]]].
    + intros Hv. cbn. apply String.eqb_neq in Hv. now rewrite Hv.
    + intros Hv. cbn. now rewrite Hv.
    + reflexivity.
    + reflexivity.
    + intros _. apply component_of_Version.
    + intros Hv. rewrite component_of_Version. exact Hv.
    + apply component_of_Group.
  - repeat split.
    + exists "". intros i m. right. now left.
    + exists "". intros i m. right. right. now left.
    + exists "NOASSERTION". intros i m. now left.
    + exists "NOASSERTION". intros i m. cbn.
      destruct (ModuleInfo.Version m =? "")%string; [now left|].
      right. right. right. now left.
    + exists "library". intros i m. now left.
    + exists "". intros i m. right. now left.
    + exists "". intros i m. right. right. right. left.
      symmetry. apply component_of_Version.
Qed.

Lemma builders_copy_fields_witness :
  exists pkg c,
    Packages (ConvertToSPDX (Build_Time 2024 5 17 9 30 0 0) (Build_Time 2024 5 17 9 30 0 0)
                            sample_sbom) !! 1 = Some pkg /\
    BOM.Components (ConvertToCycloneDX (Build_Time 2024 5 17 9 30 0 0) sample_sbom) !! 1
    = Some c /\
    PackageName pkg = "network" /\
    PackageSPDXIdentifier pkg = "SPDXRef-Package-1" /\
    PackageVersion pkg = "NOASSERTION" /\
    Component.Version c = "" /\
    Component.Group c = ".".
Proof.
  destruct (proj1 (proj2 (proj2
              (builders_copy_fields (Build_Time 2024 5 17 9 30 0 0)
                 (Build_Time 2024 5 17 9 30 0 0) (Build_Time 2024 5 17 9 30 0 0)
                 sample_sbom))) 1 local_module eq_refl)
    as (pkg & c & Hp & Hc & Hn & Hid & _ & _ & _ & Hv & _ & _ & _ & Hcv & Hg).
  exists pkg, c. repeat split; try assumption.
  - now apply Hv.
  - now apply Hcv.
Defined.

(** ** Export *)

Lemma unsupported_format_eqb (format : string) :
  ~ In format supported_formats ->
  (format =? "json")%string = false /\ (format =? "xml")%string = false /\
  (format =? "csv")%string = false /\ (format =? "tsv")%string = false /\
  (format =? "spdx")%string = false /\ (format =? "cyclonedx")%string = false.
Proof.
  intros H. repeat split; apply String.eqb_neq; intros ->; apply H; cbn; tauto.
Qed.

Section Export_properties.

Variable json_Encode : SBOM.t -> string * error.
Variable XML : SBOM.t -> Writer -> error * Writer.
Variable spdxjson_Write : spdx_Document -> string * error.
Variable cyclonedx_Encode : BOM.t -> string * error.
Variable now1 now2 now3 : Time.

Let Export' := Export json_Encode XML spdxjson_Write cyclonedx_Encode now1 now2 now3.

(** C10: Export turns down a nil SBOM, an empty format and an empty output
    path without a call to the file system.  For a format that is not
    empty and not supported it creates or truncates the file at the output
    path first and returns the error "unsupported format" afterwards, so
    that an empty file stays behind; when the file cannot be created the
    error of the creation is returned instead. *)
Theorem Export_unsupported_format_not_atomic :
  (forall format outputPath d,
     Export' None format outputPath d = (Some "sbom cannot be nil", d)) /\
  (forall s outputPath d,
     Export' (Some s) "" outputPath d = (Some "format cannot be empty", d)) /\
  (forall s format d, format <> "" ->
     Export' (Some s) format "" d = (Some "output path cannot be empty", d)) /\
  (forall s format outputPath d,
     format <> "" -> ~ In format supported_formats ->
     outputPath <> "" -> outputPath ∉ refused d ->
     Export' (Some s) format outputPath d
     = (Some ("unsupported format: " +:+ format
              +:+ " (supported: json, xml, csv, tsv, spdx, cyclonedx)"),
        {| files := <[outputPath := ""]> (files d);
           refused := refused d;
           calls := calls d ++ [call_Create outputPath; call_Close outputPath] |})) /\
  (forall s format outputPath d,
     format <> "" -> outputPath <> "" -> outputPath ∈ refused d ->
     Export' (Some s) format outputPath d
     = (Some ("failed to create output file: open " +:+ outputPath +:+ ": permission denied"),
        {| files := files d; refused := refused d;
           calls := calls d ++ [call_Create outputPath] |})).
Proof.
  unfold Export', Export.
  split; [|split; [|split; [|split]]].
  - reflexivity.
  - reflexivity.
  - intros s format d Hf. apply String.eqb_neq in Hf. now rewrite Hf.
  - intros s format outputPath d Hf Hunsup Hp Hok.
    apply String.eqb_neq in Hf, Hp. rewrite Hf, Hp.
    unfold os_Create. rewrite decide_False by assumption.
    destruct (unsupported_format_eqb format Hunsup) as (-> & -> & -> & -> & -> & ->).
    unfold file_Close. cbn [files refused calls]. now rewrite <- app_assoc.
  - intros s format outputPath d Hf Hp Hno.
    apply String.eqb_neq in Hf, Hp. rewrite Hf, Hp.
    unfold os_Create. now rewrite decide_True by assumption.
Qed.

End Export_properties.

Lemma Export_unsupported_format_witness :
  Export (fun _ => ("", None)) (fun _ w => (None, w)) (fun _ => ("", None)) (fun _ => ("", None))
         (Build_Time 2024 5 17 9 30 0 0) (Build_Time 2024 5 17 9 30 0 0)
         (Build_Time 2024 5 17 9 30 0 0)
         (Some sample_sbom) "yaml" "sbom.yaml" sample_disk
  = (Some "unsupported format: yaml (supported: json, xml, csv, tsv, spdx, cyclonedx)",
     {| files := <["sbom.yaml" := ""]> (files sample_disk);
        refused := refused sample_disk;
        calls := [call_Create "sbom.yaml"; call_Close "sbom.yaml"] |}).
Proof.
  apply (proj1 (proj2 (proj2 (proj2
           (Export_unsupported_format_not_atomic
              (fun _ => ("", None)) (fun _ w => (None, w)) (fun _ => ("", None))
              (fun _ => ("", None))
              (Build_Time 2024 5 17 9 30 0 0) (Build_Time 2024 5 17 9 30 0 0)
              (Build_Time 2024 5 17 9 30 0 0))))) sample_sbom "yaml" "sbom.yaml" sample_disk).
  - discriminate.
  - rewrite <- list_elem_of_In. apply (bool_decide_unpack _). vm_compute. reflexivity.
  - discriminate.
  - apply (bool_decide_unpack _). vm_compute. reflexivity.
Defined.

(** The earlier report is gone after the failed export. *)
Example stale_report_is_truncated :
  files sample_disk !! "sbom.yaml" = Some "stale report" /\
  files (Export (fun _ => ("", None)) (fun _ w => (None, w)) (fun _ => ("", None))
                (fun _ => ("", None))
                (Build_Time 2024 5 17 9 30 0 0) (Build_Time 2024 5 17 9 30 0 0)
                (Build_Time 2024 5 17 9 30 0 0)
                (Some sample_sbom) "yaml" "sbom.yaml" sample_disk).2 !! "sbom.yaml"
  = Some "".
Proof. split; vm_compute; reflexivity. Qed.

(** ** Generation *)

Lemma grow_Some {A} (xs : list A) : forall l, grow (Some l) xs = Some (l ++ xs).
Proof.
  induction xs as [|x xs IH]; intros l.
  - cbn. now rewrite app_nil_r.
  - change (grow (Some l) (x :: xs)) with (grow (Some (l ++ [x])) xs).
    rewrite IH. now rewrite <- app_assoc.
Qed.

Lemma fold_add_module (l : list tfconfig.ModuleCall) : forall sbom,
  fold_left (fun sbom moduleCall => add_module sbom (moduleInfo_of moduleCall)) l sbom
  = {| SBOM.Version := SBOM.Version sbom;
       SBOM.Generated := SBOM.Generated sbom;
       SBOM.Tool := SBOM.Tool sbom;
       SBOM.Modules := grow (SBOM.Modules sbom) (map moduleInfo_of l) |}.
Proof.
  induction l as [|mc l IH]; intros sbom.
  - now destruct sbom.
  - cbn [fold_left map]. rewrite IH. reflexivity.
Qed.

(** The loop over the directories when no directory fails to load. *)
Lemma load_modules_ok (env : Env) (moduleDirs : list string) : forall i sbom,
  Forall (fun dir => load_fails env dir = false) moduleDirs ->
  load_modules env i moduleDirs sbom
  = (Some {| SBOM.Version := SBOM.Version sbom;
             SBOM.Generated := SBOM.Generated sbom;
             SBOM.Tool := SBOM.Tool sbom;
             SBOM.Modules := grow (SBOM.Modules sbom)
                                  (concat (record_groups env i moduleDirs)) |},
     None).
Proof.
  induction moduleDirs as [|dir rest IH]; intros i sbom Hok.
  - now destruct sbom.
  - apply Forall_cons_1 in Hok as [Hdir Hrest].
    cbn [load_modules record_groups concat]. unfold load_fails in Hdir.
    unfold records_of.
    destruct (tfconfig_LoadModule env dir) as [module diags].
    cbn [fst snd] in *. rewrite Hdir, fold_add_module, IH by assumption.
    cbn [SBOM.Version SBOM.Generated SBOM.Tool SBOM.Modules].
    now rewrite grow_app.
Qed.

(** The loop stops at the first directory that fails to load. *)
Lemma load_modules_fail (env : Env) (pre : list string) (dir : string) (post : list string) :
  forall i sbom,
  Forall (fun dir => load_fails env dir = false) pre ->
  load_fails env dir = true ->
  load_modules env i (pre ++ dir :: post) sbom
  = (None, Some ("failed to load Terraform module from " +:+ dir +:+ ": "
                 +:+ tfconfig.Error (snd (tfconfig_LoadModule env dir)))).
Proof.
  induction pre as [|d pre IH]; intros i sbom Hpre Hdir.
  - cbn [app load_modules]. unfold load_fails in Hdir.
    destruct (tfconfig_LoadModule env dir) as [module diags]. cbn [snd] in *.
    now rewrite Hdir.
  - apply Forall_cons_1 in Hpre as [Hd Hpre].
    cbn [app load_modules]. unfold load_fails in Hd.
    destruct (tfconfig_LoadModule env d) as [module diags]. cbn [snd] in Hd.
    rewrite Hd. now apply IH.
Qed.

Lemma first_failure (env : Env) (moduleDirs : list string) :
  Forall (fun dir => load_fails env dir = false) moduleDirs \/
  exists pre dir post,
    moduleDirs = pre ++ dir :: post /\
    Forall (fun dir => load_fails env dir = false) pre /\ load_fails env dir = true.
Proof.
  induction moduleDirs as [|d rest [IH | (pre & dir & post & -> & Hpre & Hdir)]].
  - left. constructor.
  - destruct (load_fails env d) eqn:Hd.
    + right. exists [], d, rest. repeat split; [constructor | assumption].
    + left. now constructor.
  - destruct (load_fails env d) eqn:Hd.
    + right. exists [], d, (pre ++ dir :: post). repeat split; [constructor | assumption].
    + right. exists (d :: pre), dir, post. repeat split; [now constructor | assumption].
Qed.

(** The steps of a run of [Generate] that returns an SBOM. *)
Lemma Generate_Some (env : Env) (configPath : string) (recursive : bool)
  (s : SBOM.t) (err : error) (printed : list string) :
  Generate env configPath recursive = (Some s, err, printed) ->
  exists absPath moduleDirs,
    ValidateTerraformDirectory (fs env) configPath = None /\
    filepath_Abs env configPath = (absPath, None) /\
    FindTerraformModules (fs env) absPath recursive = (moduleDirs, None, printed) /\
    Forall (fun dir => load_fails env dir = false) (elems moduleDirs) /\
    err = None /\
    s = {| SBOM.Version := "1.0";
           SBOM.Generated := Format_RFC3339 (time_Now env);
           SBOM.Tool := "terraform-sbom";
           SBOM.Modules := Some (concat (record_groups env 0 (elems moduleDirs))) |}.
Proof.
  unfold Generate.
  destruct (ValidateTerraformDirectory (fs env) configPath) as [e|] eqn:Hvalid;
    [discriminate|].
  destruct (filepath_Abs env configPath) as [absPath [e|]] eqn:Habs; [discriminate|].
  destruct (FindTerraformModules (fs env) absPath recursive)
    as [[moduleDirs [e|]] printed'] eqn:Hfind; [discriminate|].
  destruct (first_failure env (elems moduleDirs))
    as [Hok | (pre & dir & post & Heq & Hpre & Hdir)].
  - rewrite load_modules_ok by assumption. cbn [SBOM.Version SBOM.Generated SBOM.Tool SBOM.Modules].
    rewrite grow_Some. cbn [app]. intros H. inversion H; subst.
    exists absPath, moduleDirs. repeat split; assumption || reflexivity.
  - rewrite Heq, load_modules_fail by assumption. discriminate.
Qed.

(** ** The time stamp *)

Lemma has_shape_app (p1 : list shape_item) : forall s1 p2 s2,
  has_shape p1 s1 = true -> has_shape p2 s2 = true ->
  has_shape (p1 ++ p2) (s1 +:+ s2) = true.
Proof.
  induction p1 as [|item p1 IH]; intros s1 p2 s2 H1 H2.
  - destruct s1; [exact H2 | discriminate].
  - destruct s1 as [|c s1]; [destruct item; discriminate|].
    rewrite append_cons. cbn [app has_shape] in *.
    destruct item; apply andb_true_iff in H1 as [Hc H1]; rewrite Hc; cbn [andb];
      now apply IH.
Qed.

Lemma appendInt_two_digits (n : Z) :
  (0 <= n < 100)%Z -> has_shape [Digit; Digit] (appendInt n 2) = true.
Proof.
  intros Hn.
  assert (Hall : forallb (fun k => has_shape [Digit; Digit] (appendInt (Z.of_nat k) 2))
                         (seq 0 100) = true) by (vm_compute; reflexivity).
  rewrite List.forallb_forall in Hall.
  specialize (Hall (Z.to_nat n)). rewrite Z2Nat.id in Hall by lia.
  apply Hall. apply List.in_seq. lia.
Qed.

Lemma appendInt_four_digits (n : Z) :
  (0 <= n < 10000)%Z -> has_shape [Digit; Digit; Digit; Digit] (appendInt n 4) = true.
Proof.
  intros Hn.
  assert (Hall : forallb (fun k => has_shape [Digit; Digit; Digit; Digit]
                                     (appendInt (Z.of_nat k) 4))
                         (seq 0 (100 * 100)) = true) by (vm_compute; reflexivity).
  rewrite List.forallb_forall in Hall.
  specialize (Hall (Z.to_nat n)). rewrite Z2Nat.id in Hall by lia.
  apply Hall. apply List.in_seq. lia.
Qed.

Lemma format_date_clock_shape (t : Time) :
  civil t -> has_shape shape_date_clock (format_date_clock t) = true.
Proof.
  intros (Hy & Hmo & Hd & Hh & Hmi & Hs & _).
  unfold format_date_clock.
  change shape_date_clock with
    ([Digit; Digit; Digit; Digit] ++ [Byte "-"%char] ++ [Digit; Digit] ++ [Byte "-"%char]
     ++ [Digit; Digit] ++ [Byte "T"%char] ++ [Digit; Digit] ++ [Byte ":"%char]
     ++ [Digit; Digit] ++ [Byte ":"%char] ++ [Digit; Digit]).
  repeat (apply has_shape_app;
          [first [ apply appendInt_four_digits; lia
                 | apply appendInt_two_digits; lia
                 | reflexivity ] |]).
  apply appendInt_two_digits; lia.
Qed.

Lemma format_zone_shape (off : Z) :
  (-86400 < off < 86400)%Z ->
  has_shape [Byte "Z"%char] (format_zone off) = true
  \/ has_shape [Byte "+"%char; Digit; Digit; Byte ":"%char; Digit; Digit] (format_zone off) = true
  \/ has_shape [Byte "-"%char; Digit; Digit; Byte ":"%char; Digit; Digit] (format_zone off) = true.
Proof.
  intros Hoff. unfold format_zone.
  destruct (off =? 0)%Z; [now left|]. right.
  assert (Hq : (0 <= Z.quot (Z.abs (Z.quot off 60)) 60 < 100)%Z).
  { Z.quot_rem_to_equations. lia. }
  assert (Hr : (0 <= Z.rem (Z.abs (Z.quot off 60)) 60 < 100)%Z).
  { Z.quot_rem_to_equations. lia. }
  destruct (Z.quot off 60 <? 0)%Z; [right|left].
  - change [Byte "-"%char; Digit; Digit; Byte ":"%char; Digit; Digit]
      with ([Byte "-"%char] ++ [Digit; Digit] ++ [Byte ":"%char] ++ [Digit; Digit]).
    apply has_shape_app; [reflexivity|].
    apply has_shape_app; [now apply appendInt_two_digits|].
    apply has_shape_app; [reflexivity|]. now apply appendInt_two_digits.
  - change [Byte "+"%char; Digit; Digit; Byte ":"%char; Digit; Digit]
      with ([Byte "+"%char] ++ [Digit; Digit] ++ [Byte ":"%char] ++ [Digit; Digit]).
    apply has_shape_app; [reflexivity|].
    apply has_shape_app; [now apply appendInt_two_digits|].
    apply has_shape_app; [reflexivity|]. now apply appendInt_two_digits.
Qed.

(** What [Format] writes for the layout RFC3339 is a date-time of RFC 3339. *)
Lemma Format_RFC3339_shape (t : Time) : civil t -> is_RFC3339 (Format_RFC3339 t) = true.
Proof.
  intros Ht. pose proof (format_date_clock_shape t Ht) as Hdate.
  destruct Ht as (_ & _ & _ & _ & _ & _ & Hoff).
  unfold is_RFC3339, Format_RFC3339.
  destruct (format_zone_shape (offset t) Hoff) as [Hz | [Hz | Hz]].
  - rewrite (has_shape_app _ _ _ _ Hdate Hz). reflexivity.
  - rewrite (has_shape_app _ _ _ _ Hdate Hz). now rewrite orb_true_r.
  - rewrite (has_shape_app _ _ _ _ Hdate Hz). now rewrite orb_true_r.
Qed.

(** C6: an SBOM that Generate returns comes with no error and carries the
    format version "1.0", the tool name "terraform-sbom", the time of the
    run formatted by the layout RFC3339 (a date-time of RFC 3339 whenever
    the clock shows a calendar date with a year of four digits), and a
    Modules list that is not nil. *)
Theorem Generate_envelope (env : Env) (configPath : string) (recursive : bool)
  (s : SBOM.t) (err : error) (printed : list string) :
  Generate env configPath recursive = (Some s, err, printed) ->
  err = None /\
  SBOM.Version s = "1.0" /\
  SBOM.Tool s = "terraform-sbom" /\
  SBOM.Generated s = Format_RFC3339 (time_Now env) /\
  SBOM.Modules s <> None /\
  (civil (time_Now env) -> is_RFC3339 (SBOM.Generated s) = true).
Proof.
  intros H. apply Generate_Some in H as (absPath & moduleDirs & _ & _ & _ & _ & -> & ->).
  cbn [SBOM.Version SBOM.Tool SBOM.Generated SBOM.Modules].
  repeat split; try reflexivity.
  - discriminate.
  - apply Format_RFC3339_shape.
Qed.

Lemma sample_time_civil : civil sample_time.
Proof. unfold civil, sample_time. cbn. lia. Qed.

Lemma sample_run :
  Generate (sample_env sample_parser as_listed) "/proj" true
  = (Some sample_report, None, [sample_warning]).
Proof. vm_compute. reflexivity. Qed.

Lemma Generate_envelope_witness :
  Generate (sample_env sample_parser as_listed) "/proj" true
  = (Some sample_report, None, [sample_warning]) /\
  @None string = None /\
  SBOM.Version sample_report = "1.0" /\
  SBOM.Tool sample_report = "terraform-sbom" /\
  SBOM.Generated sample_report
  = Format_RFC3339 (time_Now (sample_env sample_parser as_listed)) /\
  SBOM.Modules sample_report <> None /\
  (civil (time_Now (sample_env sample_parser as_listed)) ->
   is_RFC3339 (SBOM.Generated sample_report) = true).
Proof.
  split; [exact sample_run|].
  exact (Generate_envelope (sample_env sample_parser as_listed) "/proj" true
           sample_report None [sample_warning] sample_run).
Defined.

(** ** The records of a run *)

Lemma records_of_declared (env : Env) (i : nat) (dir : string) :
  visits_each_once (map_order env i) ->
  Permutation (records_of env i dir) (map moduleInfo_of (declared env dir)).
Proof.
  intros Hperm. unfold records_of, declared, range_map.
  apply Permutation_map, Permutation_map, Hperm.
Qed.

Lemma record_groups_declared (env : Env) (moduleDirs : list string) : forall i,
  (forall i, visits_each_once (map_order env i)) ->
  Permutation (concat (record_groups env i moduleDirs))
              (flat_map (fun dir => map moduleInfo_of (declared env dir)) moduleDirs).
Proof.
  induction moduleDirs as [|dir rest IH]; intros i Hperm.
  - constructor.
  - cbn [record_groups concat flat_map].
    apply Permutation_app; [now apply records_of_declared | now apply IH].
Qed.

Lemma rev_app_append (s1 : string) : forall s2 acc,
  String.rev_app (s1 +:+ s2) acc = String.rev_app s2 (String.rev_app s1 acc).
Proof.
  induction s1 as [|c s1 IH]; intros s2 acc; [reflexivity|].
  rewrite append_cons. cbn [String.rev_app]. apply IH.
Qed.

Lemma last_elem_rev_app (n : string) : forall rest acc,
  contains_byte os_IsPathSeparator n = false ->
  last_elem (String.rev_app n rest) acc = last_elem rest (n +:+ acc).
Proof.
  induction n as [|c n IH]; intros rest acc Hn; [reflexivity|].
  cbn [contains_byte] in Hn. apply orb_false_iff in Hn as [Hc Hn].
  cbn [String.rev_app]. rewrite IH by assumption.
  cbn [last_elem]. now rewrite Hc.
Qed.

Lemma strip_seps_rev_app (n : string) : forall rest,
  n <> "" -> contains_byte os_IsPathSeparator n = false ->
  strip_seps (String.rev_app n rest) = String.rev_app n rest.
Proof.
  induction n as [|c n IH]; intros rest Hne Hn; [contradiction|].
  cbn [contains_byte] in Hn. apply orb_false_iff in Hn as [Hc Hn].
  cbn [String.rev_app]. destruct n as [|c' n].
  - cbn [String.rev_app strip_seps]. now rewrite Hc.
  - apply IH; [discriminate | assumption].
Qed.

(** The base name of a file in a directory is the name of the file. *)
Lemma filepath_Base_file (dir name : string) :
  name <> "" -> contains_byte os_IsPathSeparator name = false ->
  filepath_Base (dir +:+ "/" +:+ name) = name.
Proof.
  intros Hne Hn. unfold filepath_Base.
  assert (Hpath : (dir +:+ "/" +:+ name =? "")%string = false).
  { destruct dir; reflexivity. }
  rewrite Hpath. unfold String.rev. rewrite !rev_app_append.
  rewrite strip_seps_rev_app by assumption.
  rewrite last_elem_rev_app by assumption.
  cbn [String.rev_app last_elem]. change (os_IsPathSeparator "/"%char) with true.
  cbn iota. rewrite append_nil_r.
  apply String.eqb_neq in Hne. now rewrite Hne.
Qed.

(** C4: Generate makes one ModuleInfo for each module call declared in a
    directory it loads, and none besides.  The Name, Source and Version of
    the record are those of the call (the Version may be empty), its
    Location is "Module call at <file>:<line>" with the line in decimal, and
    its Filename is the base name of the file of the call; the records
    returned are the records made. *)
Theorem Generate_module_records (env : Env) (configPath : string) (recursive : bool)
  (s : SBOM.t) (err : error) (printed : list string) :
  (forall i, visits_each_once (map_order env i)) ->
  Generate env configPath recursive = (Some s, err, printed) ->
  (exists absPath moduleDirs,
     filepath_Abs env configPath = (absPath, None) /\
     FindTerraformModules (fs env) absPath recursive = (moduleDirs, None, printed) /\
     Permutation (elems (SBOM.Modules s))
                 (flat_map (fun dir => map moduleInfo_of (declared env dir))
                           (elems moduleDirs))) /\
  (forall moduleCall,
     ModuleInfo.Name (moduleInfo_of moduleCall) = tfconfig.Name moduleCall /\
     ModuleInfo.Source (moduleInfo_of moduleCall) = tfconfig.Source moduleCall /\
     ModuleInfo.Version (moduleInfo_of moduleCall) = tfconfig.Version moduleCall /\
     ModuleInfo.Location (moduleInfo_of moduleCall)
     = "Module call at " +:+ tfconfig.Filename (tfconfig.Pos moduleCall) +:+ ":"
       +:+ fmt_d (tfconfig.Line (tfconfig.Pos moduleCall)) /\
     ModuleInfo.Filename (moduleInfo_of moduleCall)
     = filepath_Base (tfconfig.Filename (tfconfig.Pos moduleCall))) /\
  (forall dir name, name <> "" -> contains_byte os_IsPathSeparator name = false ->
     filepath_Base (dir +:+ "/" +:+ name) = name).
Proof.
  intros Hperm H.
  apply Generate_Some in H as (absPath & moduleDirs & _ & Habs & Hfind & _ & -> & ->).
  split; [|split].
  - exists absPath, moduleDirs. repeat split; try assumption.
    cbn [SBOM.Modules elems]. now apply record_groups_declared.
  - intros moduleCall. repeat split.
  - apply filepath_Base_file.
Qed.

Lemma as_listed_visits_each_once : visits_each_once as_listed.
Proof. intros l. reflexivity. Qed.

Lemma backwards_visits_each_once : visits_each_once backwards.
Proof. intros l. symmetry. apply Permutation_rev. Qed.

Lemma Generate_module_records_witness :
  exists absPath moduleDirs,
    filepath_Abs (sample_env sample_parser as_listed) "/proj" = (absPath, None) /\
    FindTerraformModules (fs (sample_env sample_parser as_listed)) absPath true
    = (moduleDirs, None, [sample_warning]) /\
    Permutation (elems (SBOM.Modules sample_report))
                (flat_map (fun dir => map moduleInfo_of
                                        (declared (sample_env sample_parser as_listed) dir))
                          (elems moduleDirs)).
Proof.
  apply (Generate_module_records (sample_env sample_parser as_listed) "/proj" true
           sample_report None [sample_warning]).
  - intros i. exact as_listed_visits_each_once.
  - exact sample_run.
Defined.

(** ** Two runs over the same state *)

Lemma record_groups_same (env1 env2 : Env) (moduleDirs : list string) : forall i,
  tfconfig_LoadModule env1 = tfconfig_LoadModule env2 ->
  (forall i, visits_each_once (map_order env1 i)) ->
  (forall i, visits_each_once (map_order env2 i)) ->
  Forall2 (@Permutation ModuleInfo.t)
          (record_groups env1 i moduleDirs) (record_groups env2 i moduleDirs).
Proof.
  induction moduleDirs as [|dir rest IH]; intros i Hparse H1 H2.
  - constructor.
  - cbn [record_groups]. constructor; [|now apply IH].
    rewrite (records_of_declared env1 i dir (H1 i)).
    rewrite (records_of_declared env2 i dir (H2 i)).
    unfold declared. now rewrite Hparse.
Qed.

Lemma Forall2_Permutation_concat {A} (g1 g2 : list (list A)) :
  Forall2 (@Permutation A) g1 g2 -> Permutation (concat g1) (concat g2).
Proof.
  induction 1 as [|x y g1 g2 Hxy _ IH]; [constructor|].
  cbn [concat]. now apply Permutation_app.
Qed.

(** C3 (as stated) fails: the module calls of a directory are kept in a Go
    map, and two runs over the same state that range over it in different
    orders return the same records in different orders. *)
Lemma map_order_changes_Modules :
  same_state (sample_env sample_parser as_listed) (sample_env sample_parser backwards) /\
  visits_each_once as_listed /\ visits_each_once backwards /\
  (exists s1 s2,
     Generate (sample_env sample_parser as_listed) "/proj" false = (Some s1, None, []) /\
     Generate (sample_env sample_parser backwards) "/proj" false = (Some s2, None, []) /\
     SBOM.Modules s1 = Some [local_module; vpc_module] /\
     SBOM.Modules s2 = Some [vpc_module; local_module] /\
     SBOM.Modules s1 <> SBOM.Modules s2).
Proof.
  split; [repeat split|].
  split; [exact as_listed_visits_each_once|].
  split; [exact backwards_visits_each_once|].
  eexists _, _.
  split; [vm_compute; reflexivity|].
  split; [vm_compute; reflexivity|].
  split; [reflexivity|]. split; [reflexivity|].
  cbn. discriminate.
Qed.

(** C3 (as amended): two runs of Generate over the same file system state,
    with the same path and flag, end alike, with the same error and the
    same warnings or with an SBOM each.  The two Modules lists then hold
    the same ModuleInfo records, one group per module directory in the
    order of the walk; within the group of a directory the order is that
    of the range over the map of its module calls, which is not fixed. *)
Theorem Generate_same_records (env1 env2 : Env) (configPath : string) (recursive : bool) :
  same_state env1 env2 ->
  (forall i, visits_each_once (map_order env1 i)) ->
  (forall i, visits_each_once (map_order env2 i)) ->
  exists r1 r2 err printed,
    Generate env1 configPath recursive = (r1, err, printed) /\
    Generate env2 configPath recursive = (r2, err, printed) /\
    match r1, r2 with
    | Some s1, Some s2 =>
        exists moduleDirs,
          SBOM.Modules s1 = Some (concat (record_groups env1 0 moduleDirs)) /\
          SBOM.Modules s2 = Some (concat (record_groups env2 0 moduleDirs)) /\
          Forall2 (@Permutation ModuleInfo.t)
                  (record_groups env1 0 moduleDirs) (record_groups env2 0 moduleDirs) /\
          Permutation (elems (SBOM.Modules s1)) (elems (SBOM.Modules s2))
    | None, None => err <> None
    | _, _ => False
    end.
Proof.
  intros (Hfs & Hwd & Hparse) H1 H2.
  assert (Habs : filepath_Abs env2 configPath = filepath_Abs env1 configPath).
  { unfold filepath_Abs. now rewrite Hwd. }
  unfold Generate. rewrite Habs, <- Hfs.
  destruct (ValidateTerraformDirectory (fs env1) configPath) as [e|].
  { exists None, None, (Some e), []. split; [reflexivity|]. split; [reflexivity|]. discriminate. }
  destruct (filepath_Abs env1 configPath) as [absPath [e|]].
  { eexists None, None, _, []. split; [reflexivity|]. split; [reflexivity|]. discriminate. }
  destruct (FindTerraformModules (fs env1) absPath recursive) as [[moduleDirs [e|]] printed].
  { eexists None, None, _, printed. split; [reflexivity|]. split; [reflexivity|]. discriminate. }
  assert (Hfails : forall dir, load_fails env2 dir = load_fails env1 dir).
  { intros dir. unfold load_fails. now rewrite Hparse. }
  destruct (first_failure env1 (elems moduleDirs))
    as [Hok | (pre & dir & post & Heq & Hpre & Hdir)].
  - assert (Hok2 : Forall (fun dir => load_fails env2 dir = false) (elems moduleDirs)).
    { eapply List.Forall_impl; [|exact Hok]. intros dir Hd. now rewrite Hfails. }
    rewrite !load_modules_ok by assumption.
    cbn [SBOM.Version SBOM.Generated SBOM.Tool SBOM.Modules]. rewrite !grow_Some.
    eexists (Some _), (Some _), None, printed.
    split; [reflexivity|]. split; [reflexivity|].
    exists (elems moduleDirs). cbn [SBOM.Modules elems app].
    pose proof (record_groups_same env1 env2 (elems moduleDirs) 0 Hparse H1 H2) as Hgroups.
    repeat split; [exact Hgroups | now apply Forall2_Permutation_concat].
  - assert (Hpre2 : Forall (fun dir => load_fails env2 dir = false) pre).
    { eapply List.Forall_impl; [|exact Hpre]. intros d Hd. now rewrite Hfails. }
    rewrite Heq, !load_modules_fail by (assumption || now rewrite Hfails).
    rewrite <- Hparse.
    eexists None, None, _, printed. split; [reflexivity|]. split; [reflexivity|]. discriminate.
Qed.

Lemma Generate_same_records_witness :
  exists r1 r2 err printed,
    Generate (sample_env sample_parser as_listed) "/proj" true = (r1, err, printed) /\
    Generate (sample_env sample_parser backwards) "/proj" true = (r2, err, printed) /\
    match r1, r2 with
    | Some s1, Some s2 =>
        exists moduleDirs,
          SBOM.Modules s1
          = Some (concat (record_groups (sample_env sample_parser as_listed) 0 moduleDirs)) /\
          SBOM.Modules s2
          = Some (concat (record_groups (sample_env sample_parser backwards) 0 moduleDirs)) /\
          Forall2 (@Permutation ModuleInfo.t)
                  (record_groups (sample_env sample_parser as_listed) 0 moduleDirs)
                  (record_groups (sample_env sample_parser backwards) 0 moduleDirs) /\
          Permutation (elems (SBOM.Modules s1)) (elems (SBOM.Modules s2))
    | None, None => err <> None
    | _, _ => False
    end.
Proof.
  apply (Generate_same_records (sample_env sample_parser as_listed)
           (sample_env sample_parser backwards) "/proj" true).
  - repeat split.
  - intros i. exact as_listed_visits_each_once.
  - intros i. exact backwards_visits_each_once.
Defined.

(** ** Errors of a run *)

(** The walk turns every error into a warning: FindTerraformModules
    returns no error in either mode. *)
Lemma FindTerraformModules_no_error (fs : FileSystem) (root : string) (recursive : bool) :
  exists mods printed, FindTerraformModules fs root recursive = (mods, None, printed).
Proof.
  unfold FindTerraformModules, filepath_WalkDir.
  destruct recursive; cbn [negb].
  - destruct (fs root) as [| e | t].
    + cbn. now eexists _, _.
    + cbn. now eexists _, _.
    + rewrite walkDir_find_visit. cbn. now eexists _, _.
  - destruct (HasTerraformFiles (fs root)); now eexists _, _.
Qed.

Lemma FindTerraformModules_walk (fs : FileSystem) (root : string) (t : entry) :
  fs root = Node t ->
  FindTerraformModules fs root true
  = (grow None (found root root t), None, warned root root t).
Proof.
  intros Ht. unfold FindTerraformModules, filepath_WalkDir. cbn [negb].
  rewrite Ht, walkDir_find_visit. reflexivity.
Qed.

(** C2 (as stated) fails: the recursive walk meets a directory it cannot
    read, and Generate prints a warning, goes on and returns the SBOM with
    no error. *)
Lemma walk_error_is_not_reported :
  below delivered "/proj" sample_project "/proj/locked" locked_dir /\
  os_ReadDir (Node locked_dir) = ([], Some "open /proj/locked: permission denied") /\
  Generate (sample_env sample_parser as_listed) "/proj" true
  = (Some sample_report, None, [sample_warning]).
Proof.
  split; [|split].
  - apply below_step with locked_dir.
    + cbn. right. now left.
    + reflexivity.
    + change (filepath_Join "/proj" (Name locked_dir)) with "/proj/locked". constructor.
  - reflexivity.
  - exact sample_run.
Qed.

(** C2 (as amended): Generate stops at the first error of two kinds and
    returns it with no SBOM: a failed stat of the input path, and
    diagnostics with errors from loading a module directory, the first such
    directory in the order of the list.  An error met while the directories
    are searched is not returned: the search prints a warning for it, goes
    on, and returns no error. *)
Theorem Generate_first_error (env : Env) (configPath : string) (recursive : bool) :
  (os_Stat (fs env) configPath = StatNotExist ->
   Generate env configPath recursive
   = (None, Some ("path does not exist: " +:+ configPath), [])) /\
  (forall e, os_Stat (fs env) configPath = StatError e ->
   Generate env configPath recursive
   = (None, Some ("failed to stat path: " +:+ e), [])) /\
  (forall root, exists mods printed,
     FindTerraformModules (fs env) root recursive = (mods, None, printed)) /\
  (forall root t, fs env root = Node t ->
     FindTerraformModules (fs env) root true
     = (grow None (found root root t), None, warned root root t)) /\
  (forall absPath mods printed pre dir post,
     ValidateTerraformDirectory (fs env) configPath = None ->
     filepath_Abs env configPath = (absPath, None) ->
     FindTerraformModules (fs env) absPath recursive = (mods, None, printed) ->
     elems mods = pre ++ dir :: post ->
     Forall (fun d => load_fails env d = false) pre ->
     load_fails env dir = true ->
     Generate env configPath recursive
     = (None,
        Some ("failed to load Terraform module from " +:+ dir +:+ ": "
              +:+ tfconfig.Error (snd (tfconfig_LoadModule env dir))),
        printed)).
Proof.
  split; [|split; [|split; [|split]]].
  - intros H. unfold Generate, ValidateTerraformDirectory. now rewrite H.
  - intros e H. unfold Generate, ValidateTerraformDirectory. now rewrite H.
  - intros root. apply FindTerraformModules_no_error.
  - intros root t. apply FindTerraformModules_walk.
  - intros absPath mods printed pre dir post Hvalid Habs Hfind Hdirs Hpre Hdir.
    unfold Generate. rewrite Hvalid, Habs, Hfind, Hdirs.
    now rewrite load_modules_fail by assumption.
Qed.

Lemma Generate_first_error_witness :
  Generate (sample_env failing_parser as_listed) "/proj" true
  = (None,
     Some ("failed to load Terraform module from /proj/modules/vpc: "
           +:+ tfconfig.Error syntax_error),
     [sample_warning]).
Proof.
  apply (proj2 (proj2 (proj2 (proj2
           (Generate_first_error (sample_env failing_parser as_listed) "/proj" true))))
           "/proj" (Some ["/proj"; "/proj/modules/vpc"]) [sample_warning]
           ["/proj"] "/proj/modules/vpc" []).
  - vm_compute. reflexivity.
  - vm_compute. reflexivity.
  - vm_compute. reflexivity.
  - reflexivity.
  - constructor; [vm_compute; reflexivity | constructor].
  - vm_compute. reflexivity.
Defined.

(* ===================================================================== *)
(** * Further properties *)
(* ===================================================================== *)

(** ** Substrings *)

Lemma substring_whole (s : string) : substring 0 (String.length s) s = s.
Proof. induction s as [|c s IH]; [reflexivity|]. cbn. now rewrite IH. Qed.

Lemma substring_prefix (s1 s2 : string) :
  substring 0 (String.length s1) (s1 +:+ s2) = s1.
Proof.
  induction s1 as [|c s1 IH]; [now destruct s2|].
  rewrite append_cons. cbn. now rewrite IH.
Qed.

Lemma substring_skip (s1 s2 : string) (n : nat) :
  substring (String.length s1) n (s1 +:+ s2) = substring 0 n s2.
Proof.
  induction s1 as [|c s1 IH]; [reflexivity|].
  rewrite append_cons. cbn [String.length substring]. exact IH.
Qed.

Lemma strings_HasSuffix_append (s suffix : string) :
  strings_HasSuffix (s +:+ suffix) suffix = true.
Proof.
  unfold strings_HasSuffix. rewrite length_append.
  replace (String.length s + String.length suffix - String.length suffix)
    with (String.length s) by lia.
  rewrite substring_skip, substring_whole, String.eqb_refl.
  rewrite andb_true_r. apply Nat.leb_le. lia.
Qed.

Lemma strings_TrimSuffix_append (s suffix : string) :
  strings_TrimSuffix (s +:+ suffix) suffix = s.
Proof.
  unfold strings_TrimSuffix. rewrite strings_HasSuffix_append, length_append.
  replace (String.length s + String.length suffix - String.length suffix)
    with (String.length s) by lia.
  apply substring_prefix.
Qed.

Lemma strings_TrimSuffix_empty (s : string) : strings_TrimSuffix s "" = s.
Proof.
  rewrite <- (append_nil_r s) at 1. apply strings_TrimSuffix_append.
Qed.

(** ** Extensions *)

Lemma plain_name_cons (c : ascii) (s : string) :
  plain_name (String c s) = true ->
  os_IsPathSeparator c = false /\ Ascii.eqb c "."%char = false /\ plain_name s = true.
Proof.
  unfold plain_name. cbn [contains_byte]. rewrite negb_true_iff, !orb_false_iff.
  intros [[H1 H2] H3]. now rewrite H3.
Qed.

Lemma ext_scan_rev_app (n : string) : forall rest acc,
  plain_name n = true ->
  ext_scan (String.rev_app n rest) acc = ext_scan rest (n +:+ acc).
Proof.
  induction n as [|c n IH]; intros rest acc Hn; [reflexivity|].
  apply plain_name_cons in Hn as (Hsep & Hdot & Hn).
  cbn [String.rev_app]. rewrite IH by assumption.
  cbn [ext_scan]. now rewrite Hsep, Hdot.
Qed.

(** The extension of a path that ends in a dot and a plain name. *)
Lemma filepath_Ext_dot (stem ext : string) :
  plain_name ext = true -> filepath_Ext (stem +:+ "." +:+ ext) = "." +:+ ext.
Proof.
  intros Hext. unfold filepath_Ext, String.rev. rewrite !rev_app_append.
  rewrite ext_scan_rev_app by assumption. cbn. now rewrite append_nil_r.
Qed.

(** A path whose last element is a plain name has no extension, whatever
    dots the directories before it carry. *)
Lemma filepath_Ext_plain (dir name : string) :
  plain_name name = true ->
  filepath_Ext name = "" /\ filepath_Ext (dir +:+ "/" +:+ name) = "".
Proof.
  intros Hname. unfold filepath_Ext, String.rev. rewrite !rev_app_append.
  rewrite !ext_scan_rev_app by assumption. split; reflexivity.
Qed.

(** ** Output file names *)

Lemma GenerateOutputFilename_eq (baseOutput format : string) :
  GenerateOutputFilename baseOutput format
  = if String.eqb baseOutput "" then "sbom" +:+ format_suffix format
    else strings_TrimSuffix baseOutput (filepath_Ext baseOutput) +:+ format_suffix format.
Proof.
  unfold GenerateOutputFilename, format_suffix.
  destruct (baseOutput =? "")%string;
    destruct (String.eqb_spec format "json") as [->|]; try reflexivity;
    destruct (format =? "xml")%string; try reflexivity;
    destruct (format =? "csv")%string; try reflexivity;
    destruct (format =? "tsv")%string; try reflexivity;
    destruct (format =? "spdx")%string; try reflexivity;
    destruct (format =? "cyclonedx")%string; reflexivity.
Qed.

Lemma append_not_empty (s1 s2 : string) : s2 <> "" -> (s1 +:+ s2 =? "")%string = false.
Proof.
  intros H. apply String.eqb_neq. destruct s1; [exact H | discriminate].
Qed.

Lemma GenerateOutputFilename_dot (stem ext format : string) :
  plain_name ext = true ->
  GenerateOutputFilename (stem +:+ "." +:+ ext) format = stem +:+ format_suffix format.
Proof.
  intros Hext. rewrite GenerateOutputFilename_eq.
  rewrite append_not_empty by (now destruct ext).
  rewrite filepath_Ext_dot by assumption.
  now rewrite strings_TrimSuffix_append.
Qed.

(** X1: when the last element of the base ends in a dot and an extension,
    GenerateOutputFilename puts the extension of the format in its place
    (".json" for a format it does not know); only that last extension goes,
    and a base that is nothing but an extension loses its whole name. *)
Theorem GenerateOutputFilename_replaces_extension (stem ext format : string) :
  plain_name ext = true ->
  GenerateOutputFilename (stem +:+ "." +:+ ext) format = stem +:+ format_suffix format.
Proof. apply GenerateOutputFilename_dot. Qed.

Lemma GenerateOutputFilename_replaces_extension_witness :
  GenerateOutputFilename ("out/report.v2" +:+ "." +:+ "txt") "spdx"
  = "out/report.v2" +:+ format_suffix "spdx".
Proof.
  apply (GenerateOutputFilename_replaces_extension "out/report.v2" "txt" "spdx").
  reflexivity.
Defined.

(** X2: when the last element of the base has no dot, GenerateOutputFilename
    appends the extension of the format to the whole base; dots in the
    directories of the base do not count as an extension. *)
Theorem GenerateOutputFilename_appends_extension (dir name format : string) :
  plain_name name = true ->
  (name <> "" -> GenerateOutputFilename name format = name +:+ format_suffix format) /\
  GenerateOutputFilename (dir +:+ "/" +:+ name) format
  = (dir +:+ "/" +:+ name) +:+ format_suffix format.
Proof.
  intros Hname. destruct (filepath_Ext_plain dir name Hname) as [H1 H2].
  split.
  - intros Hne. rewrite GenerateOutputFilename_eq.
    apply String.eqb_neq in Hne. now rewrite Hne, H1, strings_TrimSuffix_empty.
  - rewrite GenerateOutputFilename_eq, H2, strings_TrimSuffix_empty.
    replace (dir +:+ "/" +:+ name =? "")%string with false; [reflexivity|].
    symmetry. apply append_not_empty. discriminate.
Qed.

Lemma GenerateOutputFilename_appends_extension_witness :
  GenerateOutputFilename ("build.d" +:+ "/" +:+ "sbom") "csv"
  = ("build.d" +:+ "/" +:+ "sbom") +:+ format_suffix "csv".
Proof.
  apply (GenerateOutputFilename_appends_extension "build.d" "sbom" "csv").
  reflexivity.
Defined.

Lemma format_suffix_cases (format : string) :
  (exists ext, plain_name ext = true /\ format_suffix format = "." +:+ ext
               /\ format <> "spdx" /\ format <> "cyclonedx")
  \/ (format = "spdx" /\ format_suffix format = ".spdx.json")
  \/ (format = "cyclonedx" /\ format_suffix format = ".cyclonedx.json").
Proof.
  unfold format_suffix.
  destruct (String.eqb_spec format "xml") as [->|]; [left; exists "xml"; repeat split; discriminate|].
  destruct (String.eqb_spec format "csv") as [->|]; [left; exists "csv"; repeat split; discriminate|].
  destruct (String.eqb_spec format "tsv") as [->|]; [left; exists "tsv"; repeat split; discriminate|].
  destruct (String.eqb_spec format "spdx") as [->|]; [right; left; now split|].
  destruct (String.eqb_spec format "cyclonedx") as [->|]; [right; right; now split|].
  left. exists "json". repeat split; assumption.
Qed.

(** X3: a name GenerateOutputFilename made is kept when it is given back
    as the base for the same format, except for the two formats with a
    double extension: for "spdx" and "cyclonedx" only ".json" is taken off
    again, and the name grows by another ".spdx" or ".cyclonedx". *)
Theorem GenerateOutputFilename_again (baseOutput format : string) :
  (format <> "spdx" -> format <> "cyclonedx" ->
   GenerateOutputFilename (GenerateOutputFilename baseOutput format) format
   = GenerateOutputFilename baseOutput format) /\
  (exists stem,
     GenerateOutputFilename baseOutput "spdx" = stem +:+ ".spdx.json" /\
     GenerateOutputFilename (GenerateOutputFilename baseOutput "spdx") "spdx"
     = stem +:+ ".spdx.spdx.json") /\
  (exists stem,
     GenerateOutputFilename baseOutput "cyclonedx" = stem +:+ ".cyclonedx.json" /\
     GenerateOutputFilename (GenerateOutputFilename baseOutput "cyclonedx") "cyclonedx"
     = stem +:+ ".cyclonedx.cyclonedx.json").
Proof.
  assert (Hform : forall f, exists stem,
            GenerateOutputFilename baseOutput f = stem +:+ format_suffix f).
  { intros f. rewrite GenerateOutputFilename_eq. destruct (baseOutput =? "")%string; now eexists. }
  split; [|split].
  - intros H1 H2. destruct (Hform format) as [stem ->].
    destruct (format_suffix_cases format) as [(ext & Hext & Heq & _) | [[-> _] | [-> _]]];
      [|contradiction|contradiction].
    rewrite Heq. rewrite GenerateOutputFilename_dot by assumption.
    now rewrite Heq.
  - destruct (Hform "spdx") as [stem Hstem]. exists stem. split; [exact Hstem|].
    rewrite Hstem.
    change (stem +:+ format_suffix "spdx") with (stem +:+ ".spdx" +:+ "." +:+ "json").
    rewrite <- append_assoc.
    rewrite GenerateOutputFilename_dot by reflexivity.
    now rewrite append_assoc.
  - destruct (Hform "cyclonedx") as [stem Hstem]. exists stem. split; [exact Hstem|].
    rewrite Hstem.
    change (stem +:+ format_suffix "cyclonedx") with (stem +:+ ".cyclonedx" +:+ "." +:+ "json").
    rewrite <- append_assoc.
    rewrite GenerateOutputFilename_dot by reflexivity.
    now rewrite append_assoc.
Qed.

Lemma GenerateOutputFilename_again_witness :
  GenerateOutputFilename (GenerateOutputFilename "reports/sbom.txt" "xml") "xml"
  = GenerateOutputFilename "reports/sbom.txt" "xml".
Proof.
  apply (proj1 (GenerateOutputFilename_again "reports/sbom.txt" "xml")); discriminate.
Defined.

Lemma format_suffix_not_empty (format : string) : format_suffix format <> "".
Proof.
  destruct (format_suffix_cases format) as [(ext & _ & -> & _) | [[_ ->] | [_ ->]]];
    discriminate.
Qed.

Lemma GenerateOutputFilename_not_empty (baseOutput format : string) :
  (GenerateOutputFilename baseOutput format =? "")%string = false.
Proof.
  rewrite GenerateOutputFilename_eq.
  destruct (baseOutput =? "")%string; apply append_not_empty, format_suffix_not_empty.
Qed.

(** X4: the name GenerateOutputFilename returns always ends in the
    extension of the format and is never empty, so that Export does not
    turn it down as an empty output path. *)
Theorem GenerateOutputFilename_ends_in_extension (baseOutput format : string) :
  strings_HasSuffix (GenerateOutputFilename baseOutput format) (format_suffix format) = true /\
  GenerateOutputFilename baseOutput format <> "".
Proof.
  split; [|apply String.eqb_neq, GenerateOutputFilename_not_empty].
  rewrite GenerateOutputFilename_eq.
  destruct (baseOutput =? "")%string; apply strings_HasSuffix_append.
Qed.

(** ** The slice FindTerraformModules returns *)

Lemma grow_None {A} (l : list A) : grow None l = None <-> l = [].
Proof.
  destruct l as [|x l]; [easy|].
  change (grow None (x :: l)) with (grow (Some [x]) l). rewrite grow_Some.
  split; discriminate.
Qed.

(** X5: in recursive mode the slice FindTerraformModules returns is nil
    exactly when no directory is found, and never an empty slice that is
    not nil; in non-recursive mode it is never nil. *)
Theorem FindTerraformModules_nil_slice (fs : FileSystem) (root : string) :
  (forall mods err printed,
     FindTerraformModules fs root true = (mods, err, printed) ->
     (mods = None <-> elems mods = []) /\ mods <> Some []) /\
  (forall mods err printed,
     FindTerraformModules fs root false = (mods, err, printed) -> mods <> None).
Proof.
  split.
  - intros mods err printed. unfold FindTerraformModules, filepath_WalkDir. cbn [negb].
    destruct (fs root) as [| e | t].
    + cbn. intros H. inversion H; subst. split; [easy | discriminate].
    + cbn. intros H. inversion H; subst. split; [easy | discriminate].
    + rewrite walkDir_find_visit. cbn [modules stderr]. intros H. inversion H; subst.
      destruct (found root root t) as [|q l] eqn:Hfound.
      * split; [easy | discriminate].
      * change (grow None (q :: l)) with (grow (Some [q]) l). rewrite grow_Some.
        split; [split; discriminate|]. cbn. discriminate.
  - intros mods err printed. unfold FindTerraformModules. cbn [negb].
    destruct (HasTerraformFiles (fs root)); intros H; inversion H; discriminate.
Qed.

Lemma FindTerraformModules_nil_slice_witness :
  (Some ["/proj"; "/proj/modules/vpc"] = None
   <-> elems (Some ["/proj"; "/proj/modules/vpc"]) = []) /\
  Some ["/proj"; "/proj/modules/vpc"] <> Some [].
Proof.
  apply (proj1 (FindTerraformModules_nil_slice (fs_at "/proj" sample_project) "/proj")
               (Some ["/proj"; "/proj/modules/vpc"]) None [sample_warning]).
  vm_compute. reflexivity.
Defined.



(** ** The warnings of the walk *)




(** ** The outcome of Generate *)

Lemma ValidateTerraformDirectory_None (fs : FileSystem) (path : string) :
  ValidateTerraformDirectory fs path = None
  <-> exists d, fs path = Node d /\ IsDir d = true.
Proof.
  unfold ValidateTerraformDirectory, os_Stat.
  destruct (fs path) as [| e | d].
  - split; [discriminate|]. intros (d & H & _). discriminate.
  - split; [discriminate|]. intros (d & H & _). discriminate.
  - destruct (IsDir d) eqn:Hd; cbn.
    + split; [|reflexivity]. intros _. now exists d.
    + split; [discriminate|]. intros (d' & H & Hd'). inversion H; subst. congruence.
Qed.

(** X8: Generate returns an SBOM or an error and never both or neither.
    It returns an SBOM exactly when the path given is a directory, its
    absolute path is found, and the parser reports no errors for any of the
    directories the search returns. *)
Theorem Generate_succeeds_iff (env : Env) (configPath : string) (recursive : bool) :
  (forall result err printed,
     Generate env configPath recursive = (result, err, printed) ->
     (result = None <-> err <> None)) /\
  ((exists s printed, Generate env configPath recursive = (Some s, None, printed))
   <-> (exists d, fs env configPath = Node d /\ IsDir d = true) /\
       exists absPath,
         filepath_Abs env configPath = (absPath, None) /\
         Forall (fun dir => load_fails env dir = false)
                (elems (fst (fst (FindTerraformModules (fs env) absPath recursive))))).
Proof.
  split.
  - intros result err printed. unfold Generate.
    destruct (ValidateTerraformDirectory (fs env) configPath) as [e|].
    { intros H. inversion H; subst. split; [discriminate | reflexivity]. }
    destruct (filepath_Abs env configPath) as [absPath [e|]].
    { intros H. inversion H; subst. split; [discriminate | reflexivity]. }
    destruct (FindTerraformModules (fs env) absPath recursive) as [[moduleDirs [e|]] pr].
    { intros H. inversion H; subst. split; [discriminate | reflexivity]. }
    destruct (first_failure env (elems moduleDirs))
      as [Hok | (pre & dir & post & Heq & Hpre & Hdir)].
    + rewrite load_modules_ok by assumption. intros H. inversion H; subst.
      split; [discriminate | intros Hne; now contradiction Hne].
    + rewrite Heq, load_modules_fail by assumption. intros H. inversion H; subst.
      split; [discriminate | reflexivity].
  - split.
    + intros (s & printed & H).
      apply Generate_Some in H as (absPath & moduleDirs & Hvalid & Habs & Hfind & Hok & _).
      split; [now apply ValidateTerraformDirectory_None|].
      exists absPath. split; [assumption|]. now rewrite Hfind.
    + intros (Hdir & absPath & Habs & Hok).
      apply ValidateTerraformDirectory_None in Hdir. unfold Generate.
      rewrite Hdir, Habs.
      destruct (FindTerraformModules_no_error (fs env) absPath recursive)
        as (mods & printed & Hfind).
      rewrite Hfind in *. cbn [fst] in Hok.
      rewrite load_modules_ok by assumption. now eexists _, _.
Qed.

(** X9: for a directory in which no directory that is searched lists a
    Terraform file, Generate returns an SBOM whose Modules list is empty
    and not nil, and no error: an empty project is not a failure, and the
    parser is not asked. *)
Theorem Generate_without_terraform_files (env : Env) (configPath absPath : string) :
  (exists d, fs env configPath = Node d /\ IsDir d = true) ->
  filepath_Abs env configPath = (absPath, None) ->
  (~ lists_tf (fs env absPath) ->
   Generate env configPath false
   = (Some {| SBOM.Version := "1.0";
              SBOM.Generated := Format_RFC3339 (time_Now env);
              SBOM.Tool := "terraform-sbom";
              SBOM.Modules := Some [] |},
      None, [])) /\
  (root_path_unique (fs env) absPath ->
   (forall t q d, fs env absPath = Node t -> below delivered absPath t q d ->
                  ~ lists_tf (Node d)) ->
   exists printed,
     Generate env configPath true
     = (Some {| SBOM.Version := "1.0";
                SBOM.Generated := Format_RFC3339 (time_Now env);
                SBOM.Tool := "terraform-sbom";
                SBOM.Modules := Some [] |},
        None, printed)).
Proof.
  intros Hdir Habs. apply ValidateTerraformDirectory_None in Hdir.
  unfold Generate. rewrite Hdir, Habs. split.
  - intros Hno. unfold FindTerraformModules. cbn [negb].
    destruct (HasTerraformFiles (fs env absPath)) eqn:Htf; [|reflexivity].
    exfalso. apply Hno. now apply HasTerraformFiles_lists_tf.
  - intros Hfresh Hno.
    destruct (fs env absPath) as [| e | t] eqn:Hroot.
    + unfold FindTerraformModules, filepath_WalkDir. rewrite Hroot. cbn. now eexists.
    + unfold FindTerraformModules, filepath_WalkDir. rewrite Hroot. cbn. now eexists.
    + rewrite (FindTerraformModules_walk (fs env) absPath t Hroot).
      assert (Hfound : found absPath absPath t = []).
      { destruct (found absPath absPath t) as [|q l] eqn:Hf; [reflexivity|]. exfalso.
        assert (Hq : In q (found absPath absPath t)) by (rewrite Hf; now left).
        apply found_below in Hq as (d & Hb & Hd); [| now apply Hfresh | now left].
        exact (Hno t q d eq_refl Hb Hd). }
      rewrite Hfound. cbn. now eexists.
Qed.

Lemma Generate_without_terraform_files_witness :
  Generate bare_env "/bare" false
  = (Some {| SBOM.Version := "1.0";
             SBOM.Generated := Format_RFC3339 (time_Now bare_env);
             SBOM.Tool := "terraform-sbom";
             SBOM.Modules := Some [] |},
     None, []).
Proof.
  apply (proj1 (Generate_without_terraform_files bare_env "/bare" "/bare"
                  (ex_intro _ _ (conj eq_refl eq_refl)) eq_refl)).
  intros (l & Hl & e & Hin & Hd & Hs). vm_compute in Hl. inversion Hl; subst l.
  destruct Hin as [<- | [<- | []]]; discriminate.
Defined.

Lemma Generate_succeeds_iff_witness :
  Some sample_report = None <-> @None string <> None.
Proof.
  apply (proj1 (Generate_succeeds_iff (sample_env sample_parser as_listed) "/proj" true)
               (Some sample_report) None [sample_warning]).
  exact sample_run.
Defined.

(** X10: the number of records in the Modules list of a run is the number
    of module calls in the maps of the directories loaded, added up. *)
Theorem Generate_module_count (env : Env) (configPath : string) (recursive : bool)
  (s : SBOM.t) (err : error) (printed : list string) (absPath : string)
  (moduleDirs : slice string) :
  (forall i, visits_each_once (map_order env i)) ->
  Generate env configPath recursive = (Some s, err, printed) ->
  filepath_Abs env configPath = (absPath, None) ->
  FindTerraformModules (fs env) absPath recursive = (moduleDirs, None, printed) ->
  length (elems (SBOM.Modules s))
  = sum_list (map (fun dir => size (tfconfig.ModuleCalls (fst (tfconfig_LoadModule env dir))))
                  (elems moduleDirs)).
Proof.
  intros Hperm H Habs Hfind.
  apply Generate_Some in H as (absPath' & moduleDirs' & _ & Habs' & Hfind' & _ & _ & ->).
  rewrite Habs in Habs'. inversion Habs'; subst absPath'.
  rewrite Hfind in Hfind'. inversion Hfind'; subst moduleDirs'.
  cbn [SBOM.Modules elems].
  rewrite (Permutation_length (record_groups_declared env (elems moduleDirs) 0 Hperm)).
  induction (elems moduleDirs) as [|dir rest IH]; [reflexivity|].
  cbn [flat_map map sum_list sum_list_with]. rewrite length_app, IH. f_equal.
  unfold declared. now rewrite !length_map, length_map_to_list.
Qed.

Lemma Generate_module_count_witness :
  length (elems (SBOM.Modules sample_report))
  = sum_list (map (fun dir => size (tfconfig.ModuleCalls
                                      (fst (tfconfig_LoadModule
                                              (sample_env sample_parser as_listed) dir))))
                  (elems (Some ["/proj"; "/proj/modules/vpc"]))).
Proof.
  apply (Generate_module_count (sample_env sample_parser as_listed) "/proj" true
           sample_report None [sample_warning] "/proj").
  - intros i. exact as_listed_visits_each_once.
  - exact sample_run.
  - vm_compute. reflexivity.
  - vm_compute. reflexivity.
Defined.

(** ** The delimited writer *)

Lemma quoted_body_plain (field : string) :
  contains_byte (fun c => Ascii.eqb c QUOTE) field = false -> quoted_body field = field.
Proof.
  induction field as [|c field IH]; intros H; [reflexivity|].
  cbn [contains_byte] in H. apply orb_false_iff in H as [Hc H].
  cbn [quoted_body]. rewrite Hc, IH by assumption. reflexivity.
Qed.

Lemma contains_byte_or (p q : ascii -> bool) (s : string) :
  contains_byte (fun c => p c || q c) s = contains_byte p s || contains_byte q s.
Proof.
  induction s as [|c s IH]; [reflexivity|].
  cbn [contains_byte]. rewrite IH.
  destruct (p c), (q c), (contains_byte p s), (contains_byte q s); reflexivity.
Qed.

(** X11: whether Write puts a field in quotes depends on the delimiter of
    the writer.  A field with a comma in it, and with no tab, quote,
    carriage return or line feed and no space in front, is written in
    quotes by a writer whose delimiter is the comma, as that of CSV, and as
    it stands by a writer whose delimiter is the tab, as that of TSV: the
    text of the TSV export is not the text of the CSV export with tabs for
    commas. *)
Theorem quoting_follows_delimiter (field written : string) :
  contains_byte (fun c => Ascii.eqb c ","%char) field = true ->
  contains_byte (fun c => Ascii.eqb c LF || Ascii.eqb c CR || Ascii.eqb c QUOTE
                          || Ascii.eqb c TAB) field = false ->
  first_rune_is_space field = false ->
  csv_Write {| Comma := ","%char; buffered := written |} [field]
  = (None, {| Comma := ","%char;
              buffered := written +:+ String QUOTE "" +:+ field +:+ String QUOTE ""
                          +:+ String LF "" |}) /\
  csv_Write {| Comma := TAB; buffered := written |} [field]
  = (None, {| Comma := TAB; buffered := written +:+ field +:+ String LF "" |}).
Proof.
  intros Hcomma Hnone Hspace.
  assert (Hne : (field =? "")%string = false) by (now destruct field).
  assert (Hbs : (field =? "\.")%string = false).
  { apply String.eqb_neq. intros ->. discriminate. }
  rewrite !contains_byte_or in Hnone.
  apply orb_false_iff in Hnone as [Hnone Htab].
  apply orb_false_iff in Hnone as [Hnone Hquote].
  apply orb_false_iff in Hnone as [Hlf Hcr].
  rewrite !csv_Write_row by (reflexivity || discriminate).
  unfold csv_row. cbn [map strings_Join Comma buffered].
  unfold csv_field, fieldNeedsQuotes. cbn [Comma]. rewrite Hne, Hbs.
  rewrite !contains_byte_or, Hlf, Hcr, Hquote, Hcomma, Htab, Hspace. cbn [orb].
  rewrite quoted_body_plain by assumption. now rewrite !append_assoc.
Qed.

Lemma quoting_follows_delimiter_witness :
  csv_Write {| Comma := ","%char; buffered := "" |} [">= 5.0, < 6.0"]
  = (None, {| Comma := ","%char;
              buffered := "" +:+ String QUOTE "" +:+ ">= 5.0, < 6.0" +:+ String QUOTE ""
                          +:+ String LF "" |}) /\
  csv_Write {| Comma := TAB; buffered := "" |} [">= 5.0, < 6.0"]
  = (None, {| Comma := TAB; buffered := "" +:+ ">= 5.0, < 6.0" +:+ String LF "" |}).
Proof.
  apply (quoting_follows_delimiter ">= 5.0, < 6.0" ""); reflexivity.
Defined.

(** ** SPDX identifiers and CycloneDX groups *)

(** X12: the SPDX identifiers of the packages of a document are pairwise
    different, whatever the modules are (two modules of the same name and
    source get different identifiers). *)
Theorem SPDX_identifiers_unique (now1 now2 : Time) (s : SBOM.t) :
  NoDup (map PackageSPDXIdentifier (Packages (ConvertToSPDX now1 now2 s))).
Proof.
  cbn [ConvertToSPDX Packages]. apply NoDup_alt. intros i j x Hi Hj.
  rewrite list_lookup_fmap, list_lookup_imap in Hi, Hj.
  destruct (elems (SBOM.Modules s) !! i) as [mi|]; [|discriminate].
  destruct (elems (SBOM.Modules s) !! j) as [mj|]; [|discriminate].
  cbn in Hi, Hj. inversion Hi as [Hi']. inversion Hj as [Hj'].
  rewrite <- Hj' in Hi'. apply String.app_inj in Hi'.
  unfold fmt_d in Hi'. apply pretty_Z_inj in Hi'. lia.
Qed.

Lemma before_byte_append (sep : ascii) (s1 s2 : string) :
  contains_byte (fun c => Ascii.eqb c sep) s1 = false ->
  before_byte sep (s1 +:+ String sep s2) = s1 /\ before_byte sep s1 = s1.
Proof.
  induction s1 as [|c s1 IH]; intros H.
  - rewrite append_nil_l. cbn. now rewrite Ascii.eqb_refl.
  - cbn [contains_byte] in H. apply orb_false_iff in H as [Hc H].
    rewrite append_cons. cbn [before_byte]. rewrite Hc.
    destruct (IH H) as [-> ->]. now split.
Qed.

(** X13: the group of a CycloneDX component is the first element of the
    Source: the namespace of a registry source, "." for a source that is a
    relative path such as ./modules/x, and the whole Source when there is
    no slash in it. *)
Theorem CycloneDX_group_is_first_element (m : ModuleInfo.t) (first rest : string) :
  contains_byte (fun c => Ascii.eqb c "/"%char) first = false ->
  (ModuleInfo.Source m = first +:+ "/" +:+ rest ->
   Component.Group (component_of m) = first) /\
  (ModuleInfo.Source m = first -> Component.Group (component_of m) = first).
Proof.
  intros Hfirst. rewrite component_of_Group.
  destruct (before_byte_append "/"%char first rest Hfirst) as [H1 H2].
  split; intros ->; assumption.
Qed.

Lemma CycloneDX_group_is_first_element_witness :
  Component.Group (component_of vpc_module) = "terraform-aws-modules".
Proof.
  apply (proj1 (CycloneDX_group_is_first_element vpc_module "terraform-aws-modules"
                  "vpc/aws" eq_refl)).
  reflexivity.
Defined.

(** ** What Export does to the disk *)

Section Export_on_disk.

Variable json_Encode : SBOM.t -> string * error.
Variable XML : SBOM.t -> Writer -> error * Writer.
Variable spdxjson_Write : spdx_Document -> string * error.
Variable cyclonedx_Encode : BOM.t -> string * error.
Variable now1 now2 now3 : Time.

Let Export_ := Export json_Encode XML spdxjson_Write cyclonedx_Encode now1 now2 now3.

Lemma export_to_disk (exporter : Writer -> error * Writer) (path : string) (d : Disk) :
  export_to exporter path d
  = (fst (exporter ""),
     {| files := <[path := default "" (files d !! path) +:+ snd (exporter "")]> (files d);
        refused := refused d;
        calls := calls d ++ [call_Write path (snd (exporter "")); call_Close path] |}).
Proof.
  unfold export_to, file_Close, file_Write. destruct (exporter "") as [err bytes].
  cbn [fst snd files refused calls]. now rewrite <- app_assoc.
Qed.

(** The ways a call of Export can go, told by the exporter it runs. *)
Lemma Export_cases (s : option SBOM.t) (format outputPath : string) (d : Disk) :
  (exists msg, Export_ s format outputPath d = (Some msg, d)) \/
  (outputPath ∈ refused d /\
   exists msg,
     Export_ s format outputPath d
     = (Some msg, {| files := files d; refused := refused d;
                     calls := calls d ++ [call_Create outputPath] |})) \/
  (exists msg,
     Export_ s format outputPath d
     = (Some msg, {| files := <[outputPath := ""]> (files d); refused := refused d;
                     calls := calls d ++ [call_Create outputPath; call_Close outputPath] |})) \/
  (exists err bytes,
     Export_ s format outputPath d
     = (err, {| files := <[outputPath := bytes]> (files d); refused := refused d;
                calls := calls d ++ [call_Create outputPath; call_Write outputPath bytes;
                                     call_Close outputPath] |})).
Proof.
  unfold Export_, Export.
  destruct s as [s|]; [|left; now eexists].
  destruct (format =? "")%string; [left; now eexists|].
  destruct (outputPath =? "")%string; [left; now eexists|].
  unfold os_Create. destruct (decide (outputPath ∈ refused d)) as [Hin|Hout].
  { right. left. split; [assumption|]. now eexists. }
  right. right.
  assert (Hto : forall exporter,
            exists err bytes,
              export_to exporter outputPath
                {| files := <[outputPath := ""]> (files d); refused := refused d;
                   calls := calls d ++ [call_Create outputPath] |}
              = (err, {| files := <[outputPath := bytes]> (files d); refused := refused d;
                         calls := calls d ++ [call_Create outputPath;
                                              call_Write outputPath bytes;
                                              call_Close outputPath] |})).
  { intros exporter. rewrite export_to_disk. cbn [files refused calls].
    rewrite lookup_insert_eq, insert_insert_eq. cbn [default]. rewrite append_nil_l.
    rewrite <- app_assoc. now eexists _, _. }
  destruct (format =? "json")%string; [right; apply Hto|].
  destruct (format =? "xml")%string; [right; apply Hto|].
  destruct (format =? "csv")%string; [right; apply Hto|].
  destruct (format =? "tsv")%string; [right; apply Hto|].
  destruct (format =? "spdx")%string; [right; apply Hto|].
  destruct (format =? "cyclonedx")%string; [right; apply Hto|].
  left. unfold file_Close. cbn [files refused calls]. rewrite <- app_assoc. now eexists.
Qed.

(** X14: whatever the format and however the export ends, Export leaves
    every file other than the one at the output path as it was, and it
    closes the file it created: the calls it makes are none, or a refused
    creation, or a creation followed by the closing of that file, with the
    bytes of the exporter written in between when an exporter ran. *)
Theorem Export_touches_only_output (s : option SBOM.t) (format outputPath : string)
  (d : Disk) :
  (forall other, other <> outputPath ->
     files (snd (Export_ s format outputPath d)) !! other = files d !! other) /\
  refused (snd (Export_ s format outputPath d)) = refused d /\
  (calls (snd (Export_ s format outputPath d)) = calls d \/
   (outputPath ∈ refused d /\
    calls (snd (Export_ s format outputPath d)) = calls d ++ [call_Create outputPath]) \/
   calls (snd (Export_ s format outputPath d))
   = calls d ++ [call_Create outputPath; call_Close outputPath] \/
   exists bytes,
     calls (snd (Export_ s format outputPath d))
     = calls d ++ [call_Create outputPath; call_Write outputPath bytes;
                   call_Close outputPath]).
Proof.
  destruct (Export_cases s format outputPath d)
    as [(msg & ->) | [(Hin & msg & ->) | [(msg & ->) | (err & bytes & ->)]]];
    cbn [snd files refused calls].
  - repeat split; auto.
  - repeat split; auto.
  - split; [|split; auto]. intros other Hne. now apply lookup_insert_ne.
  - split; [|split]; [| reflexivity |].
    + intros other Hne. now apply lookup_insert_ne.
    + right. right. right. now exists bytes.
Qed.



Lemma format_suffix_unsupported (format : string) :
  ~ In format supported_formats -> format_suffix format = ".json".
Proof.
  intros H. destruct (unsupported_format_eqb format H) as (_ & H1 & H2 & H3 & H4 & H5).
  unfold format_suffix. now rewrite H1, H2, H3, H4, H5.
Qed.

(** X16: for a format that is not supported GenerateOutputFilename gives
    the file name of the format "json", and Export, called with that name
    as a caller such as main does, empties the file before it returns the
    error: the JSON report of the same base, if there is one, is lost. *)
Theorem unsupported_format_empties_json_report (s : SBOM.t) (baseOutput format : string)
  (d : Disk) :
  format <> "" -> ~ In format supported_formats ->
  GenerateOutputFilename baseOutput "json" ∉ refused d ->
  GenerateOutputFilename baseOutput format = GenerateOutputFilename baseOutput "json" /\
  fst (Export_ (Some s) format (GenerateOutputFilename baseOutput format) d)
  = Some ("unsupported format: " +:+ format
          +:+ " (supported: json, xml, csv, tsv, spdx, cyclonedx)") /\
  files (snd (Export_ (Some s) format (GenerateOutputFilename baseOutput format) d))
    !! GenerateOutputFilename baseOutput "json"
  = Some "".
Proof.
  intros Hf Hunsup Hok.
  assert (Hname : GenerateOutputFilename baseOutput format
                  = GenerateOutputFilename baseOutput "json").
  { rewrite !GenerateOutputFilename_eq. now rewrite (format_suffix_unsupported format Hunsup). }
  split; [exact Hname|]. rewrite Hname.
  pose proof (GenerateOutputFilename_not_empty baseOutput "json") as Hne.
  apply String.eqb_neq in Hf.
  unfold Export_, Export. rewrite Hf, Hne.
  unfold os_Create. rewrite decide_False by assumption.
  destruct (unsupported_format_eqb format Hunsup) as (-> & -> & -> & -> & -> & ->).
  cbn [fst snd file_Close files]. split; [reflexivity|]. apply lookup_insert_eq.
Qed.

End Export_on_disk.

Lemma Export_touches_only_output_witness :
  files (snd (Export (fun _ => ("", None)) (fun _ w => (None, w)) (fun _ => ("", None))
                (fun _ => ("", None)) sample_time sample_time sample_time
                (Some sample_sbom) "csv" "sbom.csv" sample_disk))
    !! "sbom.yaml"
  = files sample_disk !! "sbom.yaml".
Proof.
  apply (proj1 (Export_touches_only_output
                  (fun _ => ("", None)) (fun _ w => (None, w)) (fun _ => ("", None))
                  (fun _ => ("", None)) sample_time sample_time sample_time
                  (Some sample_sbom) "csv" "sbom.csv" sample_disk)).
  discriminate.
Defined.


Lemma unsupported_format_empties_json_report_witness :
  GenerateOutputFilename "sbom.yaml" "yaml" = GenerateOutputFilename "sbom.yaml" "json" /\
  fst (Export (fun _ => ("", None)) (fun _ w => (None, w)) (fun _ => ("", None))
              (fun _ => ("", None)) sample_time sample_time sample_time
              (Some sample_sbom) "yaml" (GenerateOutputFilename "sbom.yaml" "yaml")
              {| files := {["sbom.json" := "a report"]}; refused := ∅; calls := [] |})
  = Some "unsupported format: yaml (supported: json, xml, csv, tsv, spdx, cyclonedx)" /\
  files (snd (Export (fun _ => ("", None)) (fun _ w => (None, w)) (fun _ => ("", None))
                (fun _ => ("", None)) sample_time sample_time sample_time
                (Some sample_sbom) "yaml" (GenerateOutputFilename "sbom.yaml" "yaml")
                {| files := {["sbom.json" := "a report"]}; refused := ∅; calls := [] |}))
    !! GenerateOutputFilename "sbom.yaml" "json"
  = Some "".
Proof.
  apply (unsupported_format_empties_json_report
           (fun _ => ("", None)) (fun _ w => (None, w)) (fun _ => ("", None))
           (fun _ => ("", None)) sample_time sample_time sample_time
           sample_sbom "sbom.yaml" "yaml"
           {| files := {["sbom.json" := "a report"]}; refused := ∅; calls := [] |}).
  - discriminate.
  - rewrite <- list_elem_of_In. apply (bool_decide_unpack _). vm_compute. reflexivity.
  - apply (bool_decide_unpack _). vm_compute. reflexivity.
Defined.

(** X17: for one base, the file names of two different supported formats
    are different: the exports of one run do not overwrite each other. *)
Theorem GenerateOutputFilename_distinct (baseOutput format1 format2 : string) :
  In format1 supported_formats -> In format2 supported_formats ->
  format1 <> format2 ->
  GenerateOutputFilename baseOutput format1 <> GenerateOutputFilename baseOutput format2.
Proof.
  intros H1 H2 Hne Heq. rewrite !GenerateOutputFilename_eq in Heq.
  assert (Hsuffix : format_suffix format1 = format_suffix format2).
  { destruct (baseOutput =? "")%string; now apply String.app_inj in Heq. }
  clear Heq. cbn in H1, H2.
  repeat (destruct H1 as [<- | H1]; [|]); try contradiction;
    repeat (destruct H2 as [<- | H2]; [|]); try contradiction;
    (discriminate Hsuffix || now apply Hne).
Qed.

Lemma GenerateOutputFilename_distinct_witness :
  "spdx" <> "cyclonedx" /\
  GenerateOutputFilename "out/sbom" "spdx" <> GenerateOutputFilename "out/sbom" "cyclonedx".
Proof.
  split; [discriminate|].
  apply (GenerateOutputFilename_distinct "out/sbom" "spdx" "cyclonedx").
  - cbn. tauto.
  - cbn. tauto.
  - discriminate.
Defined.

(** ** main.go and the packages *)

Lemma main_fold_add_module (l : list tfconfig.ModuleCall) : forall sbom,
  fold_left (fun sbom moduleCall => main_add_module sbom (main_moduleInfo_of moduleCall))
            l (main_SBOM_of sbom)
  = main_SBOM_of
      (fold_left (fun sbom moduleCall => add_module sbom (moduleInfo_of moduleCall)) l sbom).
Proof.
  induction l as [|mc l IH]; intros sbom; [reflexivity|].
  cbn [fold_left]. rewrite <- IH. f_equal.
  unfold main_add_module, add_module, main_SBOM_of, append.
  cbn [MainSBOM.Version MainSBOM.Generated MainSBOM.Tool MainSBOM.Modules
       SBOM.Version SBOM.Generated SBOM.Tool SBOM.Modules option_map].
  f_equal. f_equal. destruct (SBOM.Modules sbom) as [ms|]; cbn [elems option_map].
  - now rewrite map_app.
  - reflexivity.
Qed.

Lemma main_load_modules_agrees (env : Env) (moduleDirs : list string) : forall i sbom,
  main_load_modules env i moduleDirs (main_SBOM_of sbom)
  = (option_map main_SBOM_of (fst (load_modules env i moduleDirs sbom)),
     snd (load_modules env i moduleDirs sbom)).
Proof.
  induction moduleDirs as [|dir rest IH]; intros i sbom; [reflexivity|].
  cbn [main_load_modules load_modules].
  destruct (tfconfig_LoadModule env dir) as [module diags].
  destruct (tfconfig.HasErrors diags); [reflexivity|].
  rewrite main_fold_add_module. apply IH.
Qed.

(** X18: generateSBOM of main.go returns what Generate of package sbom
    returns, with the same error and the same warnings: the same SBOM
    without the Filename of its records. *)
Theorem generateSBOM_agrees (env : Env) (configPath : string) (recursive : bool) :
  generateSBOM env configPath recursive
  = (option_map main_SBOM_of (fst (fst (Generate env configPath recursive))),
     snd (fst (Generate env configPath recursive)),
     snd (Generate env configPath recursive)).
Proof.
  unfold generateSBOM, Generate.
  change (validateTerraformDirectory (fs env) configPath)
    with (ValidateTerraformDirectory (fs env) configPath).
  change (findTerraformModules) with (FindTerraformModules).
  destruct (ValidateTerraformDirectory (fs env) configPath) as [e|]; [reflexivity|].
  destruct (filepath_Abs env configPath) as [absPath [e|]]; [reflexivity|].
  destruct (FindTerraformModules (fs env) absPath recursive) as [[moduleDirs [e|]] printed];
    [reflexivity|].
  change {| MainSBOM.Version := "1.0";
            MainSBOM.Generated := Format_RFC3339 (time_Now env);
            MainSBOM.Tool := "terraform-sbom";
            MainSBOM.Modules := Some [] |}
    with (main_SBOM_of {| SBOM.Version := "1.0";
                          SBOM.Generated := Format_RFC3339 (time_Now env);
                          SBOM.Tool := "terraform-sbom";
                          SBOM.Modules := Some [] |}).
  rewrite main_load_modules_agrees.
  now destruct (load_modules env 0 (elems moduleDirs) _) as [res err].
Qed.




(** ** The run of main *)

Section main_properties.

Variable json_Encode : MainSBOM.t -> string * error.
Variable xml_Encode : MainSBOM.t -> string * error.
Variable spdxjson_Write : spdx_Document -> string * error.
Variable cyclonedx_Encode : BOM.t -> string * error.
Variable strings_TrimSpace : string -> string.
Variable flag_defaults : string.
Variable clock : nat -> Time * Time * Time.

Let exportSBOM_ := exportSBOM json_Encode xml_Encode spdxjson_Write cyclonedx_Encode.
Let export_formats_ :=
  export_formats json_Encode xml_Encode spdxjson_Write cyclonedx_Encode clock.
Let main_ :=
  main json_Encode xml_Encode spdxjson_Write cyclonedx_Encode strings_TrimSpace
       flag_defaults clock.

(** The export of one format in the [k]-th round of the loop of [main]. *)
Let export_one (output : string) (sbom : MainSBOM.t) (k : nat) (format : string)
  (d : Disk) : error * Disk :=
  exportSBOM_ (clock k) (Some sbom) format (generateOutputFilename output format) d.

Lemma export_formats_all (output : string) (verbose : bool) (sbom : MainSBOM.t)
  (formats : list string) : forall k o d',
  exports_succeed (export_one output sbom) k (disk o) formats d' ->
  export_formats_ output verbose sbom k formats o
  = {| out := out o ++ exported_lines verbose output formats;
       err_out := err_out o; status := status o; disk := d' |}.
Proof.
  induction formats as [|f rest IH]; intros k o d' H; inversion H; subst.
  - cbn. rewrite app_nil_r. now destruct o.
  - cbn [export_formats_ export_formats]. fold export_formats_.
    unfold export_one, exportSBOM_ in *.
    destruct verbose; cbn [disk out err_out status].
    + match goal with Hexp : exportSBOM _ _ _ _ _ _ _ _ _ = _ |- _ => rewrite Hexp end.
      erewrite IH by (cbn [disk]; eassumption). cbn [out err_out status disk exported_lines flat_map].
      f_equal. now rewrite <- !app_assoc.
    + match goal with Hexp : exportSBOM _ _ _ _ _ _ _ _ _ = _ |- _ => rewrite Hexp end.
      erewrite IH by (cbn [disk]; eassumption). cbn [out err_out status disk exported_lines flat_map].
      f_equal. now rewrite <- !app_assoc.
Qed.

Lemma export_formats_fail (output : string) (verbose : bool)
  (sbom : MainSBOM.t) (pre : list string) (format : string) (post : list string)
  (k : nat) (o : Outcome) (d1 d2 : Disk) (err : string) :
  exports_succeed (export_one output sbom) k (disk o) pre d1 ->
  export_one output sbom (k + length pre) format d1 = (Some err, d2) ->
  export_formats_ output verbose sbom k (pre ++ format :: post) o
  = {| out := out o ++ exported_lines verbose output pre
              ++ (if verbose
                  then ["Exporting " +:+ format +:+ " format to: "
                        +:+ generateOutputFilename output format +:+ String LF ""]
                  else []);
       err_out := err_out o ++ ["Error exporting " +:+ format +:+ " format: "
                                +:+ err +:+ String LF ""];
       status := 1;
       disk := d2 |} /\
  export_formats_ output verbose sbom k pre o
  = {| out := out o ++ exported_lines verbose output pre;
       err_out := err_out o; status := status o; disk := d1 |}.
Proof.
  intros Hpre Hfail. split; [|now apply export_formats_all].
  revert k o Hpre Hfail. induction pre as [|f rest IH]; intros k o Hpre Hfail;
    inversion Hpre; subst.
  - cbn [app length] in *. rewrite Nat.add_0_r in Hfail.
    cbn [export_formats_ export_formats]. unfold export_one, exportSBOM_ in Hfail.
    destruct verbose; cbn [disk out err_out status]; rewrite Hfail;
      cbn [exported_lines flat_map app]; now rewrite ?app_nil_r.
  - cbn [app export_formats_ export_formats]. fold export_formats_.
    cbn [length] in Hfail. rewrite Nat.add_succ_r in Hfail.
    unfold export_one, exportSBOM_ in *.
    destruct verbose; cbn [disk out err_out status];
      match goal with Hexp : exportSBOM _ _ _ _ _ _ _ _ _ = _ |- _ => rewrite Hexp end;
      erewrite IH by (cbn [disk]; eassumption);
      cbn [out err_out status disk exported_lines flat_map];
      f_equal; now rewrite <- !app_assoc.
Qed.

(** X20: main exports the formats in the order given and stops at the
    first export that returns an error: it prints the error, exits with
    status 1 and does not try the formats after it, while the files of the
    formats before it stay written.  When every export succeeds the status
    is left as it was. *)
Theorem export_formats_stops_at_first_error (output : string) (verbose : bool)
  (sbom : MainSBOM.t) (pre : list string) (format : string) (post : list string)
  (k : nat) (o : Outcome) (d1 d2 : Disk) (err : string) :
  exports_succeed (export_one output sbom) k (disk o) pre d1 ->
  export_one output sbom (k + length pre) format d1 = (Some err, d2) ->
  export_formats_ output verbose sbom k (pre ++ format :: post) o
  = {| out := out o ++ exported_lines verbose output pre
              ++ (if verbose
                  then ["Exporting " +:+ format +:+ " format to: "
                        +:+ generateOutputFilename output format +:+ String LF ""]
                  else []);
       err_out := err_out o ++ ["Error exporting " +:+ format +:+ " format: "
                                +:+ err +:+ String LF ""];
       status := 1;
       disk := d2 |} /\
  export_formats_ output verbose sbom k pre o
  = {| out := out o ++ exported_lines verbose output pre;
       err_out := err_out o; status := status o; disk := d1 |}.
Proof. apply export_formats_fail. Qed.

Lemma strings_Split_plain_byte (sep : ascii) (x : string) :
  contains_byte (fun c => Ascii.eqb c sep) x = false -> strings_Split x sep = [x].
Proof.
  induction x as [|c x IH]; intros Hx; [reflexivity|].
  cbn [contains_byte] in Hx. apply orb_false_iff in Hx as [Hc Hx].
  cbn [strings_Split]. now rewrite Hc, IH.
Qed.

Lemma strings_Split_append_byte (sep : ascii) (x s : string) :
  contains_byte (fun c => Ascii.eqb c sep) x = false ->
  strings_Split (x +:+ String sep s) sep = x :: strings_Split s sep.
Proof.
  induction x as [|c x IH]; intros Hx.
  - rewrite append_nil_l. cbn [strings_Split]. now rewrite Ascii.eqb_refl.
  - cbn [contains_byte] in Hx. apply orb_false_iff in Hx as [Hc Hx].
    rewrite append_cons. cbn [strings_Split]. now rewrite Hc, IH.
Qed.

(** X21: main does not write anything when it fails before the exports:
    without a directory argument it prints the usage message, and when
    generateSBOM returns an error it prints the warnings of the search and
    the error; either way it exits with status 1 and makes no call that
    creates or writes a file. *)
Theorem main_fails_without_writing (argv0 format output : string)
  (verbose recursive : bool) (env : Env) (d : Disk) :
  main_ argv0 format output verbose recursive [] env d
  = {| out := []; err_out := usage flag_defaults argv0; status := 1; disk := d |} /\
  (forall configPath more result err warnings,
     generateSBOM env configPath recursive = (result, Some err, warnings) ->
     status (main_ argv0 format output verbose recursive (configPath :: more) env d) = 1%Z /\
     disk (main_ argv0 format output verbose recursive (configPath :: more) env d) = d /\
     err_out (main_ argv0 format output verbose recursive (configPath :: more) env d)
     = warnings ++ ["Error: " +:+ err +:+ String LF ""]).
Proof.
  split; [reflexivity|].
  intros configPath more result err warnings H. unfold main_, main. rewrite H.
  destruct result; repeat split.
Qed.

(** X22: with the formats "json,<u>", where <u> is a format that is not
    supported, main first writes the JSON report and then, exporting <u>
    under the file name of the format "json", empties that report and
    exits with status 1. *)
Theorem main_unsupported_format_after_json (argv0 output u : string)
  (verbose recursive : bool) (configPath : string) (more : list string)
  (env : Env) (d : Disk) (sbom : MainSBOM.t) (warnings : list string) (bytes : string) :
  strings_TrimSpace "json" = "json" -> strings_TrimSpace u = u ->
  contains_byte (fun c => Ascii.eqb c ","%char) u = false ->
  u <> "" -> ~ In u supported_formats ->
  generateSBOM env configPath recursive = (Some sbom, None, warnings) ->
  json_Encode sbom = (bytes, None) ->
  generateOutputFilename output "json" ∉ refused d ->
  status (main_ argv0 ("json," +:+ u) output verbose recursive (configPath :: more) env d)
  = 1%Z /\
  files (disk (main_ argv0 ("json," +:+ u) output verbose recursive (configPath :: more)
                 env d))
    !! generateOutputFilename output "json"
  = Some "" /\
  last (err_out (main_ argv0 ("json," +:+ u) output verbose recursive (configPath :: more)
                   env d))
  = Some ("Error exporting " +:+ u +:+ " format: unsupported format: " +:+ u
          +:+ " (supported: json, xml, csv, tsv, spdx, cyclonedx)" +:+ String LF "").
Proof.
  intros Hjson Hu Hcomma Hne Hunsup Hgen Henc Hok.
  assert (Hformats : map strings_TrimSpace (strings_Split ("json," +:+ u) ","%char)
                     = ["json"; u]).
  { change ("json," +:+ u) with ("json" +:+ String ","%char u).
    rewrite strings_Split_append_byte by reflexivity.
    rewrite strings_Split_plain_byte by assumption.
    cbn [map]. now rewrite Hjson, Hu. }
  assert (Hname : generateOutputFilename output u = generateOutputFilename output "json").
  { change generateOutputFilename with GenerateOutputFilename.
    rewrite !GenerateOutputFilename_eq. now rewrite (format_suffix_unsupported u Hunsup). }
  set (name := generateOutputFilename output "json") in *.
  assert (Hnonempty : (name =? "")%string = false).
  { apply (GenerateOutputFilename_not_empty output "json"). }
  assert (Hfirst : forall d0, files d0 = files d -> refused d0 = refused d ->
            export_one output sbom 0 "json" d0
            = (None, {| files := <[name := bytes]> (files d); refused := refused d;
                        calls := calls d0 ++ [call_Create name; call_Write name bytes;
                                              call_Close name] |})).
  { intros d0 Hfiles Hrefused. unfold export_one, exportSBOM_, exportSBOM. fold name.
    rewrite Hnonempty. cbn [String.eqb Ascii.eqb Bool.eqb].
    unfold os_Create. rewrite decide_False by (now rewrite Hrefused).
    rewrite export_to_disk. unfold exportJSON. rewrite Henc.
    cbn [fst snd files refused calls]. rewrite lookup_insert_eq, insert_insert_eq.
    cbn [default]. rewrite !append_nil_l, Hfiles, Hrefused.
    rewrite <- (app_assoc (calls d0)). reflexivity. }
  assert (Hsecond : forall d0, refused d0 = refused d ->
            export_one output sbom 1 u d0
            = (Some ("unsupported format: " +:+ u
                     +:+ " (supported: json, xml, csv, tsv, spdx, cyclonedx)"),
               {| files := <[name := ""]> (files d0); refused := refused d0;
                  calls := calls d0 ++ [call_Create name; call_Close name] |})).
  { intros d0 Hrefused. unfold export_one, exportSBOM_, exportSBOM. rewrite Hname.
    apply String.eqb_neq in Hne. rewrite Hne, Hnonempty.
    unfold os_Create. rewrite decide_False by (now rewrite Hrefused).
    destruct (unsupported_format_eqb u Hunsup) as (-> & -> & -> & -> & -> & ->).
    unfold file_Close. cbn [files refused calls].
    rewrite <- (app_assoc (calls d0)). reflexivity. }
  unfold main_, main. rewrite Hgen, Hformats.
  match goal with
  | |- context [export_formats _ _ _ _ _ _ _ _ 0 _ ?o] => set (o0 := o)
  end.
  assert (Hdisk : disk o0 = d).
  { subst o0. now destruct (length (elems (MainSBOM.Modules sbom)) =? 0)%nat. }
  destruct (export_formats_fail output verbose sbom ["json"] u [] 0 o0
              {| files := <[name := bytes]> (files d); refused := refused d;
                 calls := calls d ++ [call_Create name; call_Write name bytes;
                                      call_Close name] |}
              {| files := <[name := ""]> (<[name := bytes]> (files d));
                 refused := refused d;
                 calls := (calls d ++ [call_Create name; call_Write name bytes;
                                       call_Close name])
                          ++ [call_Create name; call_Close name] |}
              ("unsupported format: " +:+ u
               +:+ " (supported: json, xml, csv, tsv, spdx, cyclonedx)"))
    as [Hrun _].
  - rewrite Hdisk. econstructor; [|constructor]. apply Hfirst; reflexivity.
  - cbn [length Nat.add]. rewrite Hsecond by reflexivity. reflexivity.
  - unfold export_formats_ in Hrun. cbn [app] in Hrun. rewrite Hrun.
    cbn [status disk files err_out]. split; [reflexivity|].
    split; [apply lookup_insert_eq|]. rewrite last_snoc, !append_assoc. reflexivity.
Qed.

End main_properties.

Lemma sample_generateSBOM :
  generateSBOM (sample_env sample_parser as_listed) "/proj" true
  = (Some (main_SBOM_of sample_report), None, [sample_warning]).
Proof. vm_compute. reflexivity. Qed.

Lemma export_formats_stops_at_first_error_witness :
  export_formats sample_json_Encode sample_xml_Encode sample_spdxjson_Write
                 sample_cyclonedx_Encode sample_clock
                 "sbom" false (main_SBOM_of sample_report) 0 (["json"] ++ "yaml" :: ["csv"])
                 {| out := []; err_out := []; status := 0; disk := empty_disk |}
  = {| out := [] ++ exported_lines false "sbom" ["json"] ++ [];
       err_out := [] ++ ["Error exporting yaml format: unsupported format: yaml"
                         +:+ " (supported: json, xml, csv, tsv, spdx, cyclonedx)"
                         +:+ String LF ""];
       status := 1;
       disk := {| files := {["sbom.json" := ""]}; refused := ∅;
                  calls := [call_Create "sbom.json"; call_Write "sbom.json" "{}";
                            call_Close "sbom.json"; call_Create "sbom.json";
                            call_Close "sbom.json"] |} |}.
Proof.
  refine (proj1 (export_formats_stops_at_first_error
                  sample_json_Encode sample_xml_Encode sample_spdxjson_Write
                  sample_cyclonedx_Encode sample_clock
                  "sbom" false (main_SBOM_of sample_report) ["json"] "yaml" ["csv"] 0
                  {| out := []; err_out := []; status := 0; disk := empty_disk |}
                  {| files := {["sbom.json" := "{}"]}; refused := ∅;
                     calls := [call_Create "sbom.json"; call_Write "sbom.json" "{}";
                               call_Close "sbom.json"] |}
                  {| files := {["sbom.json" := ""]}; refused := ∅;
                     calls := [call_Create "sbom.json"; call_Write "sbom.json" "{}";
                               call_Close "sbom.json"; call_Create "sbom.json";
                               call_Close "sbom.json"] |}
                  ("unsupported format: yaml"
                   +:+ " (supported: json, xml, csv, tsv, spdx, cyclonedx)") _ _)).
  - econstructor; [vm_compute; reflexivity | constructor].
  - vm_compute. reflexivity.
Defined.

Lemma main_fails_without_writing_witness :
  status (sample_main "tf-sbom" "json" "" false false ["/nowhere"]
            (sample_env sample_parser as_listed) empty_disk) = 1%Z /\
  disk (sample_main "tf-sbom" "json" "" false false ["/nowhere"]
          (sample_env sample_parser as_listed) empty_disk) = empty_disk /\
  err_out (sample_main "tf-sbom" "json" "" false false ["/nowhere"]
             (sample_env sample_parser as_listed) empty_disk)
  = [] ++ ["Error: " +:+ "path does not exist: /nowhere" +:+ String LF ""].
Proof.
  apply (proj2 (main_fails_without_writing
                  sample_json_Encode sample_xml_Encode sample_spdxjson_Write
                  sample_cyclonedx_Encode TrimSpace_ascii "  -f string" sample_clock
                  "tf-sbom" "json" "" false false (sample_env sample_parser as_listed)
                  empty_disk)
               "/nowhere" [] None "path does not exist: /nowhere" []).
  vm_compute. reflexivity.
Defined.

Lemma main_unsupported_format_after_json_witness :
  status (sample_main "tf-sbom" ("json," +:+ "yaml") "" false true ["/proj"]
            (sample_env sample_parser as_listed) empty_disk) = 1%Z /\
  files (disk (sample_main "tf-sbom" ("json," +:+ "yaml") "" false true ["/proj"]
                 (sample_env sample_parser as_listed) empty_disk))
    !! generateOutputFilename "" "json"
  = Some "" /\
  last (err_out (sample_main "tf-sbom" ("json," +:+ "yaml") "" false true ["/proj"]
                   (sample_env sample_parser as_listed) empty_disk))
  = Some ("Error exporting " +:+ "yaml" +:+ " format: unsupported format: " +:+ "yaml"
          +:+ " (supported: json, xml, csv, tsv, spdx, cyclonedx)" +:+ String LF "").
Proof.
  apply (main_unsupported_format_after_json
           sample_json_Encode sample_xml_Encode sample_spdxjson_Write
           sample_cyclonedx_Encode TrimSpace_ascii "  -f string" sample_clock
           "tf-sbom" "" "yaml" false true "/proj" []
           (sample_env sample_parser as_listed) empty_disk
           (main_SBOM_of sample_report) [sample_warning] "{}").
  - reflexivity.
  - reflexivity.
  - reflexivity.
  - discriminate.
  - rewrite <- list_elem_of_In. apply (bool_decide_unpack _). vm_compute. reflexivity.
  - exact sample_generateSBOM.
  - reflexivity.
  - apply (bool_decide_unpack _). vm_compute. reflexivity.
Defined.

(** ** The root Generate hands to the search *)

Lemma filepath_Abs_absolute (env : Env) (configPath absPath : string) :
  filepath_Abs env configPath = (absPath, None) ->
  filepath_IsAbs configPath = true \/ filepath_IsAbs (fst (os_Getwd env)) = true ->
  exists path, filepath_IsAbs path = true /\ absPath = filepath_Clean path.
Proof.
  unfold filepath_Abs. intros Habs Hor.
  destruct (filepath_IsAbs configPath) eqn:Hp.
  - inversion Habs. now exists configPath.
  - destruct Hor as [Hor|Hwd]; [discriminate|].
    destruct (os_Getwd env) as [wd [e|]]; [discriminate|]. cbn [fst] in Hwd.
    inversion Habs. unfold filepath_IsAbs in Hwd.
    destruct (HasPrefix_slash wd Hwd) as [wd' ->].
    exists (String Separator wd' +:+ "/" +:+ configPath). split.
    + rewrite append_cons. unfold filepath_IsAbs, strings_HasPrefix. cbn.
      now destruct (wd' +:+ "/" +:+ configPath).
    + reflexivity.
Qed.

(** X23: when the path given or the working directory is absolute, the
    root Generate hands to the search is a cleaned absolute path, and over
    entries with proper names no entry below it is walked under the path of
    the root itself: the walk tells the root from every other directory. *)
Theorem Generate_root_is_told_apart (env : Env) (configPath absPath : string) :
  filepath_Abs env configPath = (absPath, None) ->
  filepath_IsAbs configPath = true \/ filepath_IsAbs (fst (os_Getwd env)) = true ->
  (forall t, fs env absPath = Node t -> proper_names t = true) ->
  (exists elements,
     Forall (fun e => proper_name e = true) elements /\ absPath = abs_path elements) /\
  root_path_unique (fs env) absPath.
Proof.
  intros Habs Hor Hproper.
  destruct (filepath_Abs_absolute env configPath absPath Habs Hor) as (path & Hpath & ->).
  split.
  - destruct (filepath_Clean_absolute path Hpath) as (elements & Helems & Heq).
    now exists elements.
  - now apply absolute_root_path_unique.
Qed.

Lemma Generate_root_is_told_apart_witness :
  (exists elements,
     Forall (fun e => proper_name e = true) elements /\ "/proj" = abs_path elements) /\
  root_path_unique (fs (sample_env sample_parser as_listed)) "/proj".
Proof.
  apply (Generate_root_is_told_apart (sample_env sample_parser as_listed) "/proj" "/proj").
  - reflexivity.
  - left. reflexivity.
  - intros t Ht. vm_compute in Ht. inversion Ht; subst t. reflexivity.
Defined.

(** ** Where the directories returned lie *)

Lemma strings_Join_app (l1 l2 : list string) :
  l1 <> [] -> l2 <> [] ->
  strings_Join (l1 ++ l2) "/" = strings_Join l1 "/" +:+ "/" +:+ strings_Join l2 "/".
Proof.
  intros H1 H2. induction l1 as [|x l1 IH]; [contradiction|].
  destruct l1 as [|y l1].
  - cbn [app]. destruct l2 as [|z l2]; [contradiction|]. reflexivity.
  - change (strings_Join ((x :: y :: l1) ++ l2) "/")
      with (x +:+ "/" +:+ strings_Join ((y :: l1) ++ l2) "/").
    rewrite IH by discriminate.
    change (strings_Join (x :: y :: l1) "/") with (x +:+ "/" +:+ strings_Join (y :: l1) "/").
    now rewrite !append_assoc.
Qed.

Lemma abs_path_app (elements extra : list string) :
  exists rest, abs_path (elements ++ extra) = abs_path elements +:+ rest.
Proof.
  unfold abs_path. destruct extra as [|e extra].
  - exists "". now rewrite app_nil_r, append_nil_r.
  - destruct elements as [|x elements].
    + exists (strings_Join (e :: extra) "/"). reflexivity.
    + exists ("/" +:+ strings_Join (e :: extra) "/").
      rewrite strings_Join_app by discriminate. now rewrite !append_assoc.
Qed.

Lemma found_abs_path (root : string) (d : entry) : forall elements q,
  proper_names d = true ->
  Forall (fun e => proper_name e = true) elements ->
  In q (found root (abs_path elements) d) ->
  exists extra,
    Forall (fun e => proper_name e = true) extra /\ q = abs_path (elements ++ extra).
Proof.
  induction d as [name|name listed rderr unlisted IH _] using entry_ind;
    intros elements q Hproper Helems Hq.
  - destruct Hq.
  - cbn [found] in Hq.
    destruct (hidden (Dir name listed rderr unlisted)
              && negb (abs_path elements =? root)%string); [destruct Hq|].
    apply in_app_iff in Hq as [Hq | Hq].
    + destruct (HasTerraformFiles _); [|destruct Hq]. destruct Hq as [<- | []].
      exists []. split; [constructor | now rewrite app_nil_r].
    + apply in_flat_map in Hq as (c & Hc & Hq).
      cbn [proper_names] in Hproper. rewrite List.forallb_forall in Hproper.
      specialize (Hproper c Hc). apply andb_prop in Hproper as [Hn Hsub].
      rewrite filepath_Join_abs_path in Hq by assumption.
      rewrite Forall_forall in IH. apply list_elem_of_In in Hc.
      destruct (IH c Hc (elements ++ [Name c]) q Hsub) as (extra & Hextra & ->);
        [apply Forall_app; split; [assumption | now constructor] | exact Hq |].
      exists (Name c :: extra). split; [now constructor|].
      now rewrite <- app_assoc.
Qed.

(** X24: over entries with proper names, every directory the recursive
    search of a cleaned absolute root returns is the root or lies below
    it: its path is the path of the root followed by further elements, and
    so begins with the path of the root. *)
Theorem FindTerraformModules_below_root (fs : FileSystem) (path : string) :
  filepath_IsAbs path = true ->
  (forall t, fs (filepath_Clean path) = Node t -> proper_names t = true) ->
  forall mods err printed q,
    FindTerraformModules fs (filepath_Clean path) true = (mods, err, printed) ->
    In q (elems mods) ->
    exists elements extra rest,
      filepath_Clean path = abs_path elements /\
      q = abs_path (elements ++ extra) /\
      Forall (fun e => proper_name e = true) (elements ++ extra) /\
      q = filepath_Clean path +:+ rest.
Proof.
  intros Habs Hproper mods err printed q Hfind Hq.
  destruct (filepath_Clean_absolute path Habs) as (elements & Helems & Heq).
  destruct (fs (filepath_Clean path)) as [| e | t] eqn:Hroot.
  - unfold FindTerraformModules, filepath_WalkDir in Hfind. rewrite Hroot in Hfind.
    cbn in Hfind. inversion Hfind; subst. destruct Hq.
  - unfold FindTerraformModules, filepath_WalkDir in Hfind. rewrite Hroot in Hfind.
    cbn in Hfind. inversion Hfind; subst. destruct Hq.
  - rewrite (FindTerraformModules_walk fs _ t Hroot) in Hfind. inversion Hfind; subst.
    rewrite elems_grow in Hq. cbn [elems app] in Hq. rewrite Heq in Hq.
    destruct (found_abs_path _ t elements q (Hproper t eq_refl) Helems Hq)
      as (extra & Hextra & ->).
    destruct (abs_path_app elements extra) as [rest Hrest].
    exists elements, extra, rest. rewrite Heq. repeat split; try assumption.
    apply Forall_app. now split.
Qed.

Lemma FindTerraformModules_below_root_witness :
  exists elements extra rest,
    filepath_Clean "/proj" = abs_path elements /\
    "/proj/modules/vpc" = abs_path (elements ++ extra) /\
    Forall (fun e => proper_name e = true) (elements ++ extra) /\
    "/proj/modules/vpc" = filepath_Clean "/proj" +:+ rest.
Proof.
  apply (FindTerraformModules_below_root (fs_at "/proj" sample_project) "/proj" eq_refl)
    with (mods := Some ["/proj"; "/proj/modules/vpc"]) (err := None)
         (printed := [sample_warning]).
  - intros t Ht. vm_compute in Ht. inversion Ht; subst t. reflexivity.
  - vm_compute. reflexivity.
  - right. now left.
Defined.

(** ** What Generate asks the parser *)

Lemma load_modules_same_parser (env1 env2 : Env) (moduleDirs : list string) :
  forall i sbom,
  map_order env1 = map_order env2 ->
  Forall (fun dir => tfconfig_LoadModule env1 dir = tfconfig_LoadModule env2 dir)
         moduleDirs ->
  load_modules env1 i moduleDirs sbom = load_modules env2 i moduleDirs sbom.
Proof.
  induction moduleDirs as [|dir rest IH]; intros i sbom Horder H; [reflexivity|].
  apply Forall_cons_1 in H as [Hdir Hrest].
  cbn [load_modules]. rewrite Hdir, Horder.
  destruct (tfconfig_LoadModule env2 dir) as [module diags].
  destruct (tfconfig.HasErrors diags); [reflexivity|]. now apply IH.
Qed.

(** X25: Generate asks the parser about the directories the search returns
    and about no other: two parsers that agree on those directories give
    the same result, whatever they say about any other path. *)
Theorem Generate_asks_parser_about_found_only (env1 env2 : Env) (configPath : string)
  (recursive : bool) :
  fs env1 = fs env2 -> os_Getwd env1 = os_Getwd env2 ->
  time_Now env1 = time_Now env2 -> map_order env1 = map_order env2 ->
  (forall absPath dir,
     filepath_Abs env1 configPath = (absPath, None) ->
     In dir (elems (fst (fst (FindTerraformModules (fs env1) absPath recursive)))) ->
     tfconfig_LoadModule env1 dir = tfconfig_LoadModule env2 dir) ->
  Generate env1 configPath recursive = Generate env2 configPath recursive.
Proof.
  intros Hfs Hwd Hnow Horder Hparse.
  assert (Habs : filepath_Abs env2 configPath = filepath_Abs env1 configPath).
  { unfold filepath_Abs. now rewrite Hwd. }
  unfold Generate. rewrite Habs, <- Hfs, <- Hnow.
  destruct (ValidateTerraformDirectory (fs env1) configPath) as [e|]; [reflexivity|].
  destruct (filepath_Abs env1 configPath) as [absPath [e|]]; [reflexivity|].
  specialize (Hparse absPath).
  destruct (FindTerraformModules (fs env1) absPath recursive) as [[moduleDirs [e|]] printed];
    [reflexivity|].
  cbn [fst] in Hparse.
  rewrite (load_modules_same_parser env1 env2 (elems moduleDirs) 0 _ Horder); [reflexivity|].
  apply Forall_forall. intros dir Hdir. apply Hparse; [reflexivity|].
  now apply list_elem_of_In.
Qed.

Lemma Generate_asks_parser_about_found_only_witness :
  Generate (sample_env sample_parser as_listed) "/proj" false
  = Generate (sample_env failing_parser as_listed) "/proj" false.
Proof.
  apply (Generate_asks_parser_about_found_only
           (sample_env sample_parser as_listed) (sample_env failing_parser as_listed)
           "/proj" false eq_refl eq_refl eq_refl eq_refl).
  intros absPath dir Habs Hdir. vm_compute in Habs. inversion Habs; subst absPath.
  vm_compute in Hdir. destruct Hdir as [<- | []]. reflexivity.
Defined.

(** ** Lines of the delimited text *)

Lemma count_LF_append (s1 s2 : string) : count_LF (s1 +:+ s2) = count_LF s1 + count_LF s2.
Proof.
  induction s1 as [|c s1 IH]; [reflexivity|].
  rewrite append_cons. cbn [count_LF]. rewrite IH. lia.
Qed.

Lemma count_LF_quoted_body (field : string) : count_LF (quoted_body field) = count_LF field.
Proof.
  induction field as [|c field IH]; [reflexivity|].
  cbn [quoted_body]. rewrite count_LF_append, IH. cbn [count_LF].
  destruct (Ascii.eqb c QUOTE) eqn:Hq; [|cbn [count_LF]; lia].
  apply Ascii.eqb_eq in Hq. subst c. reflexivity.
Qed.

Lemma count_LF_csv_field (comma : ascii) (field : string) :
  count_LF (csv_field comma field) = count_LF field.
Proof.
  unfold csv_field. destruct (fieldNeedsQuotes _ field); [|reflexivity].
  rewrite !count_LF_append, count_LF_quoted_body.
  change (count_LF (String QUOTE "")) with 0. lia.
Qed.

Lemma count_LF_csv_row (comma : ascii) (fields : list string) :
  Ascii.eqb comma LF = false ->
  Forall (fun f => count_LF f = 0) fields ->
  count_LF (csv_row comma fields) = 1.
Proof.
  intros Hcomma H. unfold csv_row. rewrite count_LF_append.
  assert (Hrest : forall l, Forall (fun f => count_LF f = 0) l ->
            count_LF (string_concat
                        (map (fun f => String comma "" +:+ f) (map (csv_field comma) l)))
            = 0).
  { intros l Hl. induction Hl as [|g l Hg _ IH]; [reflexivity|].
    cbn [map string_concat]. rewrite !count_LF_append, count_LF_csv_field, Hg, IH.
    cbn [count_LF]. now rewrite Hcomma. }
  destruct H as [|f rest Hf Hfields]; [reflexivity|].
  cbn [map]. rewrite strings_Join_cons, count_LF_append, count_LF_csv_field, Hf.
  now rewrite (Hrest rest Hfields).
Qed.

(** X26: when no Name, Source, Version or Location holds a line feed, the
    text CSV writes and the text TSV writes have one line for the header
    and one line for each module: the number of line feeds written is the
    number of modules and one. *)
Theorem delimited_export_lines (s : SBOM.t) (writer : Writer) :
  Forall single_line (elems (SBOM.Modules s)) ->
  count_LF (snd (CSV s writer)) = count_LF writer + S (length (elems (SBOM.Modules s))) /\
  count_LF (snd (TSV s writer)) = count_LF writer + S (length (elems (SBOM.Modules s))).
Proof.
  intros H.
  assert (Hany : forall comma, Ascii.eqb comma LF = false ->
            count_LF (delimited_text comma s) = S (length (elems (SBOM.Modules s)))).
  { intros comma Hcomma. unfold delimited_text, delimited_rows. cbn [map string_concat].
    rewrite count_LF_append, count_LF_csv_row; [|assumption|repeat constructor].
    f_equal. induction H as [|m rest (H1 & H2 & H3 & H4) _ IH]; [reflexivity|].
    cbn [map string_concat length]. rewrite count_LF_append, IH.
    rewrite count_LF_csv_row; [reflexivity|assumption|].
    repeat (constructor; [assumption|]). constructor. }
  unfold CSV, TSV. rewrite !exportDelimited_text by reflexivity. cbn [snd].
  rewrite !count_LF_append, !Hany by reflexivity. now split.
Qed.

Lemma delimited_export_lines_witness :
  count_LF (snd (CSV sample_sbom ""))
  = count_LF "" + S (length (elems (SBOM.Modules sample_sbom))) /\
  count_LF (snd (TSV sample_sbom ""))
  = count_LF "" + S (length (elems (SBOM.Modules sample_sbom))).
Proof.
  apply (delimited_export_lines sample_sbom "").
  repeat constructor.
Defined.
